(** * pyUSID [io/hdf_utils.py]: the reshape and indexing engine

    A shallow embedding of the functions of [pyUSID/io/hdf_utils.py] that
    move data between the flat two-dimensional USID form and its
    N-dimensional interpretation, together with the properties stated about
    them.

    Python values are modelled as follows.
    - A 2-D numpy array or HDF5 dataset is a [matrix]: its rows, plus the
      number of columns (so that a matrix without rows still has a shape).
    - An N-D numpy array is an [ndarray]: its shape and its elements in C
      order.
    - Index matrices hold [INDICES_DTYPE] entries, modelled in [Z].
    - An exception is a value of [exn]; a function that can raise returns a
      [result]. *)

From stdpp Require Import gmap strings list sorting pretty.
From Stdlib Require Import ZArith Lia Ascii.

Open Scope string_scope.
Open Scope list_scope.
Open Scope nat_scope.

(** ** Exceptions *)

Inductive exn : Type :=
  | TypeError (msg : string)
  | ValueError (msg : string)
  | KeyError (msg : string)
  | IndexError (msg : string)
  | AttributeError (msg : string).

Inductive result (A : Type) : Type :=
  | Ok (a : A)
  | Raise (e : exn).
Arguments Ok {A} a.
Arguments Raise {A} e.

#[global] Instance result_ret : MRet result := fun A a => Ok a.
#[global] Instance result_bind : MBind result := fun A B f m =>
  match m with
  | Ok a => f a
  | Raise e => Raise e
  end.

#[global] Instance result_fmap : FMap result := fun A B f m =>
  match m with
  | Ok a => Ok (f a)
  | Raise e => Raise e
  end.

Definition raises {A} (r : result A) : Prop :=
  match r with
  | Ok _ => False
  | Raise _ => True
  end.

(** [check b e] is [if not b: raise e]. *)
Definition check (b : bool) (e : exn) : result unit :=
  if b then Ok tt else Raise e.

(** ** numpy and Python primitives *)

Module Np.

(** [l[i]] with Python's negative indices counted from the end. *)
Definition py_index {A} (l : list A) (i : Z) : option A :=
  if (i <? 0)%Z
  then (if (i + Z.of_nat (length l) <? 0)%Z then None
        else l !! Z.to_nat (i + Z.of_nat (length l)))
  else l !! Z.to_nat i.

(** [np.where(mask)[0]]: the positions at which a 1-D mask holds. *)
Fixpoint where_from (start : nat) (mask : list bool) : list nat :=
  match mask with
  | [] => []
  | b :: mask' =>
      if b then start :: where_from (S start) mask'
      else where_from (S start) mask'
  end.

Definition where_ (mask : list bool) : list nat := where_from 0 mask.

(** [np.diff(l)]: differences of consecutive entries. *)
Fixpoint diff (l : list Z) : list Z :=
  match l with
  | a :: (b :: _) as l' => (b - a)%Z :: diff l'
  | _ => []
  end.

(** [np.unique(l)]: the distinct entries, ascending. *)
Fixpoint insert_unique (x : Z) (l : list Z) : list Z :=
  match l with
  | [] => [x]
  | y :: l' =>
      if (x <? y)%Z then x :: y :: l'
      else if (x =? y)%Z then y :: l'
      else y :: insert_unique x l'
  end.

Definition unique (l : list Z) : list Z := foldr insert_unique [] l.

(** [np.min(l)]; numpy raises [ValueError] on an empty array. *)
Definition min (l : list Z) : result Z :=
  match l with
  | [] => Raise (ValueError "zero-size array to reduction operation minimum which has no identity")
  | x :: l' => Ok (foldr Z.min x l')
  end.

(** [np.max(l)]; numpy raises [ValueError] on an empty array. *)
Definition max (l : list Z) : result Z :=
  match l with
  | [] => Raise (ValueError "zero-size array to reduction operation maximum which has no identity")
  | x :: l' => Ok (foldr Z.max x l')
  end.

(** [b - a] in [INDICES_DTYPE], an unsigned 32-bit integer type: the
    difference wraps around. *)
Definition sub_uint32 (b a : Z) : Z := ((b - a) mod 2 ^ 32)%Z.

(** [np.diff(l)] on an array of [INDICES_DTYPE]. *)
Fixpoint diff_uint32 (l : list Z) : list Z :=
  match l with
  | a :: (b :: _) as l' => sub_uint32 b a :: diff_uint32 l'
  | _ => []
  end.

(** [l[start:stop]] for non-negative bounds. *)
Definition slice {A} (l : list A) (start stop : nat) : list A :=
  take (stop - start) (drop start l).

(** [np.argsort(keys)] with the default [kind].  numpy sorts up to 16 keys by
    insertion, moving an entry left only past strictly larger keys, so that
    equal keys stay in index order: this is [argsort].  More keys are
    partitioned first, and equal keys may then change places: the default
    kind is not stable.  There [argsort] gives one of the orders in which the
    keys ascend, and what holds of [np.argsort] whatever order it returns is
    stated with [argsort_result] below. *)
Fixpoint insert_index (key : nat → nat) (i : nat) (sorted : list nat) : list nat :=
  match sorted with
  | [] => [i]
  | j :: sorted' =>
      if key i <? key j then i :: j :: sorted'
      else j :: insert_index key i sorted'
  end.

Fixpoint argsort_upto (key : nat → nat) (n : nat) : list nat :=
  match n with
  | 0 => []
  | S n' => insert_index key n' (argsort_upto key n')
  end.

Definition argsort (keys : list nat) : list nat :=
  argsort_upto (λ i, nth i keys 0) (length keys).

(** [np.prod(shape)]. *)
Definition prod (shape : list nat) : nat := foldr Nat.mul 1 shape.

End Np.

(** ** Two-dimensional arrays *)

Record matrix (A : Type) : Type := Matrix {
  mat_ncols : nat;
  mat_rows : list (list A)
}.
Arguments Matrix {A} mat_ncols mat_rows.
Arguments mat_ncols {A} m.
Arguments mat_rows {A} m.

Definition mat_nrows {A} (m : matrix A) : nat := length (mat_rows m).

(** [m.size]. *)
Definition mat_size {A} (m : matrix A) : nat := mat_nrows m * mat_ncols m.

(** Every row has [mat_ncols] entries. *)
Definition mat_wf {A} (m : matrix A) : Prop :=
  Forall (λ r, length r = mat_ncols m) (mat_rows m).

(** [m[:, j]]. *)
Definition mat_col {A} (m : matrix A) (j : nat) : list A :=
  omap (λ r, r !! j) (mat_rows m).

(** [np.transpose(m)]. *)
Definition transpose {A} (m : matrix A) : matrix A :=
  Matrix (mat_nrows m) (map (mat_col m) (seq 0 (mat_ncols m))).

(** The orientation test shared by [get_sort_order] and
    [get_dimensionality]:
<<
    if ds_spec.shape[0] > ds_spec.shape[1]:
        # must be spectroscopic like in shape (few rows, more cols)
        ds_spec = np.transpose(ds_spec)
>> *)
Definition as_spectroscopic {A} (m : matrix A) : matrix A :=
  if mat_ncols m <? mat_nrows m then transpose m else m.

(** ** [get_sort_order] *)

(** [row[i] != row[i - 1]]; at [i = 0] Python reads [row[-1]], the last
    entry. *)
Definition changed (row : list Z) (i : nat) : bool :=
  bool_decide (Np.py_index row (Z.of_nat i) ≠ Np.py_index row (Z.of_nat i - 1)).

(** [len(np.where([row[i] != row[i - 1] for i in range(len(row))])[0])] *)
Definition change_count_row (row : list Z) : nat :=
  length (Np.where_ (map (changed row) (seq 0 (length row)))).

Definition change_count (ds_spec : matrix Z) : list nat :=
  map change_count_row (mat_rows (as_spectroscopic ds_spec)).

Definition get_sort_order (ds_spec : matrix Z) : list nat :=
  let change_count := change_count ds_spec in
  let change_sort := reverse (Np.argsort change_count) in
  change_sort.

(** The count of row [i], as the sort reads it. *)
Definition count_of (ds_spec : matrix Z) (i : nat) : nat :=
  nth i (change_count ds_spec) 0.

(** The specification's tie rule: of two rows with the same count, the one
    that comes first in the matrix comes first in the result. *)
Definition ties_keep_original_order (cnt : nat → nat) (order : list nat) : Prop :=
  ∀ p q a b, p < q → order !! p = Some a → order !! q = Some b →
    cnt a = cnt b → a < b.

(** What [np.argsort(keys)] returns whatever the kind of the sort: the
    indices of [keys], in an order in which the keys ascend.  Nothing is said
    of the order of equal keys. *)
Definition argsort_result (keys : list nat) (order : list nat) : Prop :=
  order ≡ₚ seq 0 (length keys) ∧
  ∀ p q i j, p < q → order !! p = Some i → order !! q = Some j →
             nth i keys 0 ≤ nth j keys 0.

(** [get_sort_order(ds_spec)] with any order that [np.argsort] may return:
    [change_sort] is such an order, reversed. *)
Definition get_sort_order_result (ds_spec : matrix Z) (change_sort : list nat) : Prop :=
  ∃ order, argsort_result (change_count ds_spec) order ∧ change_sort = reverse order.

(** The example of the specification: Bias (5 values, fast) and Cycle (3
    values, slow). *)
Definition bias_cycle_inds : matrix Z :=
  Matrix 15 [ [0;1;2;3;4;0;1;2;3;4;0;1;2;3;4];
              [0;0;0;0;0;1;1;1;1;1;2;2;2;2;2] ]%Z.

(** Two rows that change equally often. *)
Definition tied_inds : matrix Z := Matrix 2 [ [0;1]; [0;1] ]%Z.

(** The order of a stable ascending sort by [key]. *)
Definition stable_lt (key : nat → nat) (i j : nat) : Prop :=
  key i < key j ∨ (key i = key j ∧ i < j).

(** ** [get_dimensionality] *)

(** Modelled from the spec: [dtype_utils.contains_integers] is imported by
    [hdf_utils.py] but is not among the sources.  Its call site reads
    [if not contains_integers(index_sort, min_val=0): raise
    ValueError('index_sort should contain integers > 0')]: the sequence holds
    integers, none below [min_val]; an empty sequence holds none.  The
    entries are integers by their type here. *)
Definition contains_integers (iter_int : list Z) (min_val : Z) : bool :=
  match iter_int with
  | [] => false
  | _ => forallb (λ x, (min_val <=? x)%Z) iter_int
  end.

(** [rows[idx]] for a list [idx] of row numbers (numpy's integer-array
    indexing along the first axis). *)
Fixpoint take_rows {A} (rows : list A) (idx : list nat) : result (list A) :=
  match idx with
  | [] => Ok []
  | i :: idx' =>
      match rows !! i with
      | Some r => rs ← take_rows rows idx'; Ok (r :: rs)
      | None => Raise (IndexError "index is out of bounds for axis 0")
      end
  end.

(** [set(np.arange(n))], with the entries as Python integers. *)
Definition arange_set (n : nat) : gset Z := list_to_set (Z.of_nat <$> seq 0 n).

Definition get_dimensionality (ds_index : matrix Z) (index_sort : option (list Z))
  : result (list nat) :=
  let ds_index := as_spectroscopic ds_index in
  index_sort ←
    match index_sort with
    | None => Ok (seq 0 (mat_nrows ds_index))
    | Some index_sort =>
        check (contains_integers index_sort 0)
          (ValueError "index_sort should contain integers > 0");;
        (* index_sort.ndim != 1 cannot hold of a flat sequence *)
        check (negb (mat_nrows ds_index <? length (Np.unique index_sort)))
          (ValueError "length of index_sort should be smaller than number of dimensions in provided dataset");;
        check (bool_decide (arange_set (mat_nrows ds_index) = list_to_set index_sort))
          (ValueError "Sort order of dimensions not matching with number of dimensions");;
        Ok (Z.to_nat <$> index_sort)
    end;
  rows ← take_rows (mat_rows ds_index) index_sort;
  let sorted_dims := map (λ row, length (Np.unique row)) rows in
  Ok sorted_dims.

(** The number of distinct values of each row, in row order. *)
Definition row_sizes (m : matrix Z) : list nat :=
  map (λ row, length (Np.unique row)) (mat_rows m).

(** The specification's condition on the order: a rearrangement of
    [0 .. n-1], each row index exactly once. *)
Definition is_permutation_of_rows (n : nat) (order : list Z) : Prop :=
  order ≡ₚ (Z.of_nat <$> seq 0 n).

(** The condition the code tests: a non-empty sequence whose entries are the
    row indices, each at least once. *)
Definition covers_rows (n : nat) (order : list Z) : Prop :=
  order ≠ [] ∧ ∀ x, x ∈ order ↔ (0 ≤ x < Z.of_nat n)%Z.

Definition two_rows : matrix Z := Matrix 2 [ [0;1]; [0;0] ]%Z.

(** ** N-dimensional arrays *)

Record ndarray (A : Type) : Type := NdArray {
  nd_shape : list nat;
  nd_flat : list A
}.
Arguments NdArray {A} nd_shape nd_flat.
Arguments nd_shape {A} _.
Arguments nd_flat {A} _.

Definition nd_ndim {A} (a : ndarray A) : nat := length (nd_shape a).
Definition nd_size {A} (a : ndarray A) : nat := Np.prod (nd_shape a).

(** The elements fill the shape. *)
Definition nd_wf {A} (a : ndarray A) : Prop := length (nd_flat a) = nd_size a.

(** [shape[i]]; a tuple raises [IndexError] past its end. *)
Definition shape_at (shape : list nat) (i : nat) : result nat :=
  match shape !! i with
  | Some n => Ok n
  | None => Raise (IndexError "tuple index out of range")
  end.

Definition nd_of_matrix {A} (m : matrix A) : ndarray A :=
  NdArray [mat_nrows m; mat_ncols m] (concat (mat_rows m)).

(** ** The HDF5 store, as far as this module reads it *)

(** The value of an attribute: an object reference, a string, an array of
    strings, a number, or a region reference, the pair of slices
    [(start, stop)] that selects the rows and columns of one dimension. *)
Inductive attr : Type :=
  | AttrRef (r : nat)
  | AttrStr (s : string)
  | AttrStrs (l : list string)
  | AttrNum (z : Z)
  | AttrRegion (rows cols : option nat * option nat).

#[global] Instance attr_eq_dec : EqDecision attr.
Proof. solve_decision. Defined.

Record dataset (A : Type) : Type := Dataset {
  dset_name : string;
  dset_data : ndarray A;
  dset_attrs : gmap string attr
}.
Arguments Dataset {A} dset_name dset_data dset_attrs.
Arguments dset_name {A} d.
Arguments dset_data {A} d.
Arguments dset_attrs {A} d.

Definition dset_shape {A} (d : dataset A) : list nat := nd_shape (dset_data d).

(** The objects of a file; the stored ancillary numbers are read as
    integers. *)
Inductive h5obj : Type :=
  | H5Dataset (d : dataset Z)
  | H5Group (name : string) (attrs : gmap string attr).

(** A file resolves object references and path names. *)
Record h5file : Type := H5File {
  objects : gmap nat h5obj;
  paths : gmap string nat
}.

(** [obj.attrs[name]] *)
Definition attrs_getitem (attrs : gmap string attr) (name : string) : result attr :=
  match attrs !! name with
  | Some v => Ok v
  | None => Raise (KeyError "Can't open attribute (can't locate attribute)")
  end.

(** [name in obj.attrs] *)
Definition attrs_contains (attrs : gmap string attr) (name : string) : bool :=
  bool_decide (is_Some (attrs !! name)).

(** [h5_file[v]] *)
Definition file_getitem (f : h5file) (v : attr) : result h5obj :=
  match v with
  | AttrRef r =>
      match objects f !! r with
      | Some o => Ok o
      | None => Raise (ValueError "Invalid HDF5 object reference")
      end
  | AttrStr s =>
      match paths f !! s ≫= (λ r, objects f !! r) with
      | Some o => Ok o
      | None => Raise (KeyError "Unable to open object (object doesn't exist)")
      end
  | _ => Raise (TypeError "Accessing a group is done with bytes or str")
  end.

(** [isinstance(obj, h5py.Dataset)] *)
Definition is_h5_dataset (o : h5obj) : bool :=
  match o with
  | H5Dataset _ => true
  | H5Group _ _ => false
  end.

(** [obj.shape]; a group has none. *)
Definition obj_shape (o : h5obj) : result (list nat) :=
  match o with
  | H5Dataset d => Ok (dset_shape d)
  | H5Group _ _ => Raise (AttributeError "'Group' object has no attribute 'shape'")
  end.

(** An argument that is expected to be the main dataset: an HDF5 dataset (of
    a file), an HDF5 group, a numpy array or any other Python object. *)
Inductive main_arg (A : Type) : Type :=
  | MainDataset (f : h5file) (d : dataset A)
  | MainGroup (f : h5file) (name : string) (attrs : gmap string attr)
  | MainArray (a : ndarray A)
  | MainOther.
Arguments MainDataset {A} f d.
Arguments MainGroup {A} f name attrs.
Arguments MainArray {A} a.
Arguments MainOther {A}.

(** ** [check_if_main] *)

Definition dset_names : list string :=
  ["Position_Indices"; "Position_Values"; "Spectroscopic_Indices"; "Spectroscopic_Values"].

(** [h5_main.file[h5_main.attrs[name]]] *)
Definition linked {A} (f : h5file) (h5_main : dataset A) (name : string) : result h5obj :=
  ref ← attrs_getitem (dset_attrs h5_main) name; file_getitem f ref.

(** The loop over [dset_names]; [None] is the [return False] of its bare
    [except:]. *)
Fixpoint check_links {A} (f : h5file) (h5_main : dataset A) (success : bool)
    (names : list string) : option bool :=
  match names with
  | [] => Some success
  | name :: names' =>
      match linked f h5_main name with
      | Ok h5_anc_dset =>
          check_links f h5_main (success && is_h5_dataset h5_anc_dset) names'
      | Raise _ => None
      end
  end.

Definition check_if_main {A} (h5_main : main_arg A) : result bool :=
  match h5_main with
  | MainDataset f d =>
      let success := true in
      let success := success && bool_decide (length (dset_shape d) = 2) in
      if negb success then Ok success else
      match check_links f d success dset_names with
      | None => Ok false
      | Some success =>
          let attr_success :=
            forallb (attrs_contains (dset_attrs d)) ["quantity"; "units"] in
          if negb attr_success then Ok false else
          h5_pos_inds ← linked f d "Position_Indices";
          h5_pos_vals ← linked f d "Position_Values";
          vals_shape ← obj_shape h5_pos_vals;
          inds_shape ← obj_shape h5_pos_inds;
          main_rows ← shape_at (dset_shape d) 0;
          vals_rows ← shape_at vals_shape 0;
          inds_rows ← shape_at inds_shape 0;
          let anc_shape_match :=
            [bool_decide (vals_shape = inds_shape);
             main_rows =? vals_rows; main_rows =? inds_rows] in
          if negb (forallb id anc_shape_match) then Ok false else
          h5_spec_inds ← linked f d "Spectroscopic_Indices";
          h5_spec_vals ← linked f d "Spectroscopic_Values";
          inds_shape ← obj_shape h5_spec_inds;
          vals_shape ← obj_shape h5_spec_vals;
          main_cols ← shape_at (dset_shape d) 1;
          inds_cols ← shape_at inds_shape 1;
          vals_cols ← shape_at vals_shape 1;
          let anc_shape_match :=
            [bool_decide (inds_shape = vals_shape);
             main_cols =? inds_cols; main_cols =? vals_cols] in
          if negb (forallb id anc_shape_match) then Ok false else
          Ok success
      end
  | _ => Ok false
  end.

(** *** Example stores *)

Definition zeros (shape : list nat) : ndarray Z :=
  NdArray shape (replicate (Np.prod shape) 0%Z).

Definition anc_dataset (name : string) (shape : list nat) : h5obj :=
  H5Dataset (Dataset name (zeros shape) ∅).

Definition main_attrs : gmap string attr :=
  <["Position_Indices" := AttrRef 1]> (<["Position_Values" := AttrRef 2]>
  (<["Spectroscopic_Indices" := AttrRef 3]> (<["Spectroscopic_Values" := AttrRef 4]>
  (<["quantity" := AttrStr "Current"]> (<["units" := AttrStr "nA"]> ∅))))).

(** A 2 x 3 main dataset linked to ancillaries of the given shapes. *)
Definition main_with (pos_shape spec_shape : list nat) : main_arg Z :=
  MainDataset
    (H5File (<[1 := anc_dataset "Position_Indices" pos_shape]>
            (<[2 := anc_dataset "Position_Values" pos_shape]>
            (<[3 := anc_dataset "Spectroscopic_Indices" spec_shape]>
            (<[4 := anc_dataset "Spectroscopic_Values" spec_shape]> ∅)))) ∅)
    (Dataset "Raw_Data" (zeros [2; 3]) main_attrs).

(** The same main dataset, its position indices link pointing at a group. *)
Definition main_with_group_link : main_arg Z :=
  MainDataset
    (H5File (<[1 := H5Group "Measurement_000" ∅]>
            (<[2 := anc_dataset "Position_Values" [2; 1]]>
            (<[3 := anc_dataset "Spectroscopic_Indices" [1; 3]]>
            (<[4 := anc_dataset "Spectroscopic_Values" [1; 3]]> ∅)))) ∅)
    (Dataset "Raw_Data" (zeros [2; 3]) main_attrs).

(** ** numpy operations on N-dimensional arrays *)

(** The stride, in elements, of each axis of a C-ordered array. *)
Fixpoint strides (shape : list nat) : list nat :=
  match shape with
  | [] => []
  | _ :: shape' => Np.prod shape' :: strides shape'
  end.

(** The multi-index of the [k]-th element in C order. *)
Definition unravel (shape : list nat) (k : nat) : list nat :=
  zip_with (λ d s, (k / s) mod d) shape (strides shape).

(** [a.reshape(shape)] for a shape without [-1]. *)
Definition nd_reshape {A} (a : ndarray A) (shape : list nat) : result (ndarray A) :=
  if Np.prod shape =? nd_size a then Ok (NdArray shape (nd_flat a))
  else Raise (ValueError "cannot reshape array into shape").

(** [a.reshape(known + [-1])]: the last extent is inferred. *)
Definition nd_reshape_infer {A} (a : ndarray A) (known : list nat) : result (ndarray A) :=
  let p := Np.prod known in
  if (p =? 0) || negb (nd_size a mod p =? 0)
  then Raise (ValueError "cannot reshape array into shape")
  else Ok (NdArray (known ++ [nd_size a / p]) (nd_flat a)).

(** [a.transpose(axes)]: axis [j] of the result is axis [axes[j]] of [a]. *)
Definition nd_transpose {A} (a : ndarray A) (axes : list nat) : result (ndarray A) :=
  if bool_decide (axes ≡ₚ seq 0 (nd_ndim a)) then
    let new_shape := map (λ ax, nth ax (nd_shape a) 0) axes in
    let old_strides := strides (nd_shape a) in
    let offset k :=
      sum_list (zip_with (λ i ax, i * nth ax old_strides 0) (unravel new_shape k) axes) in
    Ok (NdArray new_shape
          (omap (λ k, nd_flat a !! offset k) (seq 0 (Np.prod new_shape))))
  else Raise (ValueError "axes don't match array").

(** The rows of a C-ordered 2-D array. *)
Fixpoint chunks {A} (width count : nat) (l : list A) : list (list A) :=
  match count with
  | 0 => []
  | S count' => take width l :: chunks width count' (drop width l)
  end.

(** The index matrices of this development are two-dimensional; ancillary
    data of another rank is outside the model and refused here. *)
Definition nd_to_matrix {A} (a : ndarray A) : result (matrix A) :=
  match nd_shape a with
  | [r; c] => Ok (Matrix c (chunks c r (nd_flat a)))
  | _ => Raise (IndexError "tuple index out of range")
  end.

(** ** Building index matrices *)

(** [np.tile(l, reps)] and [np.repeat(l, reps)] on 1-D arrays. *)
Definition tile {A} (l : list A) (reps : nat) : list A := concat (replicate reps l).
Definition repeat_each {A} (l : list A) (reps : nat) : list A := l ≫= replicate reps.

(** [np.arange(n)] as index entries. *)
Definition arange (n : nat) : list Z := Z.of_nat <$> seq 0 n.

(** Modelled from the spec: [write_utils.build_ind_val_matrices] is imported
    by [hdf_utils.py] but is not among the sources.  The specification
    (4.1) builds the matrices by Cartesian tiling: dimension 0 cycles every
    step, dimension [i] cycles every [L_0 * ... * L_(i-1)] steps; the test
    [test_3D] spells this out as [np.tile(np.repeat(vec, rep_size),
    tile_size)].  This is the row of dimension [i]. *)
Definition tile_row {A} (lengths : list nat) (i : nat) (vec : list A) : list A :=
  tile (repeat_each vec (Np.prod (take i lengths))) (Np.prod (drop (S i) lengths)).

(** Modelled from the spec: the two matrices of
    [build_ind_val_matrices(unit_values, is_spectral)]; the position
    orientation transposes the result. *)
Definition build_ind_val_matrices {V} (unit_values : list (list V)) (is_spectral : bool)
  : matrix Z * matrix V :=
  let lengths := map length unit_values in
  let ind_mat := Matrix (Np.prod lengths)
                   (imap (λ i vec, tile_row lengths i (arange (length vec))) unit_values) in
  let val_mat := Matrix (Np.prod lengths) (imap (tile_row lengths) unit_values) in
  if is_spectral then (ind_mat, val_mat) else (transpose ind_mat, transpose val_mat).

(** Modelled from the spec: [write_utils.make_indices_matrix] is imported by
    [hdf_utils.py] but is not among the sources.  It is the index half of the
    builder above for dimensions of the given sizes; it rejects an empty list
    of dimensions ([test_empty_list]) and a size below 2 among several
    ([test_dim_w_val_1]), while a single dimension of size 1 gives a 1 x 1
    matrix ([test_single_value_dimension_list_input]). *)
Definition make_indices_matrix (num_steps : list nat) (is_position : bool)
  : result (matrix Z) :=
  check (negb (bool_decide (num_steps = [])))
    (ValueError "num_steps should not be an empty array or list");;
  check (bool_decide (num_steps = [1]) || forallb (λ n, 2 <=? n) num_steps)
    (ValueError "num_steps should contain integers greater than equal to 1 (empty dimension) or 2");;
  let indices_matrix :=
    Matrix (Np.prod num_steps)
      (imap (λ i n, tile_row num_steps i (arange n)) num_steps) in
  Ok (if is_position then transpose indices_matrix else indices_matrix).

(** ** [reshape_to_n_dims] *)

(** An argument that is expected to hold position or spectroscopic indices:
    [None], an HDF5 dataset, a numpy array, a dask array or any other Python
    object.  The arrays are two-dimensional. *)
Inductive anc_arg : Type :=
  | AncNone
  | AncDataset (d : dataset Z)
  | AncArray (a : matrix Z)
  | AncDask (a : matrix Z)
  | AncOther.

(** The second component of the result: [True], ['Positions'] or [False]. *)
Inductive status : Type :=
  | StatusTrue
  | StatusPositions
  | StatusFalse.

(** [h5_object.shape] *)
Definition main_shape {A} (h5_main : main_arg A) : result (list nat) :=
  match h5_main with
  | MainDataset _ d => Ok (dset_shape d)
  | MainArray a => Ok (nd_shape a)
  | _ => Raise (AttributeError "object has no attribute 'shape'")
  end.

Definition anc_shape (h5_anc : anc_arg) : result (list nat) :=
  match h5_anc with
  | AncDataset d => Ok (dset_shape d)
  | AncArray a | AncDask a => Ok [mat_nrows a; mat_ncols a]
  | _ => Raise (AttributeError "object has no attribute 'shape'")
  end.

(** [h5_main[()]] *)
Definition main_data {A} (h5_main : main_arg A) : result (ndarray A) :=
  match h5_main with
  | MainDataset _ d => Ok (dset_data d)
  | MainArray a => Ok a
  | _ => Raise (TypeError "object is not subscriptable")
  end.

(** [get_attr(h5_object, attr_name)] on an object of a file. *)
Definition get_attr (h5_object : h5obj) (attr_name : string) : result attr :=
  let attrs := match h5_object with
               | H5Dataset d => dset_attrs d
               | H5Group _ attrs => attrs
               end in
  match attrs !! attr_name with
  | Some att_val => Ok att_val
  | None => Raise (KeyError "is not an attribute")
  end.

(** [h5_obj[()]] read as an index matrix. *)
Definition obj_matrix (o : h5obj) : result (matrix Z) :=
  match o with
  | H5Dataset d => nd_to_matrix (dset_data d)
  | H5Group _ _ => Raise (TypeError "Accessing a group is done with bytes or str, not tuple")
  end.

(** [labs[idx]] for a value [labs] read from a 'labels' attribute (an array
    of strings when well formed) and an integer array [idx]. *)
Definition labels_take (labs : attr) (idx : list nat) : result (list string) :=
  match labs with
  | AttrStrs l => take_rows l idx
  | _ => Raise (TypeError "only integer scalar arrays can be converted to a scalar index")
  end.

(** [for lab in labs] *)
Definition labels_iter (labs : attr) : result (list string) :=
  match labs with
  | AttrStrs l => Ok l
  | _ => Raise (TypeError "object is not iterable")
  end.

(** [np.array(['Position Dimension {}'.format(i) for i in range(n)])] *)
Definition numbered_labels (prefix : string) (n : nat) : attr :=
  AttrStrs (map (λ i, prefix +:+ pretty i) (seq 0 n)).

(** [np.arange(n, dtype=INDICES_DTYPE).reshape(-1, 1)] and
    [.reshape([1, -1])] *)
Definition arange_column (n : nat) : matrix Z := Matrix 1 (map (λ x, [x]) (arange n)).
Definition arange_row (n : nat) : matrix Z := Matrix n [arange n].

(** [np.argwhere(all_labels == lab).squeeze()] as an axis number: a scalar
    only when exactly one label matches; any other outcome is refused by
    [transpose]. *)
Definition axis_of (all_labels : list string) (lab : string) : result nat :=
  match Np.where_ (map (λ l, bool_decide (l = lab)) all_labels) with
  | [i] => Ok i
  | _ => Raise (TypeError "only integer scalar arrays can be converted to a scalar index")
  end.

(** [['Position'] + spec_labs]: whatever [spec_labs] holds, it is not a list
    ([np.array([...])] or the value of [get_attr]), so the sum is handed to
    numpy, and numpy 1.x, against which this module is written (it calls
    [np.product]), has no [add] loop for strings. *)
Definition list_plus_labels (l : list string) (labs : attr) : result (list string) :=
  Raise (TypeError "ufunc 'add' did not contain a loop with signature matching types").

(** The position indices and their labels, as lines 524-553 find them. *)
Definition position_indices {A} (h5_main : main_arg A) (h5_pos : anc_arg)
  : result (matrix Z * attr) :=
  let pos_labs := AttrStrs ["Positions"] in
  match h5_pos with
  | AncNone =>
      shape ← main_shape h5_main;
      match h5_main with
      | MainDataset f d =>
          match (h5_pos ← linked f d "Position_Indices";
                 ds_pos ← obj_matrix h5_pos;
                 pos_labs ← get_attr h5_pos "labels";
                 Ok (ds_pos, pos_labs)) with
          | Raise (KeyError _) =>
              if 1 <? length shape then
                n ← shape_at shape 0;
                Ok (arange_column n, numbered_labels "Position Dimension " 1)
              else Ok (Matrix 1 [ [0%Z] ], pos_labs)
          | r => r
          end
      | _ =>
          n ← shape_at shape 0;
          Ok (arange_column n, numbered_labels "Position Dimension " 1)
      end
  | AncDataset d =>
      ds_pos ← nd_to_matrix (dset_data d);
      pos_labs ← get_attr (H5Dataset d) "labels";
      Ok (ds_pos, pos_labs)
  | AncArray a =>
      let ds_pos := a in
      Ok (ds_pos, numbered_labels "Position Dimension " (mat_ncols ds_pos))
  | _ => Raise (TypeError "Position Indices must be either h5py.Dataset or None")
  end.

(** The spectroscopic indices and their labels, lines 555-585. *)
Definition spectroscopic_indices {A} (h5_main : main_arg A) (h5_spec : anc_arg)
  : result (matrix Z * attr) :=
  let spec_labs := AttrStrs ["Spectral_Step"] in
  match h5_spec with
  | AncNone =>
      shape ← main_shape h5_main;
      match h5_main with
      | MainDataset f d =>
          match (h5_spec ← linked f d "Spectroscopic_Indices";
                 ds_spec ← obj_matrix h5_spec;
                 spec_labs ← get_attr h5_spec "labels";
                 Ok (ds_spec, spec_labs)) with
          | Raise (KeyError _) =>
              if 1 <? length shape then
                n ← shape_at shape 1;
                Ok (arange_row n, numbered_labels "Spectral Dimension " 1)
              else Ok (Matrix 1 [ [0%Z] ], spec_labs)
          | r => r
          end
      | _ =>
          n ← shape_at shape 1;
          Ok (arange_row n, numbered_labels "Spectral Dimension " 1)
      end
  | AncDataset d =>
      ds_spec ← nd_to_matrix (dset_data d);
      spec_labs ← get_attr (H5Dataset d) "labels";
      Ok (ds_spec, spec_labs)
  | AncArray a =>
      let ds_spec := a in
      Ok (ds_spec, numbered_labels "Spectral Dimension " (mat_nrows ds_spec))
  | _ => Raise (TypeError "Spectroscopic Indices must be either h5py.Dataset or None")
  end.

(** The argument checks of lines 501-520. *)
Definition check_reshape_args {A} (h5_main : main_arg A) (h5_pos h5_spec : anc_arg)
  : result unit :=
  match h5_pos, h5_spec with
  | AncNone, AncNone =>
      ok ← check_if_main h5_main;
      check ok (ValueError "if h5_main is a h5py.Dataset it should be a Main dataset")
  | _, _ =>
      check (match h5_main with MainDataset _ _ | MainArray _ => true | _ => false end)
        (TypeError "h5_main should either be a h5py.Dataset or numpy array")
  end;;
  match h5_pos with
  | AncNone => Ok tt
  | AncDataset _ | AncArray _ =>
      pos_shape ← anc_shape h5_pos; pos_rows ← shape_at pos_shape 0;
      shape ← main_shape h5_main; main_rows ← shape_at shape 0;
      check (pos_rows =? main_rows) (ValueError "The size of h5_pos does not match with h5_main")
  | _ => Raise (TypeError "h5_pos should either be a h5py.Dataset or numpy array")
  end;;
  match h5_spec with
  | AncNone => Ok tt
  | AncDataset _ | AncArray _ =>
      spec_shape ← anc_shape h5_spec; spec_cols ← shape_at spec_shape 1;
      shape ← main_shape h5_main; main_cols ← shape_at shape 1;
      check (spec_cols =? main_cols) (ValueError "The size of h5_spec does not match with h5_main")
  | _ => Raise (TypeError "h5_spec should either be a h5py.Dataset or numpy array")
  end.

(** [reshape_to_n_dims(h5_main, h5_pos, h5_spec, get_labels, sort_dims=sort_dims)]
    with [verbose=False] and [as_dask_array=False].  The result is
    [(ds_Nd, success)] followed by the labels when [get_labels] holds. *)
Definition reshape_to_n_dims {A} (h5_main : main_arg A) (h5_pos h5_spec : anc_arg)
    (get_labels sort_dims : bool)
  : result (ndarray A * status * option (list string)) :=
  check_reshape_args h5_main h5_pos h5_spec;;
  '(ds_pos, pos_labs) ← position_indices h5_main h5_pos;
  '(ds_spec, spec_labs) ← spectroscopic_indices h5_main h5_spec;
  (* Sort the indices from fastest to slowest *)
  let pos_sort := get_sort_order (transpose ds_pos) in
  let spec_sort := get_sort_order ds_spec in
  (* Get the size of each dimension in the sorted order *)
  pos_dims ← get_dimensionality (transpose ds_pos) (Some (Z.of_nat <$> pos_sort));
  spec_dims ← get_dimensionality ds_spec (Some (Z.of_nat <$> spec_sort));
  ds_main ← main_data h5_main;
  match nd_reshape ds_main (reverse pos_dims ++ reverse spec_dims) with
  | Raise (ValueError _) =>
      match nd_reshape_infer ds_main (reverse pos_dims) with
      | Raise (ValueError _) =>
          if get_labels
          then Ok (ds_main, StatusFalse, Some ["Position"; "Spectral Step"])
          else Ok (ds_main, StatusFalse, None)
      | Raise e => Raise e
      | Ok ds_Nd =>
          if get_labels
          then labels ← list_plus_labels ["Position"] spec_labs;
               Ok (ds_Nd, StatusPositions, Some labels)
          else Ok (ds_Nd, StatusPositions, None)
      end
  | Raise e => Raise e
  | Ok ds_Nd =>
      pos_sorted_labs ← labels_take pos_labs pos_sort;
      spec_sorted_labs ← labels_take spec_labs spec_sort;
      let all_labels := reverse pos_sorted_labs ++ reverse spec_sorted_labs in
      (* transpose the axes so that they are in the same order as in the
         index array *)
      labs ← (if sort_dims then Ok (pos_sorted_labs ++ spec_sorted_labs)
              else (p ← labels_iter pos_labs; s ← labels_iter spec_labs; Ok (p ++ s)));
      swap_axes ← mapM (axis_of all_labels) labs;
      ds_Nd ← nd_transpose ds_Nd swap_axes;
      if get_labels
      then labels ← take_rows all_labels swap_axes;
           Ok (ds_Nd, StatusTrue, Some labels)
      else Ok (ds_Nd, StatusTrue, None)
  end.

(** ** [reshape_from_n_dims] *)

(** The N-dimensional argument: a numpy (or dask) array, or any other Python
    object. *)
Inductive data_arg (A : Type) : Type :=
  | DataArray (a : ndarray A)
  | DataOther.
Arguments DataArray {A} a.
Arguments DataOther {A}.

(** A sort order is either the literal [[]] of lines 825 and 831, a Python
    list, or the numpy array that [get_sort_order] returns. *)
Inductive py_seq : Type :=
  | PyList (l : list nat)
  | NpArray (l : list nat).

Definition seq_items (s : py_seq) : list nat :=
  match s with
  | PyList l | NpArray l => l
  end.

(** [s[::-1]] *)
Definition seq_reversed (s : py_seq) : py_seq :=
  match s with
  | PyList l => PyList (reverse l)
  | NpArray l => NpArray (reverse l)
  end.

(** [s + n] for an integer [n]: numpy adds [n] to every entry; for a list,
    [+] is concatenation and refuses an integer. *)
Definition seq_plus_int (s : py_seq) (n : nat) : result (list nat) :=
  match s with
  | NpArray l => Ok (map (λ x, x + n) l)
  | PyList _ => Raise (TypeError "can only concatenate list (not int) to list")
  end.

(** [np.uint16(np.append(a, b))] *)
Definition uint16_append (a : py_seq) (b : list nat) : list nat :=
  map (λ x, Z.to_nat (Z.of_nat x mod 65536)) (seq_items a ++ b).

(** [h5_anc[()]], [h5_anc.compute()] or the array itself, lines 743-770;
    [None] leaves the variable unset. *)
Definition anc_indices (what : string) (h5_anc : anc_arg) : result (option (matrix Z)) :=
  match h5_anc with
  | AncNone => Ok None
  | AncDataset d => m ← nd_to_matrix (dset_data d); Ok (Some m)
  | AncDask a => Ok (Some a)
  | AncArray a => Ok (Some a)
  | AncOther => Raise (TypeError (what +:+ " Indices must be either h5py.Dataset or None"))
  end.

(** [np.all([x in data_n_dim.shape for x in dims])] *)
Definition sizes_in_shape (dims shape : list nat) : bool :=
  forallb (λ x, bool_decide (x ∈ shape)) dims.

Definition reshape_from_n_dims {A} (data_n_dim : data_arg A) (h5_pos h5_spec : anc_arg)
  : result (ndarray A * bool) :=
  match data_n_dim with
  | DataOther => Raise (TypeError "data_n_dim is not a numpy or dask array")
  | DataArray data_n_dim =>
      match h5_spec, h5_pos with
      | AncNone, AncNone =>
          Raise (ValueError "at least one of h5_pos or h5_spec must be specified for an attempt to reshape to 2D")
      | _, _ =>
      if nd_ndim data_n_dim <? 2 then Ok (data_n_dim, true) else
      ds_pos ← anc_indices "Position" h5_pos;
      ds_spec ← anc_indices "Spectroscopic" h5_spec;
      '(ds_pos, ds_spec) ←
        match ds_pos, ds_spec with
        | Some ds_pos, None =>
            pos_dims ← get_dimensionality ds_pos (Some (Z.of_nat <$> get_sort_order ds_pos));
            check (sizes_in_shape pos_dims (nd_shape data_n_dim))
              (ValueError "Dimension sizes in pos_dims do not exist in data_n_dim shape");;
            let spec_dims := drop (length pos_dims) (nd_shape data_n_dim) in
            ds_spec ← make_indices_matrix spec_dims false;
            Ok (ds_pos, ds_spec)
        | None, Some ds_spec =>
            spec_dims ← get_dimensionality ds_spec (Some (Z.of_nat <$> get_sort_order ds_spec));
            check (sizes_in_shape spec_dims (nd_shape data_n_dim))
              (ValueError "Dimension sizes in spec_dims do not exist in data_n_dim shape");;
            let pos_dims := take (nd_ndim data_n_dim - length spec_dims) (nd_shape data_n_dim) in
            ds_pos ← make_indices_matrix pos_dims true;
            Ok (ds_pos, ds_spec)
        | Some ds_pos, Some ds_spec =>
            check (mat_nrows ds_pos * mat_ncols ds_spec =? nd_size data_n_dim)
              (ValueError "The product of the number of positions and spectroscopic observations is not equal to the product of the data shape");;
            (if negb (mat_ncols ds_pos + mat_nrows ds_spec =? nd_ndim data_n_dim)
             then
               (* the dummy position or spectroscopic axes may have been
                  squeezed out *)
               check ((mat_size ds_pos =? 1) || (mat_size ds_spec =? 1))
                 (ValueError "The number of position and spectroscopic dimensions do not match with the dimensionality of the N-dimensional dataset")
             else Ok tt);;
            Ok (ds_pos, ds_spec)
        | None, None => Raise (ValueError "at least one of h5_pos or h5_spec must be specified")
        end;
      (* Sort the indices from fastest to slowest *)
      let pos_sort :=
        if mat_size ds_pos =? 1 then PyList []
        else NpArray (get_sort_order (transpose ds_pos)) in
      let spec_sort :=
        if mat_size ds_spec =? 1 then PyList []
        else NpArray (get_sort_order ds_spec) in
      let spec_sort :=
        match h5_spec with AncNone => seq_reversed spec_sort | _ => spec_sort end in
      let pos_sort :=
        match h5_pos with AncNone => seq_reversed pos_sort | _ => pos_sort end in
      shifted ← seq_plus_int (seq_reversed spec_sort) (length (seq_items pos_sort));
      let swap_axes := uint16_append (seq_reversed pos_sort) shifted in
      data_n_dim_2 ← nd_transpose data_n_dim swap_axes;
      match nd_reshape data_n_dim_2 [mat_nrows ds_pos; mat_ncols ds_spec] with
      | Ok ds_2d => Ok (ds_2d, true)
      | Raise _ => Raise (ValueError "Could not reshape dataset to full N-dimensional form")
      end
      end
  end.

(** *** The examples of the specification *)

(** A main array of shape [4, 15]: one position dimension of size 4 and the
    spectroscopic dimensions Bias (5, fast) and Cycle (3, slow). *)
Definition main_4_15 : ndarray Z := NdArray [4; 15] (arange 60).
Definition pos_4 : matrix Z := arange_column 4.

(** A 2 x 1 main array: two positions, a single spectroscopic step. *)
Definition main_2_1 : ndarray Z := NdArray [2; 1] [5; 7]%Z.
Definition pos_2 : matrix Z := arange_column 2.
Definition spec_1 : matrix Z := arange_row 1.

(** A 1 x 2 main array: a single position, two spectroscopic steps. *)
Definition main_1_2 : ndarray Z := NdArray [1; 2] [5; 7]%Z.
Definition pos_1 : matrix Z := arange_column 1.
Definition spec_2 : matrix Z := arange_row 2.

(** A 2 x 3 main array whose spectroscopic indices [0, 1, 0] name two values
    for three steps: only the reshape by positions fits. *)
Definition main_2_3 : ndarray Z := NdArray [2; 3] [1; 2; 3; 4; 5; 6]%Z.
Definition spec_irregular : matrix Z := Matrix 3 [ [0; 1; 0] ]%Z.

(** A 3 x 1 main array whose position indices [0, 1, 0] name two values for
    three positions: no reshape fits. *)
Definition main_3_1 : ndarray Z := NdArray [3; 1] [1; 2; 3]%Z.
Definition pos_irregular : matrix Z := Matrix 1 [ [0]; [1]; [0] ]%Z.

(** ** [get_unit_values] *)

(** An argument that is expected to be an ancillary dataset: an HDF5 dataset,
    a numpy array (two-dimensional) or any other Python object. *)
Inductive array_arg (E : Type) : Type :=
  | ArgDataset (d : dataset E)
  | ArgArray (a : matrix E)
  | ArgOther.
Arguments ArgDataset {E} d.
Arguments ArgArray {E} a.
Arguments ArgOther {E}.

(** The argument [dim_names] (or [dim_name]): [None], one name or a list of
    names. *)
Inductive names_arg : Type :=
  | NamesNone
  | NamesStr (s : string)
  | NamesList (l : list string).

Definition arg_shape {E} (a : array_arg E) : result (list nat) :=
  match a with
  | ArgDataset d => Ok (dset_shape d)
  | ArgArray a => Ok [mat_nrows a; mat_ncols a]
  | ArgOther => Raise (AttributeError "object has no attribute 'shape'")
  end.

(** [dset[()]] *)
Definition arg_matrix {E} (a : array_arg E) : result (matrix E) :=
  match a with
  | ArgDataset d => nd_to_matrix (dset_data d)
  | ArgArray a => Ok a
  | ArgOther => Raise (TypeError "object is not subscriptable")
  end.

(** [dset.attrs] *)
Definition arg_attrs {E} (a : array_arg E) : result (gmap string attr) :=
  match a with
  | ArgDataset d => Ok (dset_attrs d)
  | _ => Raise (AttributeError "object has no attribute 'attrs'")
  end.

(** [get_attr(dset, 'labels')] as the list of dimension names; the labels of
    this development are arrays of strings. *)
Definition labels_of {E} (a : array_arg E) : result (list string) :=
  attrs ← arg_attrs a;
  match attrs !! "labels" with
  | Some (AttrStrs l) => Ok l
  | Some _ => Raise (TypeError "labels is not an array of strings")
  | None => Raise (KeyError "'labels' is not an attribute")
  end.

(** The test of lines 1512-1535: a dataset marked with
    'incomplete_dimensions' is refused. *)
Definition refuse_incomplete {E} (ds_inds : array_arg Z) (ds_vals : array_arg E)
  : result unit :=
  match ds_inds with
  | ArgDataset d =>
      vals_attrs ← arg_attrs ds_vals;
      let incomp_dims_inds := dset_attrs d !! "incomplete_dimensions" in
      let incomp_dims_vals := vals_attrs !! "incomplete_dimensions" in
      match incomp_dims_inds, incomp_dims_vals with
      | None, None => Ok tt
      | Some a, Some b =>
          check (bool_decide (a = b))
            (ValueError "Provided indices and values datasets were marked with different values for incomplete_datasets");;
          get_attr (H5Dataset d) "labels";;
          @Raise unit (ValueError "These dimensions were marked as incomplete dimensions. You are recommended to find unit values manually")
      | _, _ =>
          get_attr (H5Dataset d) "labels";;
          @Raise unit (ValueError "These dimensions were marked as incomplete dimensions. You are recommended to find unit values manually")
      end
  | _ => Ok tt
  end.

(** [np.max(np.diff(subsections, axis=0)) != 0]; tiles of unequal lengths do
    not form an array that can be differenced. *)
Definition tiles_differ (subsections : list (list Z)) : result bool :=
  match subsections with
  | [] => Raise (ValueError "diff requires input that is at least one dimensional")
  | first :: rest =>
      check (forallb (λ t, length t =? length first) rest)
        (ValueError "operands could not be broadcast together");;
      m ← Np.max (concat (zip_with (zip_with (λ a b, Np.sub_uint32 b a)) subsections rest));
      Ok (negb (m =? 0)%Z)
  end.

(** The body of the loop of lines 1594-1638 for the index row of one
    dimension: the positions, within the first tile, at which the index
    changes. *)
Definition step_inds_of_row (inds_for_dim : list Z) : result (list nat) :=
  lowest ← Np.min inds_for_dim;
  (* Wherever this dimension goes to 0 - start of a new tile *)
  let starts := Np.where_ (map (λ x, (x =? lowest)%Z) inds_for_dim) in
  (* 1 = repetition, > 1 = new tile *)
  let step_sizes := 1%Z :: Np.diff (Z.of_nat <$> starts) in
  check (negb (1 <? length (Np.where_
           (map (λ x, negb (x - 1 =? 0)%Z) (Np.unique step_sizes)))))
    (ValueError "Non constant step sizes");;
  (* Finding Start of a new tile *)
  let tile_starts := Np.where_ (map (λ x, (1 <? x)%Z) step_sizes) in
  tile_starts ←
    (if length tile_starts <? 1 then
       (* Dimension(s) with no tiling at all *)
       Ok [0; length inds_for_dim]
     else
       picked ← take_rows starts tile_starts;
       let tile_starts := 0 :: picked in
       (* Verify that each tile is identical here *)
       let tile_starts := tile_starts ++ [length inds_for_dim] in
       let subsections :=
         map (λ ind, Np.slice inds_for_dim (nth ind tile_starts 0) (nth (S ind) tile_starts 0))
             (seq 0 (length tile_starts - 1)) in
       differ ← tiles_differ subsections;
       check (negb differ) (ValueError "Values in each tile of dimension are different");;
       Ok tile_starts);
  (* Now looking within the first tile *)
  let subsection := Np.slice inds_for_dim (nth 0 tile_starts 0) (nth 1 tile_starts 0) in
  (* remove all repetitions. ie - take indices only where jump == 1 *)
  let step_inds :=
    0 :: Np.where_ (map (λ x, negb (x =? 0)%Z) (0%Z :: Np.diff_uint32 subsection)) in
  Ok step_inds.

(** [np.where(all_dim_names == dim_name)[0][0]] *)
Definition first_index (all_dim_names : list string) (dim_name : string) : result nat :=
  match Np.where_ (map (λ n, bool_decide (n = dim_name)) all_dim_names) with
  | i :: _ => Ok i
  | [] => Raise (IndexError "index 0 is out of bounds for axis 0 with size 0")
  end.

(** [m[i]] *)
Definition mat_row {E} (m : matrix E) (i : nat) : result (list E) :=
  match mat_rows m !! i with
  | Some r => Ok r
  | None => Raise (IndexError "index is out of bounds for axis 0")
  end.

(** The loop of lines 1593-1642 over the names [todo], a suffix of
    [all_dim_names]. *)
Fixpoint unit_values_loop {V} (inds_mat : matrix Z) (vals_mat : matrix V)
    (all_dim_names dim_names : list string) (todo : list string)
    (unit_values : gmap string (list V)) : result (gmap string (list V)) :=
  match todo with
  | [] => Ok unit_values
  | dim_name :: todo' =>
      desired_row_ind ← first_index all_dim_names dim_name;
      inds_for_dim ← mat_row inds_mat desired_row_ind;
      step_inds ← step_inds_of_row inds_for_dim;
      unit_values ←
        (if bool_decide (dim_name ∈ dim_names) then
           (* Only add this dimension to dictionary if requested *)
           vals_for_dim ← mat_row vals_mat desired_row_ind;
           vals ← take_rows vals_for_dim step_inds;
           Ok (<[dim_name := vals]> unit_values)
         else Ok unit_values);
      unit_values_loop inds_mat vals_mat all_dim_names dim_names todo' unit_values
  end.

(** Lines 1498-1591: the argument checks, the loading of the two matrices in
    the spectroscopic orientation, and the names of all and of the wanted
    dimensions. *)
Definition unit_values_setup {V} (ds_inds : array_arg Z) (ds_vals : array_arg V)
    (dim_names : names_arg) (all_dim_names : option (list string)) (is_spec : option bool)
  : result (matrix Z * matrix V * list string * list string) :=
  let allowed {E} (a : array_arg E) : bool :=
    match a, all_dim_names with
    | ArgDataset _, _ => true
    | ArgArray _, Some _ => true
    | _, _ => false
    end in
  check (allowed ds_inds) (TypeError "ds_inds should be of the allowed types");;
  check (allowed ds_vals) (TypeError "ds_vals should be of the allowed types");;
  refuse_incomplete ds_inds ds_vals;;
  inds_shape ← arg_shape ds_inds;
  vals_shape ← arg_shape ds_vals;
  check (bool_decide (inds_shape = vals_shape))
    (ValueError "h5_inds and h5_vals should have the same shapes");;
  all_dim_names ←
    match all_dim_names with
    | None => labels_of ds_inds
    | Some names => Ok names
    end;
  (* First load to memory *)
  inds_mat ← arg_matrix ds_inds;
  vals_mat ← arg_matrix ds_vals;
  let is_spec :=
    match is_spec with
    | None => mat_nrows inds_mat <? mat_ncols inds_mat
    | Some is_spec => is_spec
    end in
  let inds_mat := if is_spec then inds_mat else transpose inds_mat in
  let vals_mat := if is_spec then vals_mat else transpose vals_mat in
  check (length all_dim_names =? mat_nrows inds_mat)
    (ValueError "Length of dimension names list not matching with shape of dataset");;
  dim_names ←
    match dim_names with
    | NamesNone => Ok all_dim_names
    | NamesStr s =>
        check (bool_decide (s ∈ all_dim_names))
          (KeyError "Dimension does not exist in the provided ancillary datasets");;
        Ok [s]
    | NamesList l =>
        check (forallb (λ dim_name, bool_decide (dim_name ∈ all_dim_names)) l)
          (KeyError "Dimension does not exist in the provided ancillary datasets");;
        Ok l
    end;
  Ok (inds_mat, vals_mat, all_dim_names, dim_names).

Definition get_unit_values {V} (ds_inds : array_arg Z) (ds_vals : array_arg V)
    (dim_names : names_arg) (all_dim_names : option (list string)) (is_spec : option bool)
  : result (gmap string (list V)) :=
  '(inds_mat, vals_mat, all_dim_names, dim_names) ←
    unit_values_setup ds_inds ds_vals dim_names all_dim_names is_spec;
  let unit_values := ∅ in
  unit_values_loop inds_mat vals_mat all_dim_names dim_names all_dim_names unit_values.

(** *** Examples *)

Definition bias_cycle_vals : matrix Z :=
  snd (build_ind_val_matrices [ [10;20;30;40;50]; [7;8;9] ]%Z true).

(** A row whose minimum sits at positions 0, 2, 5 and 9: the gaps 2, 3 and 4
    are three distinct values other than 1. *)
Definition irregular_inds : matrix Z := Matrix 10 [ [0;1;0;1;2;0;1;2;3;0] ]%Z.

(** The gaps between consecutive positions at which a row takes its minimum,
    and the distinct gap sizes other than 1. *)
Definition min_gaps (row : list Z) : list Z :=
  match Np.min row with
  | Ok lowest => Np.diff (Z.of_nat <$> Np.where_ (map (λ x, (x =? lowest)%Z) row))
  | Raise _ => []
  end.

Definition gap_sizes (row : list Z) : list Z :=
  filter (λ g, g ≠ 1%Z) (Np.unique (min_gaps row)).

(** ** [write_reduced_anc_dsets] *)

(** A group of the file, as far as the function looks at it: its name and
    the names of its members. *)
Record group : Type := Group {
  grp_name : string;
  grp_keys : gset string
}.

(** The argument [h5_parent_group]: a group (or file), or any other Python
    object. *)
Inductive group_arg : Type :=
  | GroupArg (g : group)
  | GroupOther.

(** [for item in dim_name] after lines 1877-1884 *)
Definition names_of (dim_name : names_arg) : result (list string) :=
  match dim_name with
  | NamesNone => Raise (TypeError "'NoneType' object is not iterable")
  | NamesStr s => Ok [s]
  | NamesList l => Ok l
  end.

(** [basename[:-1] if basename.endswith('_') else basename] *)
Fixpoint strip_underscore (s : string) : string :=
  match s with
  | EmptyString => EmptyString
  | String c EmptyString => if bool_decide (c = "_"%char) then EmptyString else s
  | String c s' => String c (strip_underscore s')
  end.

(** [a[mask]] for a boolean mask: numpy wants a mask as long as the axis. *)
Definition mask_select {A} (l : list A) (mask : list bool) : result (list A) :=
  check (length mask =? length l)
    (IndexError "boolean index did not match indexed array along dimension");;
  Ok (omap (λ p : A * bool, if p.2 then Some p.1 else None) (zip l mask)).

(** [np.all(np.vstack(masks), axis=0)] for masks of [ncols] entries. *)
Definition all_axis0 (masks : list (list bool)) (ncols : nat) : result (list bool) :=
  check (negb (bool_decide (masks = [])))
    (ValueError "need at least one array to concatenate");;
  Ok (map (λ j, forallb (λ mask, nth j mask false) masks) (seq 0 ncols)).

(** Modelled from the spec: [reg_ref.write_region_references] is imported by
    [hdf_utils.py] but is not among the sources.  Each ancillary dataset
    carries one region label per dimension (specification, section 6): an
    attribute named after the dimension that holds the slices of its row or
    column. *)
Definition write_region_references (attrs : gmap string attr)
    (reg_ref_slices : list (string * (option nat * option nat) * (option nat * option nat)))
  : gmap string attr :=
  foldl (λ attrs '(name, rows, cols), <[name := AttrRegion rows cols]> attrs)
        attrs reg_ref_slices.

(** [write_simple_attrs(dset, {'labels': labels, 'units': units})] *)
Definition write_labels_units (attrs : gmap string attr) (labels units : list string)
  : gmap string attr :=
  <["units" := AttrStrs units]> (<["labels" := AttrStrs labels]> attrs).

(** [h5_object.attrs[name]] where it is indexed by a mask: an array of
    strings.  A string, like a reference, takes no mask as an index, and
    neither does a number. *)
Definition string_array_attr (attrs : gmap string attr) (name : string)
  : result (list string) :=
  match attrs !! name with
  | Some (AttrStrs l) => Ok l
  | Some (AttrNum _) => Raise (IndexError "invalid index to scalar variable.")
  | Some _ => Raise (TypeError "attribute is not an array of strings")
  | None => Raise (KeyError "Can't open attribute (can't locate attribute)")
  end.

(** [list(s)] for a string: its characters, each a string of its own. *)
Fixpoint characters (s : string) : list string :=
  match s with
  | EmptyString => []
  | String c s' => String c EmptyString :: characters s'
  end.

(** [list(att_val)] for a value read with [get_attr]: the entries of an array
    of strings, the characters of a string; a number or a reference is not
    iterable. *)
Definition list_of_attr (att_val : attr) : result (list string) :=
  match att_val with
  | AttrStrs l => Ok l
  | AttrStr s => Ok (characters s)
  | _ => Raise (TypeError "object is not iterable")
  end.

(** The branch of lines 1922-1991: at least one dimension remains. *)
Definition reduce_anc_dsets {V} (h5_inds : dataset Z) (h5_vals : dataset V)
    (all_dim_names dim_name : list string) (basename : string) (is_spec : bool)
  : result (dataset Z * dataset V) :=
  ind_mat ← nd_to_matrix (dset_data h5_inds);
  val_mat ← nd_to_matrix (dset_data h5_vals);
  (* Convert to spectral shape *)
  let ind_mat := if is_spec then ind_mat else transpose ind_mat in
  let val_mat := if is_spec then val_mat else transpose val_mat in
  (* For all dimensions, find where the index = 0 *)
  dropped ← mapM (λ cur_dim,
                    dim_ind ← first_index all_dim_names cur_dim;
                    row ← mat_row ind_mat dim_ind;
                    lowest ← Np.min row;
                    Ok (dim_ind, map (λ x, (x =? lowest)%Z) row)) dim_name;
  let keep_dim :=
    map (λ i, negb (bool_decide (i ∈ dropped.*1))) (seq 0 (length all_dim_names)) in
  step_starts ← all_axis0 dropped.*2 (mat_ncols ind_mat);
  (* Extract all rows that we want to keep from input indices and values *)
  ind_rows ← mask_select (mat_rows ind_mat) keep_dim;
  ind_rows ← mapM (λ row, mask_select row step_starts) ind_rows;
  val_rows ← mask_select (mat_rows val_mat) keep_dim;
  val_rows ← mapM (λ row, mask_select row step_starts) val_rows;
  let ncols := length (filter (λ b, b = true) step_starts) in
  let ind_mat := Matrix ncols ind_rows in
  let val_mat := Matrix ncols val_rows in
  (* Convert back to position shape *)
  let ind_mat := if is_spec then ind_mat else transpose ind_mat in
  let val_mat := if is_spec then val_mat else transpose val_mat in
  all_labels ← string_array_attr (dset_attrs h5_inds) "labels";
  labels ← mask_select all_labels keep_dim;
  let reg_ref_slices :=
    imap (λ row_ind row_name,
            if is_spec
            then (row_name, (Some row_ind, Some (S row_ind)), (None, None))
            else (row_name, (None, None), (Some row_ind, Some (S row_ind)))) labels in
  all_units ← string_array_attr (dset_attrs h5_inds) "units";
  units ← mask_select all_units keep_dim;
  let attrs := write_labels_units (write_region_references ∅ reg_ref_slices) labels units in
  Ok (Dataset (basename +:+ "_Indices") (nd_of_matrix ind_mat) attrs,
      Dataset (basename +:+ "_Values") (nd_of_matrix val_mat) attrs).

(** The branch of lines 1993-2002: every dimension is removed.  [zero] is 0
    in [VALUES_DTYPE]. *)
Definition single_step_dsets {V} (zero : V) (basename : string) : dataset Z * dataset V :=
  let reg_ref_slices := [("Single_Step", (Some 0, None), (None, None))] in
  let attrs :=
    write_labels_units (write_region_references ∅ reg_ref_slices) ["Single_Step"] ["a. u."] in
  (Dataset (basename +:+ "_Indices") (NdArray [1; 1] [0%Z]) attrs,
   Dataset (basename +:+ "_Values") (NdArray [1; 1] [zero]) attrs).

(** Lines 1894-1904: the orientation, as given or as read off the shape. *)
Definition resolve_is_spec (ind_shape : list nat) (is_spec : option bool) : result bool :=
  match is_spec with
  | Some is_spec => Ok is_spec
  | None =>
      (* Attempt to recognize the type automatically *)
      nrows ← shape_at ind_shape 0;
      ncols ← shape_at ind_shape 1;
      check (negb (nrows =? ncols))
        (ValueError "Unable automatically guess whether the provided datasets are position or spectroscopic. Please explicitely specify via the is_spec boolean kwarg");;
      Ok (nrows <? ncols)
  end.

(** Lines 1906-1915: the base of the names of the new datasets. *)
Definition anc_basename (basename : option string) (is_spec : bool) : string :=
  match basename with
  | Some basename => strip_underscore basename
  | None => if is_spec then "Spectroscopic" else "Position"
  end.

Definition write_reduced_anc_dsets {V} (zero : V) (h5_parent_group : group_arg)
    (h5_inds : array_arg Z) (h5_vals : array_arg V) (dim_name : names_arg)
    (basename : option string) (is_spec : option bool)
  : result (group * dataset Z * dataset V) :=
  match h5_parent_group, h5_inds, h5_vals with
  | GroupOther, _, _ =>
      Raise (TypeError "h5_parent_group should either be a h5py. Group or File object")
  | GroupArg h5_parent_group, ArgDataset h5_inds, ArgDataset h5_vals =>
      all_dim_names ← get_attr (H5Dataset h5_inds) "labels" ≫= list_of_attr;
      dim_name ← names_of dim_name;
      check (forallb (λ item, bool_decide (item ∈ all_dim_names)) dim_name)
        (KeyError "Requested dimension not in the list of labels");;
      is_spec ← resolve_is_spec (dset_shape h5_inds) is_spec;
      let basename := anc_basename basename is_spec in
      check (forallb (λ sub_name, negb (bool_decide (basename +:+ sub_name ∈ grp_keys h5_parent_group)))
               ["_Indices"; "_Values"])
        (KeyError "Dataset already exists in provided group");;
      '(h5_inds_new, h5_vals_new) ←
        (if negb (bool_decide (list_to_set dim_name =@{gset string} list_to_set all_dim_names))
         then
           (* At least one dimension will remain *)
           reduce_anc_dsets h5_inds h5_vals all_dim_names dim_name basename is_spec
         else
           (* Remove all dimensions *)
           Ok (single_step_dsets zero basename));
      let h5_parent_group :=
        Group (grp_name h5_parent_group)
              ({[dset_name h5_inds_new; dset_name h5_vals_new]} ∪ grp_keys h5_parent_group) in
      Ok (h5_parent_group, h5_inds_new, h5_vals_new)
  | _, ArgDataset _, _ => Raise (TypeError "h5_vals should be a h5py.Dataset object")
  | _, _, _ => Raise (TypeError "h5_inds should be a h5py.Dataset object")
  end.

(** *** Examples *)

Definition anc_attrs : gmap string attr :=
  <["labels" := AttrStrs ["Bias"; "Cycle"]]> (<["units" := AttrStrs ["V"; EmptyString]]> ∅).

Definition h5_bias_cycle_inds : dataset Z :=
  Dataset "Spectroscopic_Indices" (nd_of_matrix bias_cycle_inds) anc_attrs.
Definition h5_bias_cycle_vals : dataset Z :=
  Dataset "Spectroscopic_Values" (nd_of_matrix bias_cycle_vals) anc_attrs.

Definition results_group : group := Group "/Measurement_000/Channel_000" ∅.

(** ** Tiled rows, as the builder lays them out *)

(** The indices [a, a+1, ..., a+n-1], each held for [s] steps. *)
Fixpoint runs (s a n : nat) : list Z :=
  match n with
  | 0 => []
  | S n' => replicate s (Z.of_nat a) ++ runs s (S a) n'
  end.

(** *** One tiled row: where its minimum sits and how far apart *)

(** [np.diff(p :: l)]: the differences of [l], the first one taken against
    [p]. *)
Definition diff_from (p : Z) (l : list Z) : list Z := Np.diff (p :: l).

(** One tile: the indices [0 .. n], each held for [s] steps. *)
Definition one_tile (s n : nat) : list Z := runs s 0 (S n).

(** The positions of the minimum in [reps] tiles that begin at position
    [o]. *)
Fixpoint starts_from (s n o reps : nat) : list nat :=
  match reps with
  | 0 => []
  | S reps' => seq o s ++ starts_from s n (o + s * S n) reps'
  end.

(** The gap between the last minimum of a tile and the first one of the next. *)
Definition jump (s n : nat) : Z := (Z.of_nat (s * n) + 1)%Z.

(** The gaps between the minima of [reps] tiles when the first one is [g]. *)
Fixpoint gaps_from (s n : nat) (g : Z) (reps : nat) : list Z :=
  match reps with
  | 0 => []
  | S reps' => (g :: replicate (s - 1) 1%Z) ++ gaps_from s n (jump s n) reps'
  end.

(** [np.diff(p :: l)] in [INDICES_DTYPE]. *)
Definition diff32_from (p : Z) (l : list Z) : list Z := Np.diff_uint32 (p :: l).

(** *** The built pair *)

(** The two matrices of the builder in the spectroscopic orientation. *)
Definition built_inds {V} (unit_values : list (list V)) : matrix Z :=
  (build_ind_val_matrices unit_values true).1.
Definition built_vals {V} (unit_values : list (list V)) : matrix V :=
  (build_ind_val_matrices unit_values true).2.

(** ** Definitions used by the further properties *)

(** The names asked for, once [None] and a single name are resolved. *)
Definition requested (dim_names : names_arg) (all_dim_names : list string) : list string :=
  match dim_names with
  | NamesNone => all_dim_names
  | NamesStr s => [s]
  | NamesList l => l
  end.

(** The Bias/Cycle indices, marked as incomplete. *)
Definition h5_incomplete_inds : dataset Z :=
  Dataset "Spectroscopic_Indices" (nd_of_matrix bias_cycle_inds)
          (<["incomplete_dimensions" := AttrStrs ["Cycle"]]> anc_attrs).

(** What remains of the Bias/Cycle pair once Bias is dropped. *)
Definition cycle_attrs : gmap string attr :=
  write_labels_units
    (write_region_references ∅ [("Cycle", (Some 0, Some 1), (None, None))])
    ["Cycle"] [EmptyString].
Definition h5_cycle_inds : dataset Z :=
  Dataset "Spectroscopic_Indices" (NdArray [1; 3] [0; 1; 2]%Z) cycle_attrs.
Definition h5_cycle_vals : dataset Z :=
  Dataset "Spectroscopic_Values" (NdArray [1; 3] [7; 8; 9]%Z) cycle_attrs.
Definition results_group_filled : group :=
  Group "/Measurement_000/Channel_000" {["Spectroscopic_Indices"; "Spectroscopic_Values"]}.

(** ** Objects of a file, by handle *)

(** An argument that is expected to be an HDF5 object: an object of the open
    file, named by its reference, or any other Python object.  A reference
    that names no object of the file stands for no h5py object. *)
Inductive h5_arg : Type :=
  | H5Obj (r : nat)
  | NotH5.

(** The reference and the object behind an argument, when it is an
    [h5py.Dataset], [h5py.Group] or [h5py.File]. *)
Definition as_obj (f : h5file) (a : h5_arg) : option (nat * h5obj) :=
  match a with
  | H5Obj r => (λ o, (r, o)) <$> objects f !! r
  | NotH5 => None
  end.

(** The same for an [h5py.Dataset]. *)
Definition as_dataset (f : h5file) (a : h5_arg) : option (nat * dataset Z) :=
  match as_obj f a with
  | Some (r, H5Dataset d) => Some (r, d)
  | _ => None
  end.

(** [obj.attrs] and [obj.name] *)
Definition obj_attrs (o : h5obj) : gmap string attr :=
  match o with
  | H5Dataset d => dset_attrs d
  | H5Group _ attrs => attrs
  end.

Definition obj_name (o : h5obj) : string :=
  match o with
  | H5Dataset d => dset_name d
  | H5Group name _ => name
  end.

Definition obj_with_attrs (o : h5obj) (attrs : gmap string attr) : h5obj :=
  match o with
  | H5Dataset d => H5Dataset (Dataset (dset_name d) (dset_data d) attrs)
  | H5Group name _ => H5Group name attrs
  end.

(** [obj.attrs[name] = v] for the object behind the reference [r]; HDF5
    refuses an attribute without a name. *)
Definition attrs_setitem (f : h5file) (r : nat) (name : string) (v : attr) : result h5file :=
  match objects f !! r with
  | Some o =>
      if bool_decide (name = EmptyString)
      then Raise (ValueError "Unable to create attribute (no attribute name)")
      else Ok (H5File (<[r := obj_with_attrs o (<[name := v]> (obj_attrs o))]> (objects f))
                      (paths f))
  | None => Raise (ValueError "Invalid object reference")
  end.

(** The characters that [str.strip()] removes, among the ASCII ones: tab,
    line feed, vertical tab, form feed, carriage return, the four separators
    [\x1c] to [\x1f], and the space.  The names of this development are
    ASCII strings. *)
Definition is_space (c : ascii) : bool :=
  let n := nat_of_ascii c in
  ((9 <=? n) && (n <=? 13)) || ((28 <=? n) && (n <=? 32)).

Fixpoint lstrip (s : string) : string :=
  match s with
  | EmptyString => EmptyString
  | String c s' => if is_space c then lstrip s' else s
  end.

Fixpoint rstrip (s : string) : string :=
  match s with
  | EmptyString => EmptyString
  | String c s' =>
      match rstrip s' with
      | EmptyString => if is_space c then EmptyString else String c EmptyString
      | t => String c t
      end
  end.

(** [s.strip()] *)
Definition py_strip (s : string) : string := rstrip (lstrip s).

(** ['/' in s] *)
Fixpoint contains_slash (s : string) : bool :=
  match s with
  | EmptyString => false
  | String c s' => bool_decide (c = "/"%char) || contains_slash s'
  end.

(** [s.split('/')[-1]]: what follows the last ['/']. *)
Fixpoint last_component (s : string) : string :=
  match s with
  | EmptyString => EmptyString
  | String c s' =>
      if contains_slash s' then last_component s'
      else if bool_decide (c = "/"%char) then s' else s
  end.

(** ** [link_h5_obj_as_alias], [link_h5_objects_as_attrs], [link_as_main] *)

(** [link_h5_obj_as_alias(h5_main, h5_ancillary, alias_name)]: the file after
    the call.  [alias_name] is a string. *)
Definition link_h5_obj_as_alias (f : h5file) (h5_main h5_ancillary : h5_arg)
    (alias_name : string) : result h5file :=
  match as_obj f h5_main with
  | None => Raise (TypeError "h5_main should either be a h5py Dataset, File, or Group")
  | Some (main_ref, _) =>
      match as_obj f h5_ancillary with
      | None => Raise (TypeError "h5_ancillary should be a h5py. Dataset or Group object")
      | Some (anc_ref, _) =>
          let alias_name := py_strip alias_name in
          attrs_setitem f main_ref alias_name (AttrRef anc_ref)
      end
  end.

(** The argument [h5_objects]: one object, or a list of objects. *)
Inductive objs_arg : Type :=
  | ObjsOne (a : h5_arg)
  | ObjsList (l : list h5_arg).

(** The loop [for itm in h5_objects] of [link_h5_objects_as_attrs]. *)
Fixpoint link_each (f : h5file) (src_ref : nat) (h5_objects : list h5_arg) : result h5file :=
  match h5_objects with
  | [] => Ok f
  | itm :: h5_objects' =>
      match as_obj f itm with
      | None =>
          Raise (TypeError "h5_objects should only contain h5py. Dataset and Group objects")
      | Some (ref, o) =>
          f ← attrs_setitem f src_ref (last_component (obj_name o)) (AttrRef ref);
          link_each f src_ref h5_objects'
      end
  end.

Definition link_h5_objects_as_attrs (f : h5file) (src : h5_arg) (h5_objects : objs_arg)
  : result h5file :=
  match as_obj f src with
  | None => Raise (TypeError "src should either be a h5py Dataset, File, or Group")
  | Some (src_ref, _) =>
      match h5_objects with
      | ObjsOne a =>
          match as_obj f a with
          | Some _ => link_each f src_ref [a]
          | None => Raise (TypeError "object is not iterable")
          end
      | ObjsList l => link_each f src_ref l
      end
  end.

(** The argument [anc_dsets] of [link_as_main]: [None], a list or tuple, or
    any other Python object. *)
Inductive anc_dsets_arg : Type :=
  | AncDsetsNone
  | AncDsetsList (l : list objs_arg)
  | AncDsetsOther.

(** The loop [for dset in anc_dsets] of [link_as_main]. *)
Fixpoint link_all (f : h5file) (h5_main : h5_arg) (anc_dsets : list objs_arg) : result h5file :=
  match anc_dsets with
  | [] => Ok f
  | dset :: anc_dsets' =>
      f ← link_h5_objects_as_attrs f h5_main dset;
      link_all f h5_main anc_dsets'
  end.

Definition link_as_main (f : h5file)
    (h5_main h5_pos_inds h5_pos_vals h5_spec_inds h5_spec_vals : h5_arg)
    (anc_dsets : anc_dsets_arg) : result h5file :=
  let is_dataset (param : h5_arg) (param_name : string) : result (dataset Z) :=
    match as_dataset f param with
    | Some (_, d) => Ok d
    | None => Raise (TypeError (param_name +:+ " should be a h5py.Dataset object"))
    end in
  is_dataset h5_main "h5_main";;
  pos_inds ← is_dataset h5_pos_inds "h5_pos_inds";
  pos_vals ← is_dataset h5_pos_vals "h5_pos_vals";
  spec_inds ← is_dataset h5_spec_inds "h5_spec_inds";
  spec_vals ← is_dataset h5_spec_vals "h5_spec_vals";
  check (bool_decide (dset_shape pos_vals = dset_shape pos_inds))
    (ValueError "h5_pos_vals and h5_pos_inds do not have the same shape");;
  check (bool_decide (dset_shape spec_vals = dset_shape spec_inds))
    (ValueError "h5_spec_vals and h5_spec_inds do not have the same shape");;
  f ← link_h5_obj_as_alias f h5_main h5_pos_inds "Position_Indices";
  f ← link_h5_obj_as_alias f h5_main h5_pos_vals "Position_Values";
  f ← link_h5_obj_as_alias f h5_main h5_spec_inds "Spectroscopic_Indices";
  f ← link_h5_obj_as_alias f h5_main h5_spec_vals "Spectroscopic_Values";
  match anc_dsets with
  | AncDsetsNone => Ok f
  | AncDsetsList l => link_all f h5_main l
  | AncDsetsOther => Raise (TypeError "anc_dsets should be a list or tuple")
  end.

(** The argument of [check_if_main] behind a handle. *)
Definition main_of (f : h5file) (a : h5_arg) : main_arg Z :=
  match as_obj f a with
  | Some (_, H5Dataset d) => MainDataset f d
  | Some (_, H5Group name attrs) => MainGroup f name attrs
  | None => MainOther
  end.

(** *** Example store *)

(** A 2 x 3 dataset that carries 'quantity' and 'units' but no links. *)
Definition unlinked_main : dataset Z :=
  Dataset "/Measurement_000/Raw_Data" (zeros [2; 3])
          (<["quantity" := AttrStr "Current"]> (<["units" := AttrStr "nA"]> ∅)).

(** A file with that dataset and four ancillary datasets of fitting
    shapes. *)
Definition unlinked_file : h5file :=
  H5File (<[0 := H5Dataset unlinked_main]>
         (<[1 := anc_dataset "/Measurement_000/Position_Indices" [2; 1]]>
         (<[2 := anc_dataset "/Measurement_000/Position_Values" [2; 1]]>
         (<[3 := anc_dataset "/Measurement_000/Spectroscopic_Indices" [1; 3]]>
         (<[4 := anc_dataset "/Measurement_000/Spectroscopic_Values" [1; 3]]> ∅))))) ∅.

(** The file in which the object behind [r] has the attributes [attrs]. *)
Definition with_attrs (f : h5file) (r : nat) (o : h5obj) (attrs : gmap string attr) : h5file :=
  H5File (<[r := obj_with_attrs o attrs]> (objects f)) (paths f).

(** The attributes of the main dataset once [link_as_main] is done. *)
Definition linked_attrs (attrs : gmap string attr) (pos_inds pos_vals spec_inds spec_vals : nat)
  : gmap string attr :=
  <["Spectroscopic_Values" := AttrRef spec_vals]>
    (<["Spectroscopic_Indices" := AttrRef spec_inds]>
       (<["Position_Values" := AttrRef pos_vals]>
          (<["Position_Indices" := AttrRef pos_inds]> attrs))).

(** ** [get_auxiliary_datasets] *)

(** [h5_object.attrs.keys()].  h5py lists the names in the order of the
    file, by name or by creation; here they come in the order of the map. *)
Definition attrs_keys (attrs : gmap string attr) : list string := (map_to_list attrs).*1.

(** The loop of [get_auxiliary_datasets] over the names, with the references
    of the datasets found.  A region reference is a reference whose target
    is a dataset, and is left out. *)
Fixpoint aux_datasets (f : h5file) (h5_object : h5obj) (aux_dset_name : list string)
  : result (list nat) :=
  match aux_dset_name with
  | [] => Ok []
  | curr_name :: aux_dset_name' =>
      match obj_attrs h5_object !! curr_name with
      | None =>
          Raise (KeyError (curr_name +:+ " is not an attribute of " +:+ obj_name h5_object))
      | Some h5_ref =>
          found ← match h5_ref with
                  | AttrRef r =>
                      target ← file_getitem f h5_ref;
                      Ok (if is_h5_dataset target then [r] else [])
                  | _ => Ok []
                  end;
          data_list ← aux_datasets f h5_object aux_dset_name';
          Ok (found ++ data_list)
      end
  end.

(** [get_auxiliary_datasets(h5_object, aux_dset_name)]; the names are
    strings. *)
Definition get_auxiliary_datasets (f : h5file) (h5_object : h5_arg) (aux_dset_name : names_arg)
  : result (list nat) :=
  match as_obj f h5_object with
  | None =>
      Raise (TypeError "h5_object should be a h5py.Dataset, h5py.Group or h5py.File object")
  | Some (_, o) =>
      let aux_dset_name :=
        match aux_dset_name with
        | NamesNone => attrs_keys (obj_attrs o)
        | NamesStr s => [s]
        | NamesList l => l
        end in
      aux_datasets f o aux_dset_name
  end.

(** The names that a call looks up. *)
Definition names_looked_up (o : h5obj) (aux_dset_name : names_arg) : list string :=
  match aux_dset_name with
  | NamesNone => attrs_keys (obj_attrs o)
  | NamesStr s => [s]
  | NamesList l => l
  end.

(** ** [check_and_link_ancillary] *)





(** *** Example store *)


(** ** [get_attributes] *)

(** The loop [for attr in attr_names] of [get_attributes]. *)
Fixpoint get_attributes_loop (h5_object : h5obj) (attr_names : list string)
    (att_dict : gmap string attr) : result (gmap string attr) :=
  match attr_names with
  | [] => Ok att_dict
  | attr :: attr_names' =>
      match get_attr h5_object attr with
      | Ok att_val => get_attributes_loop h5_object attr_names' (<[attr := att_val]> att_dict)
      | Raise (KeyError _) =>
          Raise (KeyError (attr +:+ " is not an attribute of " +:+ obj_name h5_object))
      | Raise e => Raise e
      end
  end.

(** [get_attributes(h5_object, attr_names)]; the names are strings. *)
Definition get_attributes (f : h5file) (h5_object : h5_arg) (attr_names : names_arg)
  : result (gmap string attr) :=
  match as_obj f h5_object with
  | None =>
      Raise (TypeError "h5_object should be a h5py.Dataset, h5py.Group or h5py.File object")
  | Some (_, o) =>
      let attr_names :=
        match attr_names with
        | NamesNone => attrs_keys (obj_attrs o)
        | NamesStr s => [s]
        | NamesList l => l
        end in
      get_attributes_loop o attr_names ∅
  end.

(** The index matrix of dimensions of the sizes [num_steps], in the
    spectroscopic orientation. *)
Definition tiled_indices (num_steps : list nat) : matrix Z :=
  Matrix (Np.prod num_steps) (imap (λ i n, tile_row num_steps i (arange n)) num_steps).

(** ** Python strings *)

(** [s.startswith(prefix)] *)
Fixpoint startswith (s prefix : string) : bool :=
  match prefix, s with
  | EmptyString, _ => true
  | String c prefix', String d s' => bool_decide (c = d) && startswith s' prefix'
  | String _ _, EmptyString => false
  end.

(** [s.endswith(c)] for a single character [c]. *)
Fixpoint endswith_char (s : string) (c : ascii) : bool :=
  match s with
  | EmptyString => false
  | String d EmptyString => bool_decide (d = c)
  | String _ s' => endswith_char s' c
  end.

(** [s.replace(old, '')]: the occurrences of [old] are found from the left
    and do not overlap; [skip] counts the characters of the current
    occurrence that are still to be dropped. *)
Fixpoint remove_from (skip : nat) (s old : string) : string :=
  match s with
  | EmptyString => EmptyString
  | String c s' =>
      match skip with
      | S skip' => remove_from skip' s' old
      | 0 =>
          if startswith s old then remove_from (String.length old - 1) s' old
          else String c (remove_from 0 s' old)
      end
  end.

Definition str_remove (s old : string) : string :=
  if bool_decide (old = EmptyString) then s else remove_from 0 s old.

(** The value of an ASCII decimal digit. *)
Definition digit_of (c : ascii) : option Z :=
  let n := nat_of_ascii c in
  if (48 <=? n) && (n <=? 57) then Some (Z.of_nat (n - 48)) else None.

(** The digits of an integer literal: decimal digits, with single
    underscores allowed between two digits.  [after_digit] tells whether the
    character before was a digit. *)
Fixpoint parse_digits (acc : Z) (after_digit : bool) (s : string) : option Z :=
  match s with
  | EmptyString => if after_digit then Some acc else None
  | String c s' =>
      match digit_of c with
      | Some d => parse_digits (10 * acc + d) true s'
      | None =>
          if bool_decide (c = "_"%char) && after_digit then parse_digits acc false s'
          else None
      end
  end.

(** The whitespace that [int] skips before and after a literal: tab, line
    feed, vertical tab, form feed, carriage return and space (not the
    separators [\x1c] to [\x1f], which [str.strip] removes). *)
Definition int_space (c : ascii) : bool :=
  let n := nat_of_ascii c in
  ((9 <=? n) && (n <=? 13)) || (n =? 32).

Fixpoint int_lstrip (s : string) : string :=
  match s with
  | EmptyString => EmptyString
  | String c s' => if int_space c then int_lstrip s' else s
  end.

Fixpoint int_rstrip (s : string) : string :=
  match s with
  | EmptyString => EmptyString
  | String c s' =>
      match int_rstrip s' with
      | EmptyString => if int_space c then EmptyString else String c EmptyString
      | t => String c t
      end
  end.

(** The value of [s] read as an integer literal: whitespace around it, an
    optional sign, and the digits; [None] when [s] is no such literal. *)
Definition int_literal (s : string) : option Z :=
  match int_rstrip (int_lstrip s) with
  | EmptyString => None
  | String c s' =>
      if bool_decide (c = "-"%char) then Z.opp <$> parse_digits 0 false s'
      else if bool_decide (c = "+"%char) then parse_digits 0 false s'
      else parse_digits 0 false (String c s')
  end.

(** The number of digits in [s]. *)
Fixpoint count_digits (s : string) : nat :=
  match s with
  | EmptyString => 0
  | String c s' =>
      match digit_of c with
      | Some _ => S (count_digits s')
      | None => count_digits s'
      end
  end.

(** [int(s)] for a string [s] of ASCII characters.  A literal of more than
    4300 digits is refused, as the interpreter does by default.  Python also
    reads the digits and the whitespace of other scripts; a string with a
    character that is not ASCII is no literal here, and what is stated of a
    string that [int] refuses is stated of ASCII strings. *)
Definition py_int (s : string) : result Z :=
  match int_literal s with
  | Some z =>
      if (4300 <? Z.of_nat (count_digits s))%Z
      then Raise (ValueError "Exceeds the limit (4300 digits) for integer string conversion")
      else Ok z
  | None => Raise (ValueError "invalid literal for int() with base 10")
  end.

Fixpoint zeros_string (n : nat) : string :=
  match n with
  | 0 => EmptyString
  | S n' => String "0" (zeros_string n')
  end.

(** [digits.zfill(width)] for a string of digits. *)
Definition zfill (width : nat) (digits : string) : string :=
  zeros_string (width - String.length digits) +:+ digits.

(** ['{:03d}'.format(index)]: the sign counts in the width. *)
Definition format_03d (index : Z) : string :=
  if (index <? 0)%Z then "-" +:+ zfill 2 (pretty (Z.to_N (- index)))
  else zfill 3 (pretty (Z.to_N index)).

(** ** [assign_group_index] *)

(** What a name of a group stands for: a group or a dataset. *)
Inductive member : Type :=
  | SubGroup
  | SubDataset.

#[global] Instance member_eq_dec : EqDecision member.
Proof. solve_decision. Defined.

(** A group with its members. *)
Record h5group : Type := H5GroupOf {
  h5g_name : string;
  h5g_members : gmap string member
}.

(** The argument [h5_parent_group]: a group (or file), or any other Python
    object. *)
Inductive h5group_arg : Type :=
  | IsH5Group (g : h5group)
  | NotH5Group.

(** [base_name] with the underscore that lines 2034-2035 add. *)
Definition with_underscore (base_name : string) : string :=
  if endswith_char base_name "_" then base_name else base_name +:+ "_".

(** The loop of lines 2041-2044: the indices of the groups whose names start
    with [base_name]. *)
Definition previous_indices (g : h5group) (base_name : string) : result (list Z) :=
  let temp := (map_to_list (h5g_members g)).*1 in
  mapM (λ item_name, py_int (str_remove item_name base_name))
       (filter (λ item_name, h5g_members g !! item_name = Some SubGroup ∧
                             startswith item_name base_name = true) temp).

(** [x + 1] in [int64], the type of the sorted indices. *)
Definition int64_succ (x : Z) : Z := ((x + 1 + 2 ^ 63) mod 2 ^ 64 - 2 ^ 63)%Z.

(** [assign_group_index(h5_parent_group, base_name)]; [base_name] is a
    string.  The indices found are sorted as an [int64] array (group names
    with indices beyond that range are outside the model), and the last one
    is the largest. *)
Definition assign_group_index (h5_parent_group : h5group_arg) (base_name : string)
  : result string :=
  match h5_parent_group with
  | NotH5Group => Raise (TypeError "h5_parent_group should be a h5py.Group object")
  | IsH5Group g =>
      check (negb (bool_decide (base_name = EmptyString)))
        (ValueError "base_name should not be an empty string");;
      let base_name := with_underscore base_name in
      previous_indices ← previous_indices g base_name;
      let index :=
        match previous_indices with
        | [] => 0%Z
        | x :: rest => int64_succ (foldr Z.max x rest)
        end in
      Ok (base_name +:+ format_03d index)
  end.

(** *** Example group *)

Definition measurement_group : h5group :=
  H5GroupOf "/Measurement_000"
    (<["Channel_000" := SubGroup]> (<["Channel_001" := SubGroup]>
    (<["Channel_names" := SubDataset]> ∅))).

(** Every character of [s] passes the test [p]. *)
Fixpoint string_forall (p : ascii → bool) (s : string) : bool :=
  match s with
  | EmptyString => true
  | String c s' => p c && string_forall p s'
  end.

Definition is_digit (c : ascii) : bool :=
  let n := nat_of_ascii c in (48 <=? n) && (n <=? 57).

Definition not_underscore (c : ascii) : bool := negb (bool_decide (c = "_"%char)).

(** The characters of ASCII. *)
Definition is_ascii (c : ascii) : bool := nat_of_ascii c <? 128.

(** The index that follows the indices found. *)
Definition next_index (indices : list Z) : Z :=
  match indices with
  | [] => 0%Z
  | x :: rest => (foldr Z.max x rest + 1)%Z
  end.


(** A parent with a group whose name goes on with a word. *)
Definition results_parent : h5group :=
  H5GroupOf "/Measurement_000/Channel_000"
    (<["Fit_000" := SubGroup]> (<["Fit_old" := SubGroup]> ∅)).

(** ** [copy_attributes], [copy_main_attributes], [write_simple_attrs] *)

(** [clean_string_att] of [write_utils] is an argument of the functions that
    call it: it takes the value read and returns the value to store, or
    raises.  What [copy_region_refs] does once it has checked its two
    arguments relies on the functions of [reg_ref] and is an argument as
    well, [copy_refs]: it takes the file, the two datasets and [are_main],
    and returns the file it leaves with the exception it raised, if any. *)

(** [isinstance(att_val, h5py.Reference)]; a region reference is a
    reference. *)
Definition is_reference (att_val : attr) : bool :=
  match att_val with
  | AttrRef _ | AttrRegion _ _ => true
  | _ => false
  end.

(** [isinstance(att_val, h5py.RegionReference)] *)
Definition is_region_reference (att_val : attr) : bool :=
  match att_val with
  | AttrRegion _ _ => true
  | _ => false
  end.

(** The object behind a handle that was checked before. *)
Definition deref (f : h5file) (r : nat) : result h5obj :=
  match objects f !! r with
  | Some o => Ok o
  | None => Raise (ValueError "Invalid object reference")
  end.

(** The loop [for att_name in source.attrs.keys()] of [copy_attributes]. *)
Fixpoint copy_attributes_loop (clean_string_att : attr → result attr) (f : h5file)
    (source dest : nat) (skip_refs : bool) (att_names : list string) : result h5file :=
  match att_names with
  | [] => Ok f
  | att_name :: att_names' =>
      h5_source ← deref f source;
      h5_dest ← deref f dest;
      att_val ← get_attr h5_source att_name;
      if is_reference att_val then
        if negb skip_refs && negb (is_h5_dataset h5_dest) then
          copy_attributes_loop clean_string_att f source dest skip_refs att_names'
        else if is_region_reference att_val then
          copy_attributes_loop clean_string_att f source dest skip_refs att_names'
        else
          f ← attrs_setitem f dest att_name att_val;
          copy_attributes_loop clean_string_att f source dest skip_refs att_names'
      else
        clean_val ← clean_string_att att_val;
        f ← attrs_setitem f dest att_name clean_val;
        copy_attributes_loop clean_string_att f source dest skip_refs att_names'
  end.

(** [copy_region_refs(h5_source, h5_target)]: the file it leaves and the
    exception it raised, if any. *)
Definition copy_region_refs (copy_refs : h5file → nat → nat → bool → h5file * option exn)
    (f : h5file) (h5_source h5_target : h5_arg) : h5file * option exn :=
  match check_if_main (main_of f h5_source) with
  | Raise e => (f, Some e)
  | Ok source_is_main =>
      match check_if_main (main_of f h5_target) with
      | Raise e => (f, Some e)
      | Ok target_is_main =>
          let are_main := source_is_main && target_is_main in
          match as_dataset f h5_source, as_dataset f h5_target with
          | Some (source_ref, _), Some (target_ref, _) =>
              copy_refs f source_ref target_ref are_main
          | _, _ =>
              (f, Some (TypeError
                          "Inputs to copyRegionRefs must be HDF5 Datasets or PycroDatasets."))
          end
      end
  end.

(** [copy_attributes(source, dest, skip_refs)]: the file after the call (the
    value returned is [dest]). *)
Definition copy_attributes (clean_string_att : attr → result attr)
    (copy_refs : h5file → nat → nat → bool → h5file * option exn)
    (f : h5file) (source dest : h5_arg) (skip_refs : bool) : result h5file :=
  match as_obj f source with
  | None =>
      Raise (TypeError "source should be a h5py.Dataset, h5py.Group,or h5py.File object")
  | Some (source_ref, h5_source) =>
      match as_obj f dest with
      | None =>
          Raise (TypeError "dest should be a h5py.Dataset, h5py.Group, or h5py.File object")
      | Some (dest_ref, _) =>
          f ← copy_attributes_loop clean_string_att f source_ref dest_ref skip_refs
                (attrs_keys (obj_attrs h5_source));
          if negb skip_refs then
            match copy_region_refs copy_refs f source dest with
            | (f, None) => Ok f
            | (f, Some (TypeError _)) => Ok f
            | (_, Some e) => Raise e
            end
          else Ok f
      end
  end.

(** The loop [for att_name in ['quantity', 'units']] of
    [copy_main_attributes]. *)
Fixpoint copy_main_attributes_loop (clean_string_att : attr → result attr) (f : h5file)
    (main new : nat) (att_names : list string) : result h5file :=
  match att_names with
  | [] => Ok f
  | att_name :: att_names' =>
      h5_main ← deref f main;
      check (attrs_contains (obj_attrs h5_main) att_name)
        (KeyError ("Attribute: " +:+ att_name +:+ " does not exist in " +:+ obj_name h5_main));;
      val ← get_attr h5_main att_name;
      clean_val ← clean_string_att val;
      f ← attrs_setitem f new att_name clean_val;
      copy_main_attributes_loop clean_string_att f main new att_names'
  end.

(** [copy_main_attributes(h5_main, h5_new)]: the file after the call. *)
Definition copy_main_attributes (clean_string_att : attr → result attr) (f : h5file)
    (h5_main h5_new : h5_arg) : result h5file :=
  match as_dataset f h5_main with
  | None => Raise (TypeError "h5_main should be a h5py.Dataset object")
  | Some (main_ref, _) =>
      match as_dataset f h5_new with
      | None => Raise (TypeError "h5_new should be a h5py.Dataset object")
      | Some (new_ref, _) =>
          copy_main_attributes_loop clean_string_att f main_ref new_ref ["quantity"; "units"]
      end
  end.

(** The argument [attrs] of [write_simple_attrs]: a dictionary, given by its
    items in order, where a value may be [None]; or any other Python
    object. *)
Inductive attrs_arg : Type :=
  | AttrsDict (items : list (string * option attr))
  | AttrsOther.

(** The loop [for key, val in attrs.items()] of [write_simple_attrs]. *)
Fixpoint write_simple_attrs_loop (clean_string_att : attr → result attr) (f : h5file)
    (h5_obj : nat) (items : list (string * option attr)) : result h5file :=
  match items with
  | [] => Ok f
  | (key, val) :: items' =>
      match val with
      | None => write_simple_attrs_loop clean_string_att f h5_obj items'
      | Some val =>
          clean_val ← clean_string_att val;
          f ← attrs_setitem f h5_obj key clean_val;
          write_simple_attrs_loop clean_string_att f h5_obj items'
      end
  end.

(** [write_simple_attrs(h5_obj, attrs)]: the file after the call. *)
Definition write_simple_attrs (clean_string_att : attr → result attr) (f : h5file)
    (h5_obj : h5_arg) (attrs : attrs_arg) : result h5file :=
  match attrs with
  | AttrsOther => Raise (TypeError "attrs should be a dictionary but is instead of type")
  | AttrsDict items =>
      match as_obj f h5_obj with
      | None =>
          Raise (TypeError "h5_obj should be a h5py File, Group or Dataset object but is instead of type")
      | Some (obj_ref, _) => write_simple_attrs_loop clean_string_att f obj_ref items
      end
  end.

(** What the loop of [copy_attributes] stores for a value of the source, if
    anything; [copies_refs] tells whether references are looked at. *)
Definition copy_of (cleaned : attr → attr) (copies_refs : bool) (att_val : attr) : option attr :=
  if is_reference att_val then
    if copies_refs && negb (is_region_reference att_val) then Some att_val else None
  else Some (cleaned att_val).

(** *** Example store *)

(** A dataset with a unit, a link and a region reference. *)
Definition raw_with_links : dataset Z :=
  Dataset "/Measurement_000/Raw_Data" (zeros [2; 3])
          (<["units" := AttrStr "nA"]>
          (<["Position_Indices" := AttrRef 1]>
          (<["even_rows" := AttrRegion (Some 0, Some 1) (None, None)]> ∅))).

Definition filtered : dataset Z :=
  Dataset "/Measurement_000/Filtered" (zeros [2; 3]) (<["units" := AttrStr "V"]> ∅).

(** A file with the two datasets, the dataset the first one links to, and a
    group. *)
Definition copy_file : h5file :=
  H5File (<[0 := H5Dataset raw_with_links]>
         (<[1 := anc_dataset "/Measurement_000/Position_Indices" [2; 1]]>
         (<[2 := H5Dataset filtered]>
         (<[3 := H5Group "/Measurement_000/Results" ∅]> ∅)))) ∅.

(** A file with a main dataset that is not linked, a second dataset of the
    same shape without attributes, and four ancillary datasets. *)
Definition derived_file : h5file :=
  H5File (<[0 := H5Dataset unlinked_main]>
         (<[1 := anc_dataset "/Measurement_000/Position_Indices" [2; 1]]>
         (<[2 := anc_dataset "/Measurement_000/Position_Values" [2; 1]]>
         (<[3 := anc_dataset "/Measurement_000/Spectroscopic_Indices" [1; 3]]>
         (<[4 := anc_dataset "/Measurement_000/Spectroscopic_Values" [1; 3]]>
         (<[5 := anc_dataset "/Measurement_000/Filtered" [2; 3]]> ∅)))))) ∅.

(** ** [write_reduced_spec_dsets] *)

(** [write_reduced_spec_dsets(h5_parent_group, h5_spec_inds, h5_spec_vals,
    dim_name, basename)]; [basename] is ['Spectroscopic'] when it is not
    given.  The call hands no [is_spec] on. *)
Definition write_reduced_spec_dsets {V} (zero : V) (h5_parent_group : group_arg)
    (h5_spec_inds : array_arg Z) (h5_spec_vals : array_arg V) (dim_name : names_arg)
    (basename : option string) : result (group * dataset Z * dataset V) :=
  write_reduced_anc_dsets zero h5_parent_group h5_spec_inds h5_spec_vals dim_name
    basename None.

(** ** [find_results_groups] and the name of a results group *)

(** [sub in s] for two strings. *)
Fixpoint contains (s sub : string) : bool :=
  startswith s sub ||
  match s with
  | EmptyString => false
  | String _ s' => contains s' sub
  end.


(** An argument that is expected to be a dataset: a dataset, with its name
    and the group it lies in, or any other Python object. *)
Inductive h5dataset_arg : Type :=
  | IsH5Dataset (name : string) (parent : h5group)
  | NotH5Dataset.

(** [find_results_groups(h5_main, tool_name)]; [tool_name] is a string.  The
    groups returned are given by their names in the parent group. *)
Definition find_results_groups (h5_main : h5dataset_arg) (tool_name : string)
  : result (list string) :=
  match h5_main with
  | NotH5Dataset => Raise (TypeError "h5_main should be a h5py.Dataset object")
  | IsH5Dataset name h5_parent_group =>
      let dset_name := last_component name in
      Ok (filter (λ key, contains key dset_name = true ∧ contains key tool_name = true ∧
                         h5g_members h5_parent_group !! key = Some SubGroup)
                 (map_to_list (h5g_members h5_parent_group)).*1)
  end.


(** *** Example *)

(** A group with two datasets, the name of one inside the name of the other,
    and a results group of the second. *)
Definition channel_group : h5group :=
  H5GroupOf "/Measurement_000/Channel_000"
    (<["Raw" := SubDataset]> (<["Raw_Data" := SubDataset]>
    (<["Raw_Data-Fit_000" := SubGroup]> ∅))).

(** * Properties *)

(** ** Properties of [get_sort_order] *)

Example get_sort_order_bias_cycle : get_sort_order bias_cycle_inds = [0; 1].
Proof. reflexivity. Qed.

Example change_count_bias_cycle : change_count bias_cycle_inds = [15; 3].
Proof. reflexivity. Qed.

(** *** Sorting lemmas *)

Section argsort.
Variable key : nat → nat.

Lemma insert_index_perm i l : Np.insert_index key i l ≡ₚ i :: l.
Proof.
  induction l as [|j l IH]; simpl; [done|].
  destruct (key i <? key j); [done|].
  rewrite IH. apply Permutation_swap.
Qed.

Lemma argsort_upto_perm n : Np.argsort_upto key n ≡ₚ seq 0 n.
Proof.
  induction n as [|n IH]; [done|].
  cbn [Np.argsort_upto]. rewrite insert_index_perm, IH, seq_S.
  apply Permutation_cons_append.
Qed.

Lemma insert_index_sorted i l :
  Forall (λ j, j < i) l →
  StronglySorted (stable_lt key) l →
  StronglySorted (stable_lt key) (Np.insert_index key i l).
Proof.
  induction l as [|j l IH]; intros Hlt Hs; simpl.
  - repeat constructor.
  - apply Forall_cons in Hlt as [Hj Hlt].
    apply StronglySorted_inv in Hs as [Hs Hjl].
    destruct (Nat.ltb_spec (key i) (key j)) as [Hk|Hk].
    + constructor; [by constructor|].
      constructor; [by left|].
      eapply Forall_impl; [exact Hjl|].
      intros k [Hjk|[Hjk _]]; left; lia.
    + constructor; [by apply IH|].
      rewrite insert_index_perm. constructor; [|done].
      unfold stable_lt. lia.
Qed.

Lemma argsort_upto_sorted n : StronglySorted (stable_lt key) (Np.argsort_upto key n).
Proof.
  induction n as [|n IH]; simpl; [constructor|].
  apply insert_index_sorted; [|done].
  rewrite argsort_upto_perm. apply Forall_forall.
  intros j Hj%elem_of_seq. lia.
Qed.
End argsort.

Lemma StronglySorted_reverse {A} (R : A → A → Prop) (l : list A) :
  StronglySorted R l → StronglySorted (flip R) (reverse l).
Proof.
  induction 1 as [|x l Hs IH Hx]; [constructor|].
  rewrite reverse_cons.
  apply StronglySorted_app_2; [|exact IH|repeat constructor].
  intros a b Ha Hb%list_elem_of_singleton. subst b.
  rewrite elem_of_reverse in Ha.
  rewrite Forall_forall in Hx. unfold flip. by apply Hx.
Qed.

Lemma StronglySorted_weaken {A} (R R' : A → A → Prop) (l : list A) :
  (∀ x y, R x y → R' x y) → StronglySorted R l → StronglySorted R' l.
Proof.
  intros HR. induction 1 as [|x l Hs IH Hx]; constructor; [done|].
  eapply Forall_impl; [exact Hx|]. auto.
Qed.

Lemma StronglySorted_lookup {A} (R : A → A → Prop) (l : list A) p q x y :
  StronglySorted R l → p < q → l !! p = Some x → l !! q = Some y → R x y.
Proof.
  intros Hs. revert p q. induction Hs as [|a l Hs IH Ha]; intros p q Hpq Hp Hq; [done|].
  destruct q as [|q]; [lia|]. cbn in Hq. destruct p as [|p].
  - cbn in Hp. injection Hp as ->. rewrite Forall_forall in Ha.
    by apply Ha, (list_elem_of_lookup_2 _ q).
  - cbn in Hp. apply (IH p q); [lia|done..].
Qed.

Lemma argsort_is_result (keys : list nat) : argsort_result keys (Np.argsort keys).
Proof.
  unfold argsort_result, Np.argsort. split; [apply argsort_upto_perm|].
  intros p q i j Hpq Hi Hj.
  pose proof (StronglySorted_lookup _ _ p q i j
                (argsort_upto_sorted (λ i, nth i keys 0) (length keys)) Hpq Hi Hj) as H.
  unfold stable_lt in H. lia.
Qed.

(** C2, as the code has it.  [np.argsort] of the default kind returns the
    indices in an order in which the keys ascend and fixes nothing about
    equal keys.  Whatever order it returns, [get_sort_order] returns a
    permutation of the row indices of the (orientation-normalised) matrix
    along which the counts of value changes descend, where the count of a row
    includes the comparison of its first entry with its last one: a row that
    changes more often comes before every row that changes less often.  The
    order of rows with equal counts is left open.  The order that
    [get_sort_order] computes here is one of these orders. *)
Theorem get_sort_order_descending (ds_spec : matrix Z) :
  get_sort_order_result ds_spec (get_sort_order ds_spec) ∧
  ∀ change_sort, get_sort_order_result ds_spec change_sort →
    change_sort ≡ₚ seq 0 (mat_nrows (as_spectroscopic ds_spec)) ∧
    (∀ p q i j, p < q → change_sort !! p = Some i → change_sort !! q = Some j →
                count_of ds_spec j ≤ count_of ds_spec i) ∧
    (∀ p q i j, change_sort !! p = Some i → change_sort !! q = Some j →
                count_of ds_spec j < count_of ds_spec i → p < q).
Proof.
  split.
  { exists (Np.argsort (change_count ds_spec)). split; [apply argsort_is_result|done]. }
  intros change_sort (order & [Hperm Hsorted] & ->).
  assert (length order = length (change_count ds_spec)) as Hlen
    by (by rewrite Hperm, length_seq).
  assert (∀ p q i j, p < q → reverse order !! p = Some i → reverse order !! q = Some j →
                     count_of ds_spec j ≤ count_of ds_spec i) as Hdesc.
  { intros p q i j Hpq Hi Hj.
    assert (q < length order) as Hq
      by (rewrite <-length_reverse; by eapply lookup_lt_Some).
    rewrite reverse_lookup in Hi, Hj by lia.
    apply (Hsorted (length order - S q) (length order - S p) j i); [lia|done..]. }
  split; [|split; [exact Hdesc|]].
  - rewrite reverse_Permutation, Hperm. unfold change_count, mat_nrows.
    by rewrite length_map.
  - intros p q i j Hi Hj Hlt.
    destruct (Nat.lt_total p q) as [Hpq|[->|Hqp]]; [done|..].
    + rewrite Hi in Hj. injection Hj as ->. lia.
    + pose proof (Hdesc q p j i Hqp Hj Hi). lia.
Qed.

Lemma get_sort_order_descending_witness :
  [0; 1] ≡ₚ seq 0 (mat_nrows (as_spectroscopic bias_cycle_inds)) ∧
  (∀ p q i j, p < q → [0; 1] !! p = Some i → [0; 1] !! q = Some j →
              count_of bias_cycle_inds j ≤ count_of bias_cycle_inds i) ∧
  (∀ p q i j, [0; 1] !! p = Some i → [0; 1] !! q = Some j →
              count_of bias_cycle_inds j < count_of bias_cycle_inds i → p < q).
Proof.
  apply (proj2 (get_sort_order_descending bias_cycle_inds) [0; 1]).
  exists [1; 0]. split; [|reflexivity]. split; [apply perm_swap|].
  intros [|[|p]] [|[|q]] i j Hpq Hi Hj; try done; try lia.
  injection Hi as <-. injection Hj as <-. vm_compute. lia.
Defined.

(** C2, counterexample: on two rows with equal counts the result lists row 1
    before row 0, so ties are not kept in their original order.  (Two keys
    are sorted by insertion, and the ascending order is then reversed.) *)
Lemma get_sort_order_ties_reversed :
  count_of tied_inds 0 = count_of tied_inds 1 ∧
  get_sort_order tied_inds = [1; 0] ∧
  ¬ ties_keep_original_order (count_of tied_inds) (get_sort_order tied_inds).
Proof.
  split; [reflexivity|]. split; [reflexivity|].
  intros H. specialize (H 0 1 1 0).
  cut (1 < 0); [lia|]. apply H; [lia|reflexivity..].
Qed.

(** ** Properties of [get_dimensionality] *)

Example get_dimensionality_default :
  get_dimensionality bias_cycle_inds None = Ok [5; 3].
Proof. reflexivity. Qed.

Example get_dimensionality_reordered :
  get_dimensionality bias_cycle_inds (Some [1; 0]%Z) = Ok [3; 5].
Proof. reflexivity. Qed.

Example get_dimensionality_short_order :
  raises (get_dimensionality bias_cycle_inds (Some [1]%Z)).
Proof. exact I. Qed.

(** *** Lemmas on [np.unique] *)

Lemma elem_of_insert_unique x y l :
  y ∈ Np.insert_unique x l ↔ y = x ∨ y ∈ l.
Proof.
  induction l as [|z l IH]; simpl.
  - rewrite list_elem_of_singleton, elem_of_nil. tauto.
  - destruct (Z.ltb_spec x z); [by rewrite elem_of_cons|].
    destruct (Z.eqb_spec x z) as [->|Hne].
    + rewrite elem_of_cons. tauto.
    + rewrite !elem_of_cons, IH. tauto.
Qed.

Lemma elem_of_unique x l : x ∈ Np.unique l ↔ x ∈ l.
Proof.
  induction l as [|y l IH]; simpl; [done|].
  rewrite elem_of_insert_unique, IH, elem_of_cons. tauto.
Qed.

Lemma insert_unique_sorted x l :
  StronglySorted Z.lt l → StronglySorted Z.lt (Np.insert_unique x l).
Proof.
  induction l as [|z l IH]; intros Hs; simpl.
  - repeat constructor.
  - apply StronglySorted_inv in Hs as [Hs Hz].
    destruct (Z.ltb_spec x z).
    + constructor; [by constructor|]. constructor; [done|].
      eapply Forall_impl; [exact Hz|]. intros; simpl in *; lia.
    + destruct (Z.eqb_spec x z); [by constructor|].
      constructor; [by apply IH|].
      apply Forall_forall. intros y [->|Hy]%elem_of_insert_unique; [lia|].
      rewrite Forall_forall in Hz. by apply Hz.
Qed.

Lemma unique_sorted l : StronglySorted Z.lt (Np.unique l).
Proof.
  induction l as [|y l IH]; simpl; [constructor|]. by apply insert_unique_sorted.
Qed.

Lemma unique_NoDup l : NoDup (Np.unique l).
Proof.
  generalize (unique_sorted l). induction 1 as [|x u Hs IH Hx]; constructor; [|done].
  intros Hin. rewrite Forall_forall in Hx. specialize (Hx x Hin). lia.
Qed.

(** *** Lemmas on the order check *)

Lemma elem_of_arange_set n x : x ∈ arange_set n ↔ (0 ≤ x < Z.of_nat n)%Z.
Proof.
  unfold arange_set. rewrite elem_of_list_to_set, list_elem_of_fmap. split.
  - intros (i & -> & Hi%elem_of_seq). lia.
  - intros Hx. exists (Z.to_nat x). rewrite elem_of_seq. lia.
Qed.

Lemma contains_integers_true l m :
  contains_integers l m = true ↔ l ≠ [] ∧ ∀ x, x ∈ l → (m ≤ x)%Z.
Proof.
  destruct l as [|y l]; [simpl; split; [done|intros [? _]; done]|].
  unfold contains_integers. rewrite forallb_forall. split.
  - intros H. split; [done|]. intros x Hx%list_elem_of_In. apply H in Hx. lia.
  - intros [_ H] x Hx%list_elem_of_In. apply H in Hx. lia.
Qed.

Lemma take_rows_in_range {A} (rows : list A) (idx : list nat) (d : A) :
  Forall (λ i, i < length rows) idx →
  take_rows rows idx = Ok (map (λ i, nth i rows d) idx).
Proof.
  induction 1 as [|i idx Hi _ IH]; simpl; [done|].
  destruct (lookup_lt_is_Some_2 rows i Hi) as [r Hr].
  rewrite Hr, IH. simpl. f_equal. f_equal. symmetry. by apply nth_lookup_Some with (d:=d).
Qed.

(** C4, as the code has it: [get_dimensionality] compares the order with the
    row indices as sets.  When the order is non-empty and its entries are
    exactly the row indices of the (orientation-normalised) matrix, each at
    least once, it returns, for each entry of the order, the number of
    distinct values of that row, also when the order repeats a row; in every
    other case it raises [ValueError]. *)
Theorem get_dimensionality_checks_set (ds_index : matrix Z) (index_sort : list Z) :
  let m := as_spectroscopic ds_index in
  (covers_rows (mat_nrows m) index_sort →
     get_dimensionality ds_index (Some index_sort)
     = Ok (map (λ i, nth (Z.to_nat i) (row_sizes m) 0) index_sort)) ∧
  (¬ covers_rows (mat_nrows m) index_sort →
     ∃ msg, get_dimensionality ds_index (Some index_sort) = Raise (ValueError msg)).
Proof.
  intros m. unfold get_dimensionality. fold m. split.
  - intros [Hne Hcov].
    assert (contains_integers index_sort 0 = true) as ->.
    { apply contains_integers_true. split; [done|]. intros x Hx%Hcov. lia. }
    assert ((mat_nrows m <? length (Np.unique index_sort)) = false) as ->.
    { apply Nat.ltb_ge.
      transitivity (length (Z.of_nat <$> seq 0 (mat_nrows m)));
        [|by rewrite length_fmap, length_seq].
      apply submseteq_length, NoDup_submseteq; [apply unique_NoDup|].
      intros x Hx. apply elem_of_unique, Hcov in Hx.
      apply list_elem_of_fmap. exists (Z.to_nat x). rewrite elem_of_seq. lia. }
    rewrite bool_decide_eq_true_2.
    2:{ apply set_eq. intros x.
        by rewrite elem_of_arange_set, elem_of_list_to_set, Hcov. }
    simpl. rewrite (take_rows_in_range _ _ []).
    2:{ apply Forall_forall. intros i (x & -> & Hx%Hcov)%list_elem_of_fmap.
        unfold mat_nrows in Hx. lia. }
    simpl. f_equal. unfold row_sizes. rewrite !map_map. apply map_ext_in.
    intros x Hx. apply list_elem_of_In, Hcov in Hx.
    unfold fmap, list_fmap.
    change 0 with (length (Np.unique [])).
    by rewrite (map_nth (λ row, length (Np.unique row))).
  - intros Hnot.
    destruct (contains_integers index_sort 0) eqn:Hci; simpl; [|by eexists].
    destruct (mat_nrows m <? length (Np.unique index_sort)); simpl; [by eexists|].
    rewrite bool_decide_eq_false_2; simpl; [by eexists|].
    intros Heq. apply Hnot.
    apply contains_integers_true in Hci as [Hne _]. split; [done|].
    intros x. by rewrite <- elem_of_arange_set, Heq, elem_of_list_to_set.
Qed.

(** C4, counterexample: the order [0, 1, 1] repeats row 1, so it is not a
    permutation of the two row indices, yet it is accepted and three sizes
    are returned. *)
Lemma get_dimensionality_accepts_repeats :
  ¬ is_permutation_of_rows (mat_nrows (as_spectroscopic two_rows)) [0; 1; 1]%Z ∧
  get_dimensionality two_rows (Some [0; 1; 1]%Z) = Ok [2; 1; 1].
Proof.
  split; [|reflexivity].
  intros H%Permutation_length. discriminate H.
Qed.

(** ** Properties of [check_if_main] *)

Example check_if_main_standard : check_if_main (main_with [2; 1] [1; 3]) = Ok true.
Proof. reflexivity. Qed.

Example check_if_main_shape_mismatch : check_if_main (main_with [4; 1] [1; 3]) = Ok false.
Proof. reflexivity. Qed.

Example check_if_main_array : check_if_main (MainArray (zeros [2; 3])) = Ok false.
Proof. reflexivity. Qed.

Lemma bind_Ok {A B} (m : result A) (k : A → result B) (b : B) :
  m ≫= k = Ok b → ∃ a, m = Ok a ∧ k a = Ok b.
Proof. destruct m as [a|e]; simpl; [eauto|discriminate]. Qed.

Lemma bind_Ok_l {A B} (a : A) (k : A → result B) : Ok a ≫= k = k a.
Proof. reflexivity. Qed.

Lemma shape_at_Ok shape i n : shape_at shape i = Ok n → shape !! i = Some n.
Proof. unfold shape_at. destruct (shape !! i); congruence. Qed.

Lemma obj_shape_Ok o shape :
  obj_shape o = Ok shape → ∃ d, o = H5Dataset d ∧ dset_shape d = shape.
Proof. destruct o; simpl; [|discriminate]. intros [= <-]. eauto. Qed.

(** When the loop over the four names ends normally, every link resolved,
    and its flag is still set only if every linked object is a dataset. *)
Lemma check_links_Some {A} f (d : dataset A) success names success' :
  check_links f d success names = Some success' →
  Forall (λ name, ∃ o, linked f d name = Ok o ∧
                       (success' = true → is_h5_dataset o = true)) names ∧
  (success' = true → success = true).
Proof.
  revert success. induction names as [|name names IH]; intros success; simpl.
  - intros [= ->]. by split.
  - destruct (linked f d name) as [o|e] eqn:Ho; [|discriminate].
    intros [Hall Hs]%IH. split.
    + constructor; [|done]. exists o. split; [done|].
      intros Ht%Hs. by apply andb_prop in Ht as [_ ?].
    + intros Ht%Hs. by apply andb_prop in Ht as [? _].
Qed.

(** C7, as the code has it: [check_if_main] returns [True] only if the
    candidate is a 2-D HDF5 dataset with the attributes 'quantity' and
    'units' whose four ancillary links resolve to HDF5 datasets, the two
    position datasets having equal shapes with a first extent equal to the
    candidate's row count and the two spectroscopic datasets having equal
    shapes with a second extent equal to its column count.  The rank of the
    ancillary datasets is not tested. *)
Theorem check_if_main_true_only_if {A} (h5_main : main_arg A) :
  check_if_main h5_main = Ok true →
  ∃ f d nrows ncols pos_inds pos_vals spec_inds spec_vals,
    h5_main = MainDataset f d ∧
    dset_shape d = [nrows; ncols] ∧
    linked f d "Position_Indices" = Ok (H5Dataset pos_inds) ∧
    linked f d "Position_Values" = Ok (H5Dataset pos_vals) ∧
    linked f d "Spectroscopic_Indices" = Ok (H5Dataset spec_inds) ∧
    linked f d "Spectroscopic_Values" = Ok (H5Dataset spec_vals) ∧
    is_Some (dset_attrs d !! "quantity") ∧ is_Some (dset_attrs d !! "units") ∧
    dset_shape pos_vals = dset_shape pos_inds ∧
    dset_shape pos_inds !! 0 = Some nrows ∧
    dset_shape spec_vals = dset_shape spec_inds ∧
    dset_shape spec_inds !! 1 = Some ncols.
Proof.
  destruct h5_main as [f d|f name attrs|a|]; try discriminate.
  unfold check_if_main. cbv zeta.
  destruct (bool_decide (length (dset_shape d) = 2)) eqn:Hdim;
    cbn [andb negb]; [|discriminate].
  apply bool_decide_eq_true in Hdim.
  destruct (check_links f d true dset_names) as [success|] eqn:Hlinks; [|discriminate].
  cbn [forallb].
  destruct (attrs_contains (dset_attrs d) "quantity") eqn:Hq;
    cbn [andb negb]; [|discriminate].
  destruct (attrs_contains (dset_attrs d) "units") eqn:Hu;
    cbn [andb negb]; [|discriminate].
  apply bool_decide_eq_true in Hq, Hu.
  intros (o1 & Ho1 & H)%bind_Ok. apply bind_Ok in H as (o2 & Ho2 & H).
  apply bind_Ok in H as (s2 & (pv & -> & Hpv)%obj_shape_Ok & H).
  apply bind_Ok in H as (s1 & (pi & -> & Hpi)%obj_shape_Ok & H).
  apply bind_Ok in H as (nrows & Hrows%shape_at_Ok & H).
  apply bind_Ok in H as (r2 & Hr2%shape_at_Ok & H).
  apply bind_Ok in H as (r1 & Hr1%shape_at_Ok & H).
  cbn [forallb id] in H.
  destruct (bool_decide (s2 = s1)) eqn:Hs; cbn [andb negb] in H; [|discriminate].
  destruct (Nat.eqb_spec nrows r2) as [<-|]; cbn [andb negb] in H; [|discriminate].
  destruct (Nat.eqb_spec nrows r1) as [<-|]; cbn [andb negb] in H; [|discriminate].
  apply bool_decide_eq_true in Hs.
  apply bind_Ok in H as (o3 & Ho3 & H). apply bind_Ok in H as (o4 & Ho4 & H).
  apply bind_Ok in H as (s3 & (si & -> & Hsi)%obj_shape_Ok & H).
  apply bind_Ok in H as (s4 & (sv & -> & Hsv)%obj_shape_Ok & H).
  apply bind_Ok in H as (ncols & Hcols%shape_at_Ok & H).
  apply bind_Ok in H as (c3 & Hc3%shape_at_Ok & H).
  apply bind_Ok in H as (c4 & Hc4%shape_at_Ok & H).
  cbn [forallb id] in H.
  destruct (bool_decide (s3 = s4)) eqn:Hs'; cbn [andb negb] in H; [|discriminate].
  destruct (Nat.eqb_spec ncols c3) as [<-|]; cbn [andb negb] in H; [|discriminate].
  apply bool_decide_eq_true in Hs'.
  exists f, d, nrows, ncols, pi, pv, si, sv.
  revert Hdim Hrows Hcols.
  destruct (dset_shape d) as [|n0 [|n1 [|? ?]]]; intros Hdim Hrows Hcols;
    try discriminate Hdim.
  simpl in Hrows, Hcols. injection Hrows as ->. injection Hcols as ->.
  repeat split; try done; congruence.
Qed.

Lemma check_if_main_true_only_if_witness :
  ∃ f d nrows ncols pos_inds pos_vals spec_inds spec_vals,
    main_with [2; 1] [1; 3] = MainDataset f d ∧
    dset_shape d = [nrows; ncols] ∧
    linked f d "Position_Indices" = Ok (H5Dataset pos_inds) ∧
    linked f d "Position_Values" = Ok (H5Dataset pos_vals) ∧
    linked f d "Spectroscopic_Indices" = Ok (H5Dataset spec_inds) ∧
    linked f d "Spectroscopic_Values" = Ok (H5Dataset spec_vals) ∧
    is_Some (dset_attrs d !! "quantity") ∧ is_Some (dset_attrs d !! "units") ∧
    dset_shape pos_vals = dset_shape pos_inds ∧
    dset_shape pos_inds !! 0 = Some nrows ∧
    dset_shape spec_vals = dset_shape spec_inds ∧
    dset_shape spec_inds !! 1 = Some ncols.
Proof. apply (check_if_main_true_only_if (main_with [2; 1] [1; 3])). reflexivity. Defined.

(** C7, counterexample: a 2 x 3 dataset whose position ancillaries are
    one-dimensional arrays of length 2 is accepted as a main dataset. *)
Lemma check_if_main_accepts_1d_positions :
  check_if_main (main_with [2] [1; 3]) = Ok true ∧
  ∃ f d pos_inds,
    main_with [2] [1; 3] = MainDataset f d ∧
    linked f d "Position_Indices" = Ok (H5Dataset pos_inds) ∧
    length (dset_shape pos_inds) ≠ 2.
Proof.
  split; [reflexivity|]. do 3 eexists. split; [reflexivity|]. split; [reflexivity|].
  simpl. lia.
Qed.

(** C8, the code at a failing input: with one-dimensional spectroscopic
    ancillaries the test [anc_dset.shape[1]] raises [IndexError] instead of
    the predicate returning [False]. *)
Theorem check_if_main_raises_on_1d_spectroscopic :
  check_if_main (main_with [2; 1] [3])
  = Raise (IndexError "tuple index out of range").
Proof. reflexivity. Qed.

(** A link that resolves to a group clears the flag but the shape test that
    follows raises [AttributeError]. *)
Lemma check_if_main_raises_on_group_link :
  check_if_main main_with_group_link
  = Raise (AttributeError "'Group' object has no attribute 'shape'").
Proof. reflexivity. Qed.

(** ** Properties of the reshape functions *)

Example make_indices_matrix_2_3 :
  make_indices_matrix [2; 3] false
  = Ok (Matrix 6 [ [0;1;0;1;0;1]; [0;0;1;1;2;2] ]%Z).
Proof. reflexivity. Qed.

Example make_indices_matrix_2_3_pos :
  make_indices_matrix [2; 3] true
  = Ok (Matrix 2 [ [0;0]; [1;0]; [0;1]; [1;1]; [0;2]; [1;2] ]%Z).
Proof. reflexivity. Qed.

Example build_bias_cycle :
  fst (build_ind_val_matrices [ [10;20;30;40;50]; [7;8;9] ] true) = bias_cycle_inds.
Proof. reflexivity. Qed.

Example reshape_to_n_dims_4_15 :
  reshape_to_n_dims (MainArray main_4_15) (AncArray pos_4) (AncArray bias_cycle_inds)
    true false
  = Ok (NdArray [4; 5; 3]
          (nd_flat (NdArray [4; 5; 3]
             [0;5;10;1;6;11;2;7;12;3;8;13;4;9;14;
              15;20;25;16;21;26;17;22;27;18;23;28;19;24;29;
              30;35;40;31;36;41;32;37;42;33;38;43;34;39;44;
              45;50;55;46;51;56;47;52;57;48;53;58;49;54;59]%Z)),
        StatusTrue,
        Some ["Position Dimension 0"; "Spectral Dimension 0"; "Spectral Dimension 1"]).
Proof. vm_compute. reflexivity. Qed.

Example reshape_to_n_dims_4_15_sorted :
  (λ r, nd_shape r.1.1) <$> reshape_to_n_dims (MainArray main_4_15) (AncArray pos_4)
    (AncArray bias_cycle_inds) false true
  = Ok [4; 5; 3].
Proof. vm_compute. reflexivity. Qed.

Example reshape_from_n_dims_4_15 :
  (r ← reshape_to_n_dims (MainArray main_4_15) (AncArray pos_4) (AncArray bias_cycle_inds)
         false false;
   reshape_from_n_dims (DataArray r.1.1) (AncArray pos_4) (AncArray bias_cycle_inds))
  = Ok (main_4_15, true).
Proof. vm_compute. reflexivity. Qed.

(** C1, the code at a failing input: a main dataset with two positions and a
    single spectroscopic step is reshaped to N dimensions, but reshaping the
    result back with the same ancillary matrices raises [TypeError]: the
    spectroscopic sort order is the list [[]], to which line 848 adds an
    integer. *)
Theorem reshape_round_trip_fails_on_single_step :
  reshape_to_n_dims (MainArray main_2_1) (AncArray pos_2) (AncArray spec_1) false false
  = Ok (main_2_1, StatusTrue, None) ∧
  reshape_from_n_dims (DataArray main_2_1) (AncArray pos_2) (AncArray spec_1)
  = Raise (TypeError "can only concatenate list (not int) to list").
Proof. split; vm_compute; reflexivity. Qed.

(** The same round trip on a main dataset with a single position: the
    position sort order is the list [[]], the axes handed to [transpose] miss
    the position axis, and [transpose] raises [ValueError]. *)
Lemma reshape_round_trip_fails_on_single_position :
  reshape_to_n_dims (MainArray main_1_2) (AncArray pos_1) (AncArray spec_2) false false
  = Ok (main_1_2, StatusTrue, None) ∧
  reshape_from_n_dims (DataArray main_1_2) (AncArray pos_1) (AncArray spec_2)
  = Raise (ValueError "axes don't match array").
Proof. split; vm_compute; reflexivity. Qed.

(** The two degraded outcomes of [reshape_to_n_dims] when the labels are not
    asked for: once the arguments have been accepted and the dimensions
    sized, a main array that does not fit the full shape is reshaped by the
    position sizes alone, with status ['Positions'], and one that does not
    fit those either is returned as it is, with status [False]. *)
Lemma reshape_to_n_dims_degrades {A} (h5_main : main_arg A) h5_pos h5_spec sort_dims
    ds_pos pos_labs ds_spec spec_labs pos_dims spec_dims ds_main :
  check_reshape_args h5_main h5_pos h5_spec = Ok tt →
  position_indices h5_main h5_pos = Ok (ds_pos, pos_labs) →
  spectroscopic_indices h5_main h5_spec = Ok (ds_spec, spec_labs) →
  get_dimensionality (transpose ds_pos)
    (Some (Z.of_nat <$> get_sort_order (transpose ds_pos))) = Ok pos_dims →
  get_dimensionality ds_spec (Some (Z.of_nat <$> get_sort_order ds_spec)) = Ok spec_dims →
  main_data h5_main = Ok ds_main →
  Np.prod (reverse pos_dims ++ reverse spec_dims) ≠ nd_size ds_main →
  reshape_to_n_dims h5_main h5_pos h5_spec false sort_dims
  = if (Np.prod (reverse pos_dims) =? 0)
       || negb (nd_size ds_main mod Np.prod (reverse pos_dims) =? 0)
    then Ok (ds_main, StatusFalse, None)
    else Ok (NdArray (reverse pos_dims ++ [nd_size ds_main / Np.prod (reverse pos_dims)])
               (nd_flat ds_main), StatusPositions, None).
Proof.
  intros Hargs Hpos Hspec Hpd Hsd Hmain Hfit.
  unfold reshape_to_n_dims. rewrite Hargs, Hpos. simpl. rewrite Hspec. simpl.
  rewrite Hpd. simpl. rewrite Hsd. simpl. rewrite Hmain. simpl.
  unfold nd_reshape. apply Nat.eqb_neq in Hfit. rewrite Hfit.
  unfold nd_reshape_infer.
  by destruct ((Np.prod (reverse pos_dims) =? 0)
              || negb (nd_size ds_main mod Np.prod (reverse pos_dims) =? 0)).
Qed.

Example reshape_to_n_dims_no_fit :
  reshape_to_n_dims (MainArray main_3_1) (AncArray pos_irregular) (AncArray spec_1) true false
  = Ok (main_3_1, StatusFalse, Some ["Position"; "Spectral Step"]).
Proof. vm_compute. reflexivity. Qed.

Example reshape_to_n_dims_positions_only :
  reshape_to_n_dims (MainArray main_2_3) (AncArray pos_2) (AncArray spec_irregular) false false
  = Ok (main_2_3, StatusPositions, None).
Proof. vm_compute. reflexivity. Qed.

(** C3, the code at a failing input: the main array fits the position sizes
    only, and the labels are asked for.  The branch that returns status
    ['Positions'] builds its labels as [['Position'] + spec_labs], the sum of
    a list and a numpy array of strings, which raises [TypeError]. *)
Theorem reshape_to_n_dims_positions_labels_raise :
  reshape_to_n_dims (MainArray main_2_3) (AncArray pos_2) (AncArray spec_irregular) true false
  = Raise (TypeError "ufunc 'add' did not contain a loop with signature matching types").
Proof. vm_compute. reflexivity. Qed.

(** C10: an array of rank below 2 comes back as it is, with status [True],
    whenever at least one ancillary argument is given, whatever that argument
    is: nothing about the ancillaries is read. *)
Theorem reshape_from_n_dims_low_rank {A} (data_n_dim : ndarray A) (h5_pos h5_spec : anc_arg) :
  nd_ndim data_n_dim < 2 →
  ¬ (h5_pos = AncNone ∧ h5_spec = AncNone) →
  reshape_from_n_dims (DataArray data_n_dim) h5_pos h5_spec = Ok (data_n_dim, true).
Proof.
  intros Hrank Hanc. apply Nat.ltb_lt in Hrank. unfold reshape_from_n_dims.
  destruct h5_spec, h5_pos; try (by rewrite Hrank).
  by destruct Hanc.
Qed.

Lemma reshape_from_n_dims_low_rank_witness :
  reshape_from_n_dims (DataArray (NdArray [3] [1; 2; 3]%Z)) AncOther (AncArray pos_4)
  = Ok (NdArray [3] [1; 2; 3]%Z, true).
Proof.
  apply (reshape_from_n_dims_low_rank (NdArray [3] [1; 2; 3]%Z) AncOther (AncArray pos_4)).
  - unfold nd_ndim. simpl. lia.
  - intros [H _]. discriminate H.
Defined.

(** ** Properties of [get_unit_values]: irregular dimensions *)

Example get_unit_values_bias_cycle :
  get_unit_values (ArgArray bias_cycle_inds) (ArgArray bias_cycle_vals) NamesNone
    (Some ["Bias"; "Cycle"]) None
  = Ok (<["Cycle" := [7;8;9]%Z]> (<["Bias" := [10;20;30;40;50]%Z]> ∅)).
Proof. vm_compute. reflexivity. Qed.

Example get_unit_values_bias_only :
  get_unit_values (ArgArray (transpose bias_cycle_inds)) (ArgArray (transpose bias_cycle_vals))
    (NamesStr "Bias") (Some ["Bias"; "Cycle"]) None
  = Ok (<["Bias" := [10;20;30;40;50]%Z]> ∅).
Proof. vm_compute. reflexivity. Qed.

Example step_inds_of_row_irregular :
  step_inds_of_row [0;1;0;1;2;0;1;2;3;0]%Z = Raise (ValueError "Non constant step sizes").
Proof. vm_compute. reflexivity. Qed.

(** An oversampled dimension: every index is held for two steps. *)
Example step_inds_of_row_oversampled :
  step_inds_of_row [0;0;1;1;2;2;0;0;1;1;2;2]%Z = Ok [0; 2; 4].
Proof. vm_compute. reflexivity. Qed.

Example gap_sizes_irregular : gap_sizes [0;1;0;1;2;0;1;2;3;0]%Z = [2; 3; 4]%Z.
Proof. vm_compute. reflexivity. Qed.

Lemma length_where_from {A} (f : A → bool) (l : list A) (start : nat) :
  length (Np.where_from start (map f l)) = length (filter (λ x, f x = true) l).
Proof.
  revert start. induction l as [|x l IH]; intros start; simpl; [done|].
  rewrite filter_cons. destruct (decide (f x = true)) as [Hf|Hf].
  - rewrite Hf. simpl. by rewrite IH.
  - apply not_true_is_false in Hf. rewrite Hf. by rewrite IH.
Qed.

Lemma filter_insert_unique_1 (u : list Z) :
  filter (λ g, g ≠ 1%Z) (Np.insert_unique 1 u) = filter (λ g, g ≠ 1%Z) u.
Proof.
  induction u as [|y u IH]; [reflexivity|]. cbn [Np.insert_unique].
  destruct (Z.ltb_spec 1 y).
  { rewrite (filter_cons_False _ 1%Z); [done|]. intros H'. by apply H'. }
  destruct (Z.eqb_spec 1 y); [done|].
  rewrite !(filter_cons _ y). by rewrite IH.
Qed.

(** The test of line 1612 counts the gap sizes other than 1. *)
Lemma non_constant_test (gaps : list Z) :
  length (Np.where_ (map (λ x, negb (x - 1 =? 0)%Z) (Np.unique (1%Z :: gaps))))
  = length (filter (λ g, g ≠ 1%Z) (Np.unique gaps)).
Proof.
  unfold Np.where_. rewrite length_where_from.
  change (Np.unique (1%Z :: gaps)) with (Np.insert_unique 1 (Np.unique gaps)).
  rewrite <- filter_insert_unique_1. f_equal. apply list_filter_iff.
  intros x. rewrite negb_true_iff, Z.eqb_neq. lia.
Qed.

(** A row with two or more distinct gap sizes other than 1 is refused. *)
Lemma step_inds_of_row_non_constant (row : list Z) :
  1 < length (gap_sizes row) →
  step_inds_of_row row = Raise (ValueError "Non constant step sizes").
Proof.
  unfold gap_sizes, min_gaps, step_inds_of_row.
  destruct (Np.min row) as [lowest|e]; [|simpl; lia].
  intros H. rewrite bind_Ok_l, non_constant_test.
  apply Nat.ltb_lt in H. by rewrite H.
Qed.

Lemma where_from_first (names : list string) (name : string) (start i : nat) :
  NoDup names → names !! i = Some name →
  ∃ rest, Np.where_from start (map (λ n, bool_decide (n = name)) names)
          = (start + i) :: rest.
Proof.
  intros Hnd. revert i start.
  induction Hnd as [|n names Hn Hnd IH]; intros i start Hi; [done|].
  destruct i as [|i]; simpl in *.
  - injection Hi as ->. rewrite bool_decide_eq_true_2 by done.
    rewrite Nat.add_0_r. eauto.
  - rewrite bool_decide_eq_false_2.
    + destruct (IH i (S start) Hi) as [rest ->]. exists rest. f_equal. lia.
    + intros ->. apply Hn. by eapply list_elem_of_lookup_2.
Qed.

Lemma first_index_NoDup (names : list string) (i : nat) (name : string) :
  NoDup names → names !! i = Some name → first_index names name = Ok i.
Proof.
  intros Hnd Hi. unfold first_index, Np.where_.
  by destruct (where_from_first names name 0 i Hnd Hi) as [rest ->].
Qed.

Lemma unit_values_loop_raises {V} (inds_mat : matrix Z) (vals_mat : matrix V)
    names wanted todo acc i name row :
  NoDup names → names !! i = Some name →
  mat_rows inds_mat !! i = Some row →
  1 < length (gap_sizes row) →
  name ∈ todo →
  raises (unit_values_loop inds_mat vals_mat names wanted todo acc).
Proof.
  intros Hnd Hname Hrow Hgaps. revert acc.
  induction todo as [|n todo IH]; intros acc Hin; [by apply elem_of_nil in Hin|].
  simpl. destruct (decide (n = name)) as [->|Hne].
  - rewrite (first_index_NoDup names i name Hnd Hname). simpl.
    unfold mat_row. rewrite Hrow. simpl.
    by rewrite (step_inds_of_row_non_constant row Hgaps).
  - apply elem_of_cons in Hin as [->|Hin]; [done|].
    destruct (first_index names n) as [j|]; simpl; [|done].
    destruct (mat_row inds_mat j) as [r|]; simpl; [|done].
    destruct (step_inds_of_row r) as [si|]; simpl; [|done].
    destruct (bool_decide (n ∈ wanted)); simpl; [|by apply IH].
    destruct (mat_row vals_mat j) as [vr|]; simpl; [|done].
    destruct (take_rows vr si) as [vs|]; simpl; [|done].
    by apply IH.
Qed.

(** Once the arguments are accepted there is one name per row. *)
Lemma unit_values_setup_names {V} ds_inds (ds_vals : array_arg V) dim_names all_dim_names
    is_spec inds_mat vals_mat names wanted :
  unit_values_setup ds_inds ds_vals dim_names all_dim_names is_spec
  = Ok (inds_mat, vals_mat, names, wanted) →
  length names = mat_nrows inds_mat.
Proof.
  unfold unit_values_setup. intros H.
  repeat (apply bind_Ok in H as (? & ? & H)).
  injection H as <- _ <- _.
  match goal with
  | Hc : check (?a =? ?b) _ = Ok _ |- _ =>
      destruct (Nat.eqb_spec a b) as [Heq|]; [exact Heq|discriminate Hc]
  end.
Qed.

(** C6: when the gaps between consecutive positions of the minimum of a
    dimension row take more than two distinct values other than 1, the
    extraction raises an error and returns no unit values.  (The rows are
    those of the index matrix in the spectroscopic orientation, and the
    dimension names are distinct, so that every row is looked at.) *)
Theorem get_unit_values_irregular_raises {V} (ds_inds : array_arg Z) (ds_vals : array_arg V)
    dim_names all_dim_names is_spec inds_mat vals_mat names wanted i row :
  unit_values_setup ds_inds ds_vals dim_names all_dim_names is_spec
  = Ok (inds_mat, vals_mat, names, wanted) →
  NoDup names →
  mat_rows inds_mat !! i = Some row →
  2 < length (gap_sizes row) →
  raises (get_unit_values ds_inds ds_vals dim_names all_dim_names is_spec).
Proof.
  intros Hsetup Hnd Hrow Hgaps. unfold get_unit_values. rewrite Hsetup. simpl.
  apply unit_values_setup_names in Hsetup.
  destruct (lookup_lt_is_Some_2 names i) as [name Hname].
  { rewrite Hsetup. by eapply lookup_lt_Some. }
  eapply unit_values_loop_raises; eauto; [lia|].
  by eapply list_elem_of_lookup_2.
Qed.

Lemma get_unit_values_irregular_raises_witness :
  raises (get_unit_values (ArgArray irregular_inds) (ArgArray irregular_inds) NamesNone
            (Some ["Bias"]) (Some true)).
Proof.
  apply (get_unit_values_irregular_raises (ArgArray irregular_inds) (ArgArray irregular_inds)
           NamesNone (Some ["Bias"]) (Some true) irregular_inds irregular_inds
           ["Bias"] ["Bias"] 0 [0;1;0;1;2;0;1;2;3;0]%Z).
  - reflexivity.
  - apply NoDup_singleton.
  - reflexivity.
  - vm_compute. lia.
Defined.

(** ** Properties of [write_reduced_anc_dsets] *)

Example write_reduced_drop_bias :
  (λ r : group * dataset Z * dataset Z, (dset_data r.1.2, dset_data r.2)) <$>
  write_reduced_anc_dsets 0%Z (GroupArg results_group) (ArgDataset h5_bias_cycle_inds)
    (ArgDataset h5_bias_cycle_vals) (NamesStr "Bias") None None
  = Ok (NdArray [1; 3] [0; 1; 2]%Z, NdArray [1; 3] [7; 8; 9]%Z).
Proof. vm_compute. reflexivity. Qed.

Example write_reduced_drop_all :
  (λ r : group * dataset Z * dataset Z, (dset_data r.1.2, dset_data r.2)) <$>
  write_reduced_anc_dsets 0%Z (GroupArg results_group) (ArgDataset h5_bias_cycle_inds)
    (ArgDataset h5_bias_cycle_vals) (NamesList ["Cycle"; "Bias"]) None None
  = Ok (NdArray [1; 1] [0]%Z, NdArray [1; 1] [0]%Z).
Proof. vm_compute. reflexivity. Qed.

Example write_reduced_drop_none :
  write_reduced_anc_dsets 0%Z (GroupArg results_group) (ArgDataset h5_bias_cycle_inds)
    (ArgDataset h5_bias_cycle_vals) (NamesList []) None None
  = Raise (ValueError "need at least one array to concatenate").
Proof. vm_compute. reflexivity. Qed.

(** C9: when the dimensions to drop are all the dimensions of the pair (the
    names asked for and the labels of the indices dataset are the same set),
    the orientation is known (given, or the indices are not square) and the
    two names are free in the parent group, the function creates an indices
    and a values dataset that each hold the 1 x 1 matrix [[0]] and carry the
    label 'Single_Step', whatever the shape and content of the inputs. *)
Theorem write_reduced_anc_dsets_drop_all {V} (zero : V) (h5_parent_group : group)
    (h5_inds : dataset Z) (h5_vals : dataset V) (dim_name : names_arg)
    (basename : option string) (is_spec : option bool)
    (labels dropped : list string) (spec : bool) :
  dset_attrs h5_inds !! "labels" = Some (AttrStrs labels) →
  names_of dim_name = Ok dropped →
  (∀ name, name ∈ dropped ↔ name ∈ labels) →
  resolve_is_spec (dset_shape h5_inds) is_spec = Ok spec →
  anc_basename basename spec +:+ "_Indices" ∉ grp_keys h5_parent_group →
  anc_basename basename spec +:+ "_Values" ∉ grp_keys h5_parent_group →
  ∃ grp h5_inds_new h5_vals_new,
    write_reduced_anc_dsets zero (GroupArg h5_parent_group) (ArgDataset h5_inds)
      (ArgDataset h5_vals) dim_name basename is_spec
    = Ok (grp, h5_inds_new, h5_vals_new) ∧
    dset_data h5_inds_new = NdArray [1; 1] [0%Z] ∧
    dset_data h5_vals_new = NdArray [1; 1] [zero] ∧
    dset_attrs h5_inds_new !! "labels" = Some (AttrStrs ["Single_Step"]) ∧
    dset_attrs h5_vals_new !! "labels" = Some (AttrStrs ["Single_Step"]).
Proof.
  intros Hlabels Hnames Hall Hspec Hinds Hvals.
  unfold write_reduced_anc_dsets, get_attr.
  rewrite Hlabels, !bind_Ok_l. cbn [list_of_attr]. rewrite bind_Ok_l, Hnames, bind_Ok_l.
  assert (forallb (λ item, bool_decide (item ∈ labels)) dropped = true) as ->.
  { apply forallb_forall. intros x Hx%list_elem_of_In. apply bool_decide_eq_true, Hall, Hx. }
  cbn [check]. rewrite bind_Ok_l, Hspec, bind_Ok_l.
  cbn [forallb].
  rewrite (bool_decide_eq_false_2 _ Hinds), (bool_decide_eq_false_2 _ Hvals).
  cbn [negb andb check]. rewrite bind_Ok_l.
  rewrite bool_decide_eq_true_2.
  2:{ apply set_eq. intros x. by rewrite !elem_of_list_to_set. }
  cbn [negb]. rewrite bind_Ok_l. do 3 eexists. split; [reflexivity|].
  repeat split.
Qed.

Lemma write_reduced_anc_dsets_drop_all_witness :
  ∃ grp h5_inds_new h5_vals_new,
    write_reduced_anc_dsets 0%Z (GroupArg results_group) (ArgDataset h5_bias_cycle_inds)
      (ArgDataset h5_bias_cycle_vals) (NamesList ["Cycle"; "Bias"]) None None
    = Ok (grp, h5_inds_new, h5_vals_new) ∧
    dset_data h5_inds_new = NdArray [1; 1] [0%Z] ∧
    dset_data h5_vals_new = NdArray [1; 1] [0%Z] ∧
    dset_attrs h5_inds_new !! "labels" = Some (AttrStrs ["Single_Step"]) ∧
    dset_attrs h5_vals_new !! "labels" = Some (AttrStrs ["Single_Step"]).
Proof.
  apply (write_reduced_anc_dsets_drop_all 0%Z results_group h5_bias_cycle_inds
           h5_bias_cycle_vals (NamesList ["Cycle"; "Bias"]) None None
           ["Bias"; "Cycle"] ["Cycle"; "Bias"] true).
  - reflexivity.
  - reflexivity.
  - intros name. rewrite !elem_of_cons, !elem_of_nil. tauto.
  - reflexivity.
  - apply (not_elem_of_empty (C:=gset string)).
  - apply (not_elem_of_empty (C:=gset string)).
Defined.

(** ** Properties of [get_unit_values]: tiled dimensions *)

(** *** [np.where] on structured masks *)

Lemma where_from_app (start : nat) (l1 l2 : list bool) :
  Np.where_from start (l1 ++ l2)
  = Np.where_from start l1 ++ Np.where_from (start + length l1) l2.
Proof.
  revert start. induction l1 as [|b l1 IH]; intros start; simpl.
  - by rewrite Nat.add_0_r.
  - rewrite IH, <- Nat.add_succ_comm. by destruct b.
Qed.

Lemma where_from_all (start n : nat) :
  Np.where_from start (replicate n true) = seq start n.
Proof. revert start. induction n as [|n IH]; intros start; simpl; [done|]. by rewrite IH. Qed.

Lemma where_from_none (start n : nat) :
  Np.where_from start (replicate n false) = [].
Proof. revert start. induction n as [|n IH]; intros start; simpl; [done|]. by rewrite IH. Qed.

(** *** Rows made of runs *)

Lemma map_replicate {A B} (f : A → B) (n : nat) (x : A) :
  map f (replicate n x) = replicate n (f x).
Proof. induction n as [|n IH]; simpl; [done|]. by rewrite IH. Qed.

Lemma tile_S {A} (l : list A) (reps : nat) : tile l (S reps) = l ++ tile l reps.
Proof. reflexivity. Qed.

Lemma map_tile {A B} (f : A → B) (l : list A) (reps : nat) :
  map f (tile l reps) = tile (map f l) reps.
Proof.
  induction reps as [|reps IH]; [done|]. by rewrite !tile_S, map_app, IH.
Qed.

Lemma length_tile {A} (l : list A) (reps : nat) : length (tile l reps) = reps * length l.
Proof.
  induction reps as [|reps IH]; [done|]. rewrite tile_S, length_app, IH. lia.
Qed.

Lemma length_repeat_each {A} (l : list A) (reps : nat) :
  length (repeat_each l reps) = length l * reps.
Proof.
  unfold repeat_each. induction l as [|x l IH]; [done|].
  cbn [mbind list_bind]. rewrite length_app, length_replicate, IH. simpl. lia.
Qed.

Lemma repeat_each_seq (s a n : nat) : repeat_each (Z.of_nat <$> seq a n) s = runs s a n.
Proof.
  unfold repeat_each. revert a. induction n as [|n IH]; intros a; [done|].
  cbn [seq fmap list_fmap mbind list_bind runs]. f_equal. apply IH.
Qed.

Lemma length_runs (s a n : nat) : length (runs s a n) = s * n.
Proof. revert a. induction n as [|n IH]; intros a; simpl; [lia|]. rewrite length_app, length_replicate, IH. lia. Qed.

Lemma runs_nonneg (s a n : nat) : Forall (λ x, (0 ≤ x)%Z) (runs s a n).
Proof.
  revert a. induction n as [|n IH]; intros a; simpl; [constructor|].
  apply Forall_app. split; [|apply IH].
  apply Forall_forall. intros x [-> _]%elem_of_replicate. lia.
Qed.

Lemma runs_zero_mask_tail (s a n : nat) :
  0 < a → map (λ x, (x =? 0)%Z) (runs s a n) = replicate (s * n) false.
Proof.
  revert a. induction n as [|n IH]; intros a Ha; simpl.
  - by rewrite Nat.mul_0_r.
  - rewrite map_app, IH by lia.
    replace (s * S n) with (s + s * n) by lia. rewrite replicate_add. f_equal.
    rewrite map_replicate. f_equal. apply Z.eqb_neq. lia.
Qed.

Lemma runs_zero_mask (s n : nat) :
  map (λ x, (x =? 0)%Z) (runs s 0 (S n))
  = replicate s true ++ replicate (s * n) false.
Proof.
  simpl. rewrite map_app, runs_zero_mask_tail by lia. f_equal.
  by rewrite map_replicate.
Qed.

Lemma foldr_min_nonneg (l : list Z) :
  Forall (λ x, (0 ≤ x)%Z) l → foldr Z.min 0%Z l = 0%Z.
Proof. induction 1 as [|x l Hx _ IH]; simpl; [done|]. rewrite IH. lia. Qed.

Lemma tile_Forall {A} (P : A → Prop) (l : list A) (reps : nat) :
  Forall P l → Forall P (tile l reps).
Proof.
  intros Hl. induction reps as [|reps IH]; [constructor|].
  rewrite tile_S. by apply Forall_app.
Qed.

(** The minimum of a tiled index row is 0. *)
Lemma min_tiled (s n reps : nat) :
  0 < s → Np.min (tile (runs s 0 (S n)) (S reps)) = Ok 0%Z.
Proof.
  intros Hs. rewrite tile_S. destruct s as [|s]; [lia|].
  change (runs (S s) 0 (S n)) with
    (0%Z :: (replicate s 0%Z ++ runs (S s) 1 n)).
  simpl. f_equal. apply foldr_min_nonneg.
  apply Forall_app. split.
  - apply Forall_app. split; [|apply runs_nonneg].
    apply Forall_forall. intros x [-> _]%elem_of_replicate. lia.
  - apply tile_Forall.
    change (Forall (λ x, (0 ≤ x)%Z) (runs (S s) 0 (S n))). apply runs_nonneg.
Qed.

Lemma diff_from_cons (p x : Z) (l : list Z) :
  diff_from p (x :: l) = (x - p)%Z :: diff_from x l.
Proof. reflexivity. Qed.

Lemma last_cons_default {A} (x d : A) (l : list A) : List.last (x :: l) d = List.last l x.
Proof.
  revert x d. induction l as [|y l IH]; intros x d; [done|].
  change (List.last (x :: y :: l) d) with (List.last (y :: l) d). by rewrite !IH.
Qed.

Lemma diff_from_app (p : Z) (l1 l2 : list Z) :
  diff_from p (l1 ++ l2) = diff_from p l1 ++ diff_from (List.last l1 p) l2.
Proof.
  revert p. induction l1 as [|x l1 IH]; intros p; [done|].
  rewrite <- app_comm_cons, !diff_from_cons, IH, last_cons_default. done.
Qed.

Lemma diff_from_seq (p : Z) (o m : nat) :
  diff_from p (Z.of_nat <$> seq o (S m)) = (Z.of_nat o - p)%Z :: replicate m 1%Z.
Proof.
  revert p o. induction m as [|m IH]; intros p o; [done|].
  change (Z.of_nat <$> seq o (S (S m))) with (Z.of_nat o :: (Z.of_nat <$> seq (S o) (S m))).
  rewrite diff_from_cons, IH. simpl replicate. do 2 f_equal. lia.
Qed.

Lemma last_seq (p : Z) (o m : nat) :
  List.last (Z.of_nat <$> seq o (S m)) p = Z.of_nat (o + m).
Proof.
  revert p o. induction m as [|m IH]; intros p o.
  - simpl. f_equal. lia.
  - change (Z.of_nat <$> seq o (S (S m))) with (Z.of_nat o :: (Z.of_nat <$> seq (S o) (S m))).
    rewrite last_cons_default, IH. f_equal. lia.
Qed.

Section tiled_row.
Variables (s n : nat).
Hypothesis Hs : 0 < s.

Lemma length_one_tile : length (one_tile s n) = s * S n.
Proof. apply length_runs. Qed.

Lemma starts_tiled (o reps : nat) :
  Np.where_from o (map (λ x, (x =? 0)%Z) (tile (one_tile s n) reps)) = starts_from s n o reps.
Proof.
  revert o. induction reps as [|reps IH]; intros o; [done|].
  rewrite tile_S, map_app, where_from_app, length_map, length_one_tile, IH.
  unfold one_tile. rewrite runs_zero_mask, where_from_app, where_from_all, where_from_none.
  simpl. by rewrite app_nil_r.
Qed.

Lemma gaps_tiled (p : Z) (o reps : nat) :
  diff_from p (Z.of_nat <$> starts_from s n o reps) = gaps_from s n (Z.of_nat o - p) reps.
Proof.
  revert p o. induction reps as [|reps IH]; intros p o; [done|].
  cbn [starts_from gaps_from]. rewrite fmap_app, diff_from_app.
  replace (seq o s) with (seq o (S (s - 1))) by (f_equal; lia).
  rewrite diff_from_seq, last_seq, IH. do 2 f_equal. unfold jump. lia.
Qed.

(** The step sizes of line 1605. *)
Lemma step_sizes_tiled (reps : nat) :
  1%Z :: Np.diff (Z.of_nat <$> starts_from s n 0 (S reps)) = gaps_from s n 1 (S reps).
Proof.
  transitivity (gaps_from s n (Z.of_nat 0 - -1) (S reps)); [|done].
  rewrite <- gaps_tiled. cbn [starts_from]. replace (seq 0 s) with (0 :: seq 1 (s - 1)); [done|].
  replace s with (S (s - 1)) at 2 by lia. done.
Qed.

Lemma gaps_from_values (g : Z) (reps : nat) :
  Forall (λ x, x = 1%Z ∨ x = (jump s n) ∨ x = g) (gaps_from s n g reps).
Proof.
  revert g. induction reps as [|reps IH]; intros g; [constructor|].
  cbn [gaps_from]. apply Forall_app. split.
  - constructor; [tauto|]. apply Forall_forall.
    intros x [-> _]%elem_of_replicate. tauto.
  - eapply Forall_impl; [apply IH|]. simpl. tauto.
Qed.
(** The test of line 1612 lets a tiled row through: its step sizes are 1 and
    the (jump s n) to the next tile. *)
Lemma few_gap_sizes (j : Z) (gaps : list Z) :
  Forall (λ x, x = 1%Z ∨ x = j) gaps →
  length (filter (λ g, g ≠ 1%Z) (Np.unique gaps)) ≤ 1.
Proof.
  intros Hgaps.
  assert (NoDup (filter (λ g, g ≠ 1%Z) (Np.unique gaps))) as Hnd
    by apply NoDup_filter, unique_NoDup.
  assert (∀ x, x ∈ filter (λ g, g ≠ 1%Z) (Np.unique gaps) → x = j) as Hj.
  { intros x [Hne Hx]%list_elem_of_filter.
    apply (proj1 (elem_of_unique x gaps)) in Hx.
    rewrite Forall_forall in Hgaps. destruct (Hgaps x Hx); [done|done]. }
  destruct (filter (λ g, g ≠ 1%Z) (Np.unique gaps)) as [|a [|b u]]; simpl; [lia..|].
  exfalso. apply NoDup_cons in Hnd as [Hab _]. apply Hab.
  rewrite (Hj a), (Hj b); [left|right; left|left].
Qed.

Lemma non_constant_tiled (reps : nat) :
  negb (1 <? length (Np.where_
          (map (λ x, negb (x - 1 =? 0)%Z) (Np.unique (gaps_from s n 1 (S reps))))))
  = true.
Proof.
  cbn [gaps_from app]. rewrite non_constant_test.
  apply negb_true_iff, Nat.ltb_ge, (few_gap_sizes (jump s n)).
  apply Forall_app. split.
  - apply Forall_forall. intros x [-> _]%elem_of_replicate. tauto.
  - eapply Forall_impl; [apply gaps_from_values|]. simpl. tauto.
Qed.

Lemma map_seq_shift {A} (f : nat → A) (a len : nat) :
  map f (seq (S a) len) = map (λ q, f (S q)) (seq a len).
Proof. by rewrite <- seq_shift, map_map. Qed.

(** Line 1616: the steps larger than 1 sit where the later tiles begin. *)
Lemma tile_starts_tiled (o : nat) (g : Z) (reps : nat) :
  0 < n →
  Np.where_from o (map (λ x, (1 <? x)%Z) (gaps_from s n g (S reps)))
  = (if (1 <? g)%Z then [o] else []) ++ map (λ q, o + q * s) (seq 1 reps).
Proof.
  intros Hn. revert o g. induction reps as [|reps IH]; intros o g.
  - cbn [gaps_from]. rewrite app_nil_r. cbn [map]. rewrite map_replicate.
    change (1 <? 1)%Z with false. cbn [Np.where_from].
    rewrite where_from_none. by destruct (1 <? g)%Z.
  - change (gaps_from s n g (S (S reps)))
      with ((g :: replicate (s - 1) 1%Z) ++ gaps_from s n (jump s n) (S reps)).
    rewrite map_app, where_from_app, IH, length_map.
    cbn [map length]. rewrite map_replicate, length_replicate.
    change (1 <? 1)%Z with false.
    assert ((1 <? (jump s n))%Z = true) as -> by (apply Z.ltb_lt; unfold jump; nia).
    replace (o + S (s - 1)) with (o + 1 * s) by lia.
    cbn [Np.where_from]. rewrite where_from_none.
    cbn [seq map]. rewrite !map_seq_shift.
    f_equal. cbn [app]. f_equal. apply map_ext. intros q. lia.
Qed.

Lemma lookup_starts_from (o reps q : nat) :
  q < reps → starts_from s n o reps !! (q * s) = Some (o + q * (s * S n)).
Proof.
  revert o q. induction reps as [|reps IH]; intros o q Hq; [lia|].
  cbn [starts_from]. destruct q as [|q].
  - rewrite lookup_app_l by (rewrite length_seq; lia).
    rewrite lookup_seq_lt by lia. f_equal; lia.
  - rewrite lookup_app_r by (rewrite length_seq; lia).
    rewrite length_seq. replace (S q * s - s) with (q * s) by lia.
    rewrite IH by lia. f_equal; lia.
Qed.

Lemma take_rows_map {A B} (rows : list A) (f : B → nat) (g : B → A) (l : list B) :
  (∀ x, x ∈ l → rows !! f x = Some (g x)) →
  take_rows rows (map f l) = Ok (map g l).
Proof.
  induction l as [|x l IH]; intros H; [done|].
  cbn [map take_rows]. rewrite (H x) by left.
  rewrite IH; [done|]. intros y Hy. apply H. by right.
Qed.

(** Line 1625: the positions at which the later tiles begin. *)
Lemma picked_tiled (reps : nat) :
  take_rows (starts_from s n 0 (S reps)) (map (λ q, 0 + q * s) (seq 1 reps))
  = Ok (map (λ q, q * (s * S n)) (seq 1 reps)).
Proof.
  apply take_rows_map. intros q [_ Hq]%elem_of_seq.
  cbn [Nat.add]. rewrite lookup_starts_from by lia. done.
Qed.
(** *** The tiles of a tiled row are identical *)

Lemma drop_tile {A} (l : list A) (q reps : nat) :
  drop (q * length l) (tile l (q + reps)) = tile l reps.
Proof.
  induction q as [|q IH]; [done|].
  cbn [Nat.add]. rewrite tile_S. replace (S q * length l) with (length l + q * length l) by lia.
  rewrite <- drop_drop, drop_app_length. apply IH.
Qed.

Lemma slice_tile {A} (l : list A) (q reps : nat) :
  q < reps → Np.slice (tile l reps) (q * length l) (S q * length l) = l.
Proof.
  intros Hq. unfold Np.slice. replace reps with (q + S (reps - S q)) by lia.
  rewrite drop_tile, tile_S.
  replace (S q * length l - q * length l) with (length l) by lia.
  apply take_app_length.
Qed.

Lemma nth_multiples (T q m : nat) :
  q < m → nth q (map (λ q, q * T) (seq 0 m)) 0 = q * T.
Proof.
  intros Hq. change 0 with ((λ q, q * T) 0) at 2.
  by rewrite map_nth, seq_nth.
Qed.

Lemma max_zeros (l : list Z) :
  l ≠ [] → Forall (λ x, x = 0%Z) l → Np.max l = Ok 0%Z.
Proof.
  destruct l as [|x l]; [done|]. intros _ [-> Hl]%Forall_cons. simpl. f_equal.
  induction Hl as [|y l -> _ IH]; simpl; [done|]. by rewrite IH.
Qed.

Lemma zip_with_self_zero (l : list Z) :
  Forall (λ x, x = 0%Z) (zip_with (λ a b, Np.sub_uint32 b a) l l).
Proof.
  induction l as [|x l IH]; simpl; constructor; [|done].
  unfold Np.sub_uint32. by rewrite Z.sub_diag.
Qed.

Lemma zip_with_copies (l : list Z) (k1 k2 : list (list Z)) :
  Forall (λ t, t = l) k1 → Forall (λ t, t = l) k2 →
  Forall (Forall (λ x, x = 0%Z)) (zip_with (zip_with (λ a b, Np.sub_uint32 b a)) k1 k2).
Proof.
  intros H1. revert k2. induction H1 as [|t k1 -> _ IH]; intros k2 H2; [constructor|].
  destruct H2 as [|t' k2 -> H2]; simpl; constructor;
    [apply zip_with_self_zero|by apply IH].
Qed.

Lemma copies_Forall {A} (l : A) (a len : nat) :
  Forall (λ t, t = l) (map (λ _, l) (seq a len)).
Proof. apply Forall_forall. by intros t (? & <- & _)%list_elem_of_In%in_map_iff. Qed.

(** Lines 1630-1633 on [reps + 2] copies of one non-empty tile. *)
Lemma tiles_differ_copies (l : list Z) (reps : nat) :
  l ≠ [] → tiles_differ (map (λ _, l) (seq 0 (S (S reps)))) = Ok false.
Proof.
  intros Hl. cbn [seq map]. unfold tiles_differ.
  assert (forallb (λ t : list Z, length t =? length l)
            (l :: map (λ _, l) (seq 2 reps)) = true) as ->.
  { apply forallb_forall. intros t [<-|(? & <- & _)%in_map_iff]; apply Nat.eqb_refl. }
  cbn [check]. rewrite bind_Ok_l, max_zeros; [done| |].
  - cbn [zip_with concat]. by destruct l.
  - apply Forall_concat, (zip_with_copies l).
    + do 2 (constructor; [done|]). apply copies_Forall.
    + constructor; [done|]. apply copies_Forall.
Qed.
(** *** Within the first tile *)

Lemma diff32_from_cons (p x : Z) (l : list Z) :
  diff32_from p (x :: l) = Np.sub_uint32 x p :: diff32_from x l.
Proof. reflexivity. Qed.

Lemma diff32_from_app (p : Z) (l1 l2 : list Z) :
  diff32_from p (l1 ++ l2) = diff32_from p l1 ++ diff32_from (List.last l1 p) l2.
Proof.
  revert p. induction l1 as [|x l1 IH]; intros p; [done|].
  rewrite <- app_comm_cons, !diff32_from_cons, IH, last_cons_default. done.
Qed.

Lemma diff32_from_replicate (p x : Z) (m : nat) :
  diff32_from p (replicate (S m) x) = Np.sub_uint32 x p :: replicate m 0%Z.
Proof.
  cbn [replicate]. rewrite diff32_from_cons. f_equal.
  induction m as [|m IH]; [done|].
  cbn [replicate]. rewrite diff32_from_cons, IH. f_equal.
  unfold Np.sub_uint32. by rewrite Z.sub_diag.
Qed.

Lemma last_replicate {A} (x d : A) (m : nat) : List.last (replicate (S m) x) d = x.
Proof.
  revert d. induction m as [|m IH]; intros d; [done|].
  change (replicate (S (S m)) x) with (x :: replicate (S m) x).
  by rewrite last_cons_default, IH.
Qed.

(** Inside a tile the index changes exactly where a run begins. *)
Lemma change_points (o a m : nat) :
  Np.where_from o (map (λ x, negb (x =? 0)%Z) (diff32_from (Z.of_nat a - 1) (runs s a m)))
  = map (λ j, o + j * s) (seq 0 m).
Proof.
  revert o a. induction m as [|m IH]; intros o a; [done|].
  cbn [runs]. replace s with (S (s - 1)) at 1 by lia.
  rewrite diff32_from_app, diff32_from_replicate, last_replicate.
  replace (Z.of_nat a) with (Z.of_nat (S a) - 1)%Z at 3 by lia.
  rewrite map_app, where_from_app, IH, length_map.
  cbn [map length]. rewrite map_replicate, length_replicate.
  assert (Np.sub_uint32 (Z.of_nat a) (Z.of_nat a - 1) = 1%Z) as ->.
  { unfold Np.sub_uint32. by replace (Z.of_nat a - (Z.of_nat a - 1))%Z with 1%Z by lia. }
  change (negb (1 =? 0)%Z) with true. change (negb (0 =? 0)%Z) with false.
  cbn [Np.where_from]. rewrite where_from_none. cbn [app seq map].
  rewrite map_seq_shift. f_equal; [lia|]. apply map_ext. intros j. lia.
Qed.

(** Line 1638 on one tile. *)
Lemma step_inds_one_tile :
  0 :: Np.where_ (map (λ x, negb (x =? 0)%Z) (0%Z :: Np.diff_uint32 (one_tile s n)))
  = map (λ j, j * s) (seq 0 (S n)).
Proof.
  assert (0%Z :: Np.diff_uint32 (one_tile s n) = diff32_from 0 (one_tile s n)) as ->.
  { unfold one_tile. cbn [runs]. replace s with (S (s - 1)) at 1 3 by lia. done. }
  unfold one_tile, Np.where_. cbn [runs].
  replace s with (S (s - 1)) at 1 by lia.
  rewrite diff32_from_app, diff32_from_replicate, last_replicate.
  rewrite map_app, where_from_app, length_map.
  cbn [map length]. rewrite map_replicate, length_replicate.
  change (negb (Np.sub_uint32 (Z.of_nat 0) 0 =? 0)%Z) with false.
  change (negb (0 =? 0)%Z) with false.
  cbn [Np.where_from]. rewrite where_from_none.
  change (Z.of_nat 0) with (Z.of_nat 1 - 1)%Z. rewrite change_points.
  cbn [app seq map]. rewrite map_seq_shift. f_equal. apply map_ext. intros j. lia.
Qed.

(** *** The loop body on a tiled row *)

Lemma tile_starts_list (reps : nat) :
  0 :: (map (λ q, q * (s * S n)) (seq 1 reps) ++ [length (tile (one_tile s n) (S reps))])
  = map (λ q, q * (s * S n)) (seq 0 (S (S reps))).
Proof.
  rewrite length_tile, length_one_tile.
  rewrite (seq_S (S reps)), map_app. done.
Qed.

Lemma subsections_tiled (reps : nat) :
  let tile_starts := map (λ q, q * (s * S n)) (seq 0 (S (S reps))) in
  map (λ ind, Np.slice (tile (one_tile s n) (S reps)) (nth ind tile_starts 0)
                (nth (S ind) tile_starts 0))
      (seq 0 (length tile_starts - 1))
  = map (λ _, (one_tile s n)) (seq 0 (S reps)).
Proof.
  intros tile_starts. unfold tile_starts. rewrite length_map, length_seq.
  replace (S (S reps) - 1) with (S reps) by lia.
  apply map_ext_in. intros ind [_ Hind]%in_seq.
  rewrite !nth_multiples by lia. rewrite <- length_one_tile.
  apply slice_tile. lia.
Qed.

(** Lines 1600-1638 on a row of [reps + 1] tiles: the step indices are the
    positions at which the runs of the first tile begin. *)
Lemma step_inds_of_tiled_row (reps : nat) :
  0 < n →
  step_inds_of_row (tile (one_tile s n) (S reps)) = Ok (map (λ j, j * s) (seq 0 (S n))).
Proof.
  intros Hn. unfold step_inds_of_row.
  rewrite (min_tiled s n reps Hs : Np.min (tile (one_tile s n) (S reps)) = Ok 0%Z), bind_Ok_l.
  rewrite (starts_tiled 0 (S reps) : Np.where_ _ = _).
  rewrite step_sizes_tiled, non_constant_tiled.
  cbn [check]. rewrite bind_Ok_l.
  rewrite (tile_starts_tiled 0 1 reps Hn : Np.where_ _ = _).
  change (1 <? 1)%Z with false. cbn [app].
  destruct reps as [|reps].
  - cbn [seq map length Nat.ltb Nat.leb]. rewrite bind_Ok_l. cbn [nth].
    unfold Np.slice. rewrite drop_0, Nat.sub_0_r, firstn_all.
    unfold tile. cbn [replicate concat]. rewrite app_nil_r.
    exact (f_equal Ok step_inds_one_tile).
  - rewrite length_map, length_seq. cbn [Nat.ltb Nat.leb].
    rewrite picked_tiled, bind_Ok_l, tile_starts_list, subsections_tiled.
    rewrite tiles_differ_copies.
    2:{ unfold one_tile. cbn [runs]. replace s with (S (s - 1)) at 1 by lia. done. }
    rewrite bind_Ok_l. cbn [negb check]. rewrite !bind_Ok_l.
    rewrite !nth_multiples by lia. rewrite <- length_one_tile.
    rewrite (slice_tile (one_tile s n) 0 (S (S reps))) by lia.
    by rewrite step_inds_one_tile.
Qed.
End tiled_row.

(** *** The values row *)

Lemma take_rows_Forall2 {A} (rows : list A) (idx : list nat) (out : list A) :
  Forall2 (λ i x, rows !! i = Some x) idx out → take_rows rows idx = Ok out.
Proof.
  induction 1 as [|i x idx out Hi _ IH]; [done|].
  cbn [take_rows]. by rewrite Hi, IH.
Qed.

Lemma lookup_tile {A} (l : list A) (reps i : nat) :
  i < length l → tile l (S reps) !! i = l !! i.
Proof. intros Hi. rewrite tile_S. by apply lookup_app_l. Qed.

Lemma lookup_repeat_each {A} (vec : list A) (s j : nat) :
  0 < s → repeat_each vec s !! (j * s) = vec !! j.
Proof.
  intros Hs. unfold repeat_each. revert j.
  induction vec as [|x vec IH]; intros j; [done|].
  cbn [mbind list_bind]. destruct j as [|j].
  - rewrite lookup_app_l by (rewrite length_replicate; lia).
    by apply lookup_replicate_2.
  - rewrite lookup_app_r by (rewrite length_replicate; lia).
    rewrite length_replicate. replace (S j * s - s) with (j * s) by lia. apply IH.
Qed.

(** Line 1642 on the values row of a tiled dimension. *)
Lemma values_of_tiled_row {V} (vec : list V) (s reps : nat) :
  0 < s →
  take_rows (tile (repeat_each vec s) (S reps)) (map (λ j, j * s) (seq 0 (length vec)))
  = Ok vec.
Proof.
  intros Hs. apply take_rows_Forall2.
  change (map (λ j, j * s) (seq 0 (length vec))) with ((λ j, j * s) <$> seq 0 (length vec)).
  apply Forall2_same_length_lookup_2.
  { by rewrite length_fmap, length_seq. }
  intros k i x Hi Hx. rewrite list_lookup_fmap in Hi.
  destruct (seq 0 (length vec) !! k) as [k'|] eqn:Hk; [|done].
  apply lookup_seq in Hk as [-> Hk]. injection Hi as <-.
  rewrite lookup_tile by (rewrite length_repeat_each; nia).
  by rewrite lookup_repeat_each.
Qed.

(** *** The loop over all dimensions *)

Lemma unit_values_loop_all {V} (inds_mat : matrix Z) (vals_mat : matrix V)
    (names : list string) (vecs : list (list V)) :
  NoDup names → length names = length vecs →
  (∀ i name vec, names !! i = Some name → vecs !! i = Some vec →
     ∃ row vrow step_inds,
       mat_rows inds_mat !! i = Some row ∧ step_inds_of_row row = Ok step_inds ∧
       mat_rows vals_mat !! i = Some vrow ∧ take_rows vrow step_inds = Ok vec) →
  ∀ todo j acc, todo = length names - j →
    unit_values_loop inds_mat vals_mat names names (drop j names) acc
    = Ok (foldl (λ m p, <[p.1 := p.2]> m) acc (zip (drop j names) (drop j vecs))).
Proof.
  intros Hnd Hlen Hrows todo. induction todo as [|todo IH]; intros j acc Htodo.
  - by rewrite drop_ge by lia.
  - destruct (lookup_lt_is_Some_2 names j) as [name Hname]; [lia|].
    destruct (lookup_lt_is_Some_2 vecs j) as [vec Hvec]; [lia|].
    rewrite (drop_S names name j Hname), (drop_S vecs vec j Hvec).
    destruct (Hrows j name vec Hname Hvec) as (row & vrow & si & Hrow & Hsi & Hvrow & Hvals).
    cbn [unit_values_loop zip zip_with foldl].
    rewrite (first_index_NoDup names j name Hnd Hname), bind_Ok_l.
    unfold mat_row. rewrite Hrow, bind_Ok_l, Hsi, bind_Ok_l.
    rewrite bool_decide_eq_true_2 by (by eapply list_elem_of_lookup_2).
    rewrite Hvrow, bind_Ok_l, Hvals, !bind_Ok_l.
    apply IH. lia.
Qed.

Lemma foldl_insert_list_to_map {V} (l : list (string * V)) (acc : gmap string V) :
  NoDup l.*1 → (∀ k, k ∈ l.*1 → acc !! k = None) →
  foldl (λ m p, <[p.1 := p.2]> m) acc l = list_to_map l ∪ acc.
Proof.
  revert acc. induction l as [|[k v] l IH]; intros acc Hnd Hacc.
  - simpl. by rewrite (left_id_L ∅ (∪)).
  - cbn [foldl fst snd]. cbn [fmap list_fmap fst] in Hnd, Hacc.
    apply NoDup_cons in Hnd as [Hk Hnd].
    rewrite IH; [|done|].
    + rewrite list_to_map_cons, <- insert_union_l.
      symmetry. apply insert_union_r. by apply not_elem_of_list_to_map_1.
    + intros k' Hk'. rewrite lookup_insert_ne; [apply Hacc; by right|].
      intros ->. done.
Qed.

(** *** Sizes of the built matrices *)

Lemma prod_app (l1 l2 : list nat) : Np.prod (l1 ++ l2) = Np.prod l1 * Np.prod l2.
Proof.
  unfold Np.prod. induction l1 as [|x l1 IH]; simpl; [lia|]. rewrite IH. lia.
Qed.

Lemma prod_pos (l : list nat) : Forall (λ x, 0 < x) l → 0 < Np.prod l.
Proof.
  unfold Np.prod. induction 1 as [|x l Hx _ IH]; simpl; [lia|]. nia.
Qed.

Lemma prod_above_length (l : list nat) : Forall (λ x, 2 ≤ x) l → length l < Np.prod l.
Proof.
  unfold Np.prod. induction 1 as [|x l Hx _ IH]; simpl; [lia|]. nia.
Qed.

Lemma prod_take_drop (l : list nat) (i x : nat) :
  l !! i = Some x → Np.prod (drop (S i) l) * (x * Np.prod (take i l)) = Np.prod l.
Proof.
  intros Hi. rewrite <- (take_drop_middle l i x Hi) at 3.
  rewrite prod_app. unfold Np.prod at 4. simpl. fold (Np.prod (drop (S i) l)). lia.
Qed.

Lemma length_tile_row {A} (lengths : list nat) (i : nat) (vec : list A) :
  lengths !! i = Some (length vec) →
  length (tile_row lengths i vec) = Np.prod lengths.
Proof.
  intros Hi. unfold tile_row. rewrite length_tile, length_repeat_each.
  by apply prod_take_drop.
Qed.

Lemma length_arange (n : nat) : length (arange n) = n.
Proof. unfold arange. by rewrite length_fmap, length_seq. Qed.

(** *** One dimension of a built pair *)

Lemma tile_row_step_inds (lengths : list nat) (i len : nat) :
  Forall (λ x, 0 < x) lengths → 2 ≤ len →
  step_inds_of_row (tile_row lengths i (arange len))
  = Ok (map (λ j, j * Np.prod (take i lengths)) (seq 0 len)).
Proof.
  intros Hpos Hlen. unfold tile_row, arange. rewrite repeat_each_seq.
  assert (0 < Np.prod (take i lengths)) as Hs by apply prod_pos, Forall_take, Hpos.
  assert (0 < Np.prod (drop (S i) lengths)) as Ht by apply prod_pos, Forall_drop, Hpos.
  destruct (Np.prod (drop (S i) lengths)) as [|reps]; [lia|].
  destruct len as [|n]; [lia|].
  apply (step_inds_of_tiled_row (Np.prod (take i lengths)) n Hs reps). lia.
Qed.

Lemma tile_row_values {V} (lengths : list nat) (i : nat) (vec : list V) :
  Forall (λ x, 0 < x) lengths →
  take_rows (tile_row lengths i vec)
    (map (λ j, j * Np.prod (take i lengths)) (seq 0 (length vec)))
  = Ok vec.
Proof.
  intros Hpos. unfold tile_row.
  assert (0 < Np.prod (take i lengths)) as Hs by apply prod_pos, Forall_take, Hpos.
  assert (0 < Np.prod (drop (S i) lengths)) as Ht by apply prod_pos, Forall_drop, Hpos.
  destruct (Np.prod (drop (S i) lengths)) as [|reps]; [lia|].
  by apply values_of_tiled_row.
Qed.

(** *** Transposing twice *)

Lemma omap_lookup_seq {A} (pre row : list A) :
  omap (λ j, (pre ++ row) !! j) (seq (length pre) (length row)) = row.
Proof.
  revert pre. induction row as [|x row IH]; intros pre; [done|].
  cbn [length seq]. csimpl. rewrite list_lookup_middle by done. f_equal.
  replace (S (length pre)) with (length (pre ++ [x])) by (rewrite length_app; simpl; lia).
  rewrite <- (IH (pre ++ [x])) at 2. by rewrite <- app_assoc.
Qed.

Lemma omap_map_ext {A B C} (f : B → option C) (g : A → B) (h : A → option C)
    (l : list A) :
  (∀ x, x ∈ l → f (g x) = h x) → omap f (map g l) = omap h l.
Proof.
  induction l as [|x l IH]; intros H; [done|].
  cbn [map]. csimpl. rewrite (H x) by left. rewrite IH; [done|].
  intros y Hy. apply H. by right.
Qed.

Lemma mat_col_lookup {A} (m : matrix A) (i j : nat) (row : list A) :
  mat_wf m → j < mat_ncols m → mat_rows m !! i = Some row →
  mat_col m j !! i = row !! j.
Proof.
  unfold mat_wf, mat_col. generalize (mat_ncols m) as ncols. intros ncols Hwf Hj.
  revert i. induction Hwf as [|r rows Hr _ IH]; intros i Hi; [done|].
  destruct (lookup_lt_is_Some_2 r j) as [x Hx]; [lia|].
  csimpl. rewrite Hx. destruct i as [|i]; simpl in *.
  - by injection Hi as <-.
  - by apply IH.
Qed.

Lemma transpose_involutive {A} (m : matrix A) : mat_wf m → transpose (transpose m) = m.
Proof.
  intros Hwf. destruct m as [ncols rows]. unfold transpose at 1.
  cbn [transpose mat_ncols mat_rows mat_nrows]. unfold mat_nrows. cbn [mat_rows].
  change (mat_rows (transpose (Matrix ncols rows)))
    with (map (mat_col (Matrix ncols rows)) (seq 0 ncols)).
  rewrite length_map, length_seq. f_equal.
  apply list_eq. intros i.
  change (map ?f ?l) with (f <$> l) at 1. rewrite list_lookup_fmap.
  destruct (rows !! i) as [row|] eqn:Hrow.
  - rewrite lookup_seq_lt by (by eapply lookup_lt_Some).
    cbn [fmap option_fmap option_map Nat.add]. f_equal.
    unfold mat_col at 1.
    change (mat_rows (transpose (Matrix ncols rows)))
      with (map (mat_col (Matrix ncols rows)) (seq 0 ncols)).
    assert (length row = ncols) as Hlen.
    { unfold mat_wf in Hwf. rewrite Forall_forall in Hwf. apply Hwf.
      by eapply list_elem_of_lookup_2. }
    transitivity (omap (λ j, ([] ++ row) !! j) (seq (length (@nil A)) (length row)));
      [|apply omap_lookup_seq].
    cbn [app length]. rewrite Hlen.
    apply omap_map_ext. intros j [_ Hj]%elem_of_seq.
    by apply (mat_col_lookup (Matrix ncols rows)).
  - rewrite lookup_ge_None_2; [done|]. rewrite length_seq. by apply lookup_ge_None.
Qed.

Lemma built_inds_lookup {V} (unit_values : list (list V)) (i : nat) (vec : list V) :
  unit_values !! i = Some vec →
  mat_rows (built_inds unit_values) !! i
  = Some (tile_row (map length unit_values) i (arange (length vec))).
Proof.
  intros Hi. unfold built_inds, build_ind_val_matrices. cbn [fst mat_rows].
  by rewrite list_lookup_imap, Hi.
Qed.

Lemma built_vals_lookup {V} (unit_values : list (list V)) (i : nat) (vec : list V) :
  unit_values !! i = Some vec →
  mat_rows (built_vals unit_values) !! i
  = Some (tile_row (map length unit_values) i vec).
Proof.
  intros Hi. unfold built_vals, build_ind_val_matrices. cbn [snd mat_rows].
  by rewrite list_lookup_imap, Hi.
Qed.

Lemma lengths_lookup {V} (unit_values : list (list V)) (i : nat) (vec : list V) :
  unit_values !! i = Some vec → map length unit_values !! i = Some (length vec).
Proof.
  intros Hi. change (map length unit_values) with (length <$> unit_values).
  by rewrite list_lookup_fmap, Hi.
Qed.

Lemma built_inds_wf {V} (unit_values : list (list V)) : mat_wf (built_inds unit_values).
Proof.
  apply Forall_lookup. intros i row Hrow.
  destruct (lookup_lt_is_Some_2 unit_values i) as [vec Hvec].
  { apply lookup_lt_Some in Hrow. unfold built_inds, build_ind_val_matrices in Hrow.
    cbn [fst mat_rows] in Hrow. by rewrite length_imap in Hrow. }
  rewrite (built_inds_lookup _ _ _ Hvec) in Hrow. injection Hrow as <-.
  apply length_tile_row. rewrite length_arange. by apply lengths_lookup.
Qed.

Lemma built_vals_wf {V} (unit_values : list (list V)) : mat_wf (built_vals unit_values).
Proof.
  apply Forall_lookup. intros i row Hrow.
  destruct (lookup_lt_is_Some_2 unit_values i) as [vec Hvec].
  { apply lookup_lt_Some in Hrow. unfold built_vals, build_ind_val_matrices in Hrow.
    cbn [snd mat_rows] in Hrow. by rewrite length_imap in Hrow. }
  rewrite (built_vals_lookup _ _ _ Hvec) in Hrow. injection Hrow as <-.
  apply length_tile_row. by apply lengths_lookup.
Qed.

Lemma built_shape {V} (unit_values : list (list V)) :
  mat_nrows (built_inds unit_values) = length unit_values ∧
  mat_nrows (built_vals unit_values) = length unit_values ∧
  mat_ncols (built_inds unit_values) = Np.prod (map length unit_values) ∧
  mat_ncols (built_vals unit_values) = Np.prod (map length unit_values).
Proof.
  unfold built_inds, built_vals, build_ind_val_matrices, mat_nrows.
  cbn [fst snd mat_rows mat_ncols]. by rewrite !length_imap.
Qed.

Lemma transpose_shape {A} (m : matrix A) :
  mat_nrows (transpose m) = mat_ncols m ∧ mat_ncols (transpose m) = mat_nrows m.
Proof.
  unfold transpose, mat_nrows. cbn [mat_rows mat_ncols].
  by rewrite length_map, length_seq.
Qed.

(** The argument checks accept a built pair in either orientation and load
    it in the spectroscopic one. *)
Lemma built_setup {V} (names : list string) (unit_values : list (list V))
    (is_spectral : bool) :
  Forall (λ vec, 2 ≤ length vec) unit_values →
  length names = length unit_values →
  unit_values_setup
    (ArgArray (build_ind_val_matrices unit_values is_spectral).1)
    (ArgArray (build_ind_val_matrices unit_values is_spectral).2)
    NamesNone (Some names) None
  = Ok (built_inds unit_values, built_vals unit_values, names, names).
Proof.
  intros Hlens Hnames.
  destruct (built_shape unit_values) as (Hri & Hrv & Hci & Hcv).
  assert (length unit_values < Np.prod (map length unit_values)) as Hlt.
  { rewrite <- (length_map length unit_values) at 1. apply prod_above_length.
    apply Forall_forall. intros x (vec & <- & Hvec)%list_elem_of_In%in_map_iff.
    rewrite Forall_forall in Hlens. by apply Hlens, list_elem_of_In. }
  assert (build_ind_val_matrices unit_values is_spectral
          = if is_spectral then (built_inds unit_values, built_vals unit_values)
            else (transpose (built_inds unit_values), transpose (built_vals unit_values)))
    as -> by by destruct is_spectral.
  unfold unit_values_setup. destruct is_spectral; cbn [fst snd check arg_shape refuse_incomplete arg_matrix].
  - rewrite !bind_Ok_l, Hri, Hrv, Hci, Hcv.
    rewrite bool_decide_eq_true_2 by done. cbn [check]. rewrite !bind_Ok_l.
    rewrite (proj2 (Nat.ltb_lt _ _) Hlt), Hri, Hnames, Nat.eqb_refl. done.
  - destruct (transpose_shape (built_inds unit_values)) as [Hti Hti'].
    destruct (transpose_shape (built_vals unit_values)) as [Htv Htv'].
    rewrite !bind_Ok_l, Hti, Hti', Htv, Htv', Hri, Hrv, Hci, Hcv.
    rewrite bool_decide_eq_true_2 by done. cbn [check]. rewrite !bind_Ok_l.
    rewrite (proj2 (Nat.ltb_ge _ _)) by lia.
    rewrite !transpose_involutive by (apply built_inds_wf || apply built_vals_wf).
    rewrite Hri, Hnames, Nat.eqb_refl. done.
Qed.

(** Building the matrices of dimensions with at least two values each and
    extracting the unit values gives back the values of every dimension. *)
Lemma get_unit_values_of_tiled {V} (names : list string) (unit_values : list (list V))
    (is_spectral : bool) :
  Forall (λ vec, 2 ≤ length vec) unit_values →
  length names = length unit_values →
  NoDup names →
  get_unit_values
    (ArgArray (build_ind_val_matrices unit_values is_spectral).1)
    (ArgArray (build_ind_val_matrices unit_values is_spectral).2)
    NamesNone (Some names) None
  = Ok (list_to_map (zip names unit_values)).
Proof.
  intros Hlens Hnames Hnd. unfold get_unit_values.
  rewrite built_setup, bind_Ok_l by done.
  assert (Forall (λ x, 0 < x) (map length unit_values)) as Hpos.
  { apply Forall_forall. intros x (vec & <- & Hvec)%list_elem_of_In%in_map_iff.
    rewrite Forall_forall in Hlens. apply list_elem_of_In, Hlens in Hvec. lia. }
  rewrite <- (drop_0 names) at 3.
  rewrite (unit_values_loop_all _ _ names unit_values Hnd Hnames) with (todo := length names);
    [|intros i name vec Hname Hvec|lia].
  - rewrite !drop_0, foldl_insert_list_to_map.
    + by rewrite (right_id_L ∅ (∪)).
    + by rewrite fst_zip by lia.
    + intros k _. apply lookup_empty.
  - exists (tile_row (map length unit_values) i (arange (length vec))),
           (tile_row (map length unit_values) i vec),
           (map (λ j, j * Np.prod (take i (map length unit_values))) (seq 0 (length vec))).
    split; [by apply built_inds_lookup|]. split.
    { apply tile_row_step_inds; [done|]. rewrite Forall_forall in Hlens.
      apply Hlens. by eapply list_elem_of_lookup_2. }
    split; [by apply built_vals_lookup|]. by apply tile_row_values.
Qed.

(** C5: for 2 to 5 dimensions with distinct names and 2 to 5 values each,
    extracting the unit values from the index and value matrices that the
    Cartesian tiling builds (in either orientation) returns a dictionary
    that maps the name of every dimension to exactly its original sequence
    of values. *)
Theorem get_unit_values_of_built {V} (names : list string) (unit_values : list (list V))
    (is_spectral : bool) :
  2 ≤ length unit_values ≤ 5 →
  Forall (λ vec, 2 ≤ length vec ≤ 5) unit_values →
  length names = length unit_values →
  NoDup names →
  get_unit_values
    (ArgArray (build_ind_val_matrices unit_values is_spectral).1)
    (ArgArray (build_ind_val_matrices unit_values is_spectral).2)
    NamesNone (Some names) None
  = Ok (list_to_map (zip names unit_values)).
Proof.
  intros _ Hlens Hnames Hnd. apply get_unit_values_of_tiled; [|done..].
  eapply Forall_impl; [exact Hlens|]. simpl. lia.
Qed.

Lemma get_unit_values_of_built_witness :
  get_unit_values
    (ArgArray (build_ind_val_matrices [ [10;20;30;40;50]; [7;8;9] ]%Z false).1)
    (ArgArray (build_ind_val_matrices [ [10;20;30;40;50]; [7;8;9] ]%Z false).2)
    NamesNone (Some ["Bias"; "Cycle"]) None
  = Ok (list_to_map (zip ["Bias"; "Cycle"] [ [10;20;30;40;50]; [7;8;9] ]%Z)).
Proof.
  apply (get_unit_values_of_built ["Bias"; "Cycle"] [ [10;20;30;40;50]; [7;8;9] ]%Z false).
  - simpl. lia.
  - repeat constructor; simpl; lia.
  - reflexivity.
  - apply (bool_decide_unpack _). vm_compute. exact I.
Defined.

(** * Further properties *)

(** ** Further properties of [get_dimensionality] and [get_sort_order] *)

Lemma take_rows_suffix {A} (pre rows : list A) :
  take_rows (pre ++ rows) (seq (length pre) (length rows)) = Ok rows.
Proof.
  revert pre. induction rows as [|r rows IH]; intros pre; [done|].
  cbn [length seq take_rows].
  rewrite lookup_app_r, Nat.sub_diag by lia. cbn [lookup list_lookup].
  specialize (IH (pre ++ [r])). rewrite <- app_assoc, length_app in IH.
  cbn [length app] in IH. rewrite Nat.add_1_r in IH. by rewrite IH.
Qed.

(** X1: without an order, [get_dimensionality] never raises: it returns the
    number of distinct values of every row of the (orientation-normalised)
    matrix, in row order, whatever the matrix holds. *)
Theorem get_dimensionality_default_order (ds_index : matrix Z) :
  get_dimensionality ds_index None = Ok (row_sizes (as_spectroscopic ds_index)).
Proof.
  unfold get_dimensionality, mat_nrows. rewrite bind_Ok_l.
  pose proof (take_rows_suffix [] (mat_rows (as_spectroscopic ds_index))) as H.
  cbn [app length] in H. by rewrite H.
Qed.

Lemma as_spectroscopic_transpose {A} (m : matrix A) :
  mat_ncols m < mat_nrows m → as_spectroscopic (transpose m) = as_spectroscopic m.
Proof.
  intros H. unfold as_spectroscopic.
  replace (mat_ncols (transpose m) <? mat_nrows (transpose m)) with false.
  2:{ symmetry. apply Nat.ltb_ge. unfold mat_nrows at 1. simpl.
      rewrite length_map, length_seq. lia. }
  apply Nat.ltb_lt in H. by rewrite H.
Qed.

(** X2: a matrix with more rows than columns is read in the position
    orientation: [get_sort_order] and [get_dimensionality] return for it
    what they return for its transpose. *)
Theorem tall_matrix_read_as_its_transpose (m : matrix Z) (index_sort : option (list Z)) :
  mat_ncols m < mat_nrows m →
  get_sort_order (transpose m) = get_sort_order m ∧
  get_dimensionality (transpose m) index_sort = get_dimensionality m index_sort.
Proof.
  intros H. unfold get_sort_order, change_count, get_dimensionality.
  by rewrite (as_spectroscopic_transpose m H).
Qed.

Lemma tall_matrix_read_as_its_transpose_witness :
  get_sort_order (transpose (transpose bias_cycle_inds)) = get_sort_order (transpose bias_cycle_inds) ∧
  get_dimensionality (transpose (transpose bias_cycle_inds)) None
  = get_dimensionality (transpose bias_cycle_inds) None.
Proof.
  apply (tall_matrix_read_as_its_transpose (transpose bias_cycle_inds) None).
  vm_compute. lia.
Defined.

(** ** Further properties of [get_unit_values] *)

Lemma check_Ok b e u : check b e = Ok u → b = true.
Proof. by destruct b. Qed.

(** What the accepted arguments say about the names. *)
Lemma unit_values_setup_wanted {V} ds_inds (ds_vals : array_arg V) dim_names all_dim_names
    is_spec inds_mat vals_mat names wanted :
  unit_values_setup ds_inds ds_vals dim_names all_dim_names is_spec
  = Ok (inds_mat, vals_mat, names, wanted) →
  (all_dim_names = Some names ∨ (all_dim_names = None ∧ labels_of ds_inds = Ok names)) ∧
  wanted = requested dim_names names ∧
  (∀ n, n ∈ wanted → n ∈ names).
Proof.
  unfold unit_values_setup. intros H.
  destruct dim_names as [|s|l];
    repeat (apply bind_Ok in H as (? & ? & H));
    injection H as <- <- <- <-;
    (split; [destruct all_dim_names; [left|right]; naive_solver|]);
    repeat match goal with
    | Hc : _ ≫= _ = Ok _ |- _ => apply bind_Ok in Hc as (? & ? & Hc)
    | Hc : check _ _ = Ok _ |- _ => apply check_Ok in Hc
    | Hc : Ok _ = Ok _ |- _ => injection Hc as <-
    end.
  - done.
  - split; [done|]. intros n ->%list_elem_of_singleton.
    match goal with Hc : bool_decide (_ ∈ _) = true |- _ =>
      by apply bool_decide_eq_true in Hc end.
  - split; [done|]. intros n Hn.
    match goal with Hc : forallb _ _ = true |- _ =>
      rewrite forallb_forall in Hc; apply list_elem_of_In, Hc in Hn end.
    by apply bool_decide_eq_true in Hn.
Qed.

(** The loop adds an entry exactly for the wanted names it visits. *)
Lemma unit_values_loop_keys {V} (inds_mat : matrix Z) (vals_mat : matrix V)
    names wanted todo acc unit_values :
  unit_values_loop inds_mat vals_mat names wanted todo acc = Ok unit_values →
  ∀ n, is_Some (unit_values !! n) ↔ is_Some (acc !! n) ∨ (n ∈ todo ∧ n ∈ wanted).
Proof.
  revert acc. induction todo as [|d todo IH]; intros acc H n.
  - injection H as <-. rewrite elem_of_nil. tauto.
  - cbn [unit_values_loop] in H.
    apply bind_Ok in H as (i & _ & H). apply bind_Ok in H as (row & _ & H).
    apply bind_Ok in H as (si & _ & H). apply bind_Ok in H as (acc' & Hacc & H).
    rewrite (IH _ H n), elem_of_cons. clear IH H.
    destruct (bool_decide_reflect (d ∈ wanted)) as [Hd|Hd].
    + apply bind_Ok in Hacc as (vr & _ & Hacc). apply bind_Ok in Hacc as (vs & _ & Hacc).
      injection Hacc as <-. rewrite lookup_insert_is_Some.
      destruct (decide (d = n)) as [->|Hne].
      * split; intros _; [right; split; [by left|done]|left; by left].
      * assert (n ≠ d) by congruence. tauto.
    + injection Hacc as <-.
      destruct (decide (n = d)) as [->|Hne]; tauto.
Qed.

(** X3: the dictionary that [get_unit_values] returns has one entry for each
    requested dimension and no other: its keys are the names asked for (all
    the dimension names when none is given), and each of them is one of the
    dimension names, which are [all_dim_names] when given and the 'labels'
    of the indices dataset otherwise. *)
Theorem get_unit_values_keys {V} (ds_inds : array_arg Z) (ds_vals : array_arg V)
    dim_names all_dim_names is_spec unit_values :
  get_unit_values ds_inds ds_vals dim_names all_dim_names is_spec = Ok unit_values →
  ∃ names,
    (all_dim_names = Some names ∨ (all_dim_names = None ∧ labels_of ds_inds = Ok names)) ∧
    (∀ n, n ∈ requested dim_names names → n ∈ names) ∧
    (∀ n, is_Some (unit_values !! n) ↔ n ∈ requested dim_names names).
Proof.
  unfold get_unit_values. intros H.
  apply bind_Ok in H as ([[[inds_mat vals_mat] names] wanted] & Hsetup & H).
  apply unit_values_setup_wanted in Hsetup as (Hnames & -> & Hsub).
  exists names. split; [done|]. split; [done|]. intros n.
  rewrite (unit_values_loop_keys _ _ _ _ _ _ _ H n), lookup_empty.
  split; [intros [[? [=]]|[_ ?]]; done|]. intros Hn. right. split; [by apply Hsub|done].
Qed.

Lemma get_unit_values_keys_witness :
  ∃ names,
    (Some ["Bias"; "Cycle"] = Some names ∨
     (Some ["Bias"; "Cycle"] = None ∧ labels_of (ArgArray bias_cycle_inds) = Ok names)) ∧
    (∀ n, n ∈ requested (NamesStr "Cycle") names → n ∈ names) ∧
    (∀ n, is_Some (<["Cycle" := [7; 8; 9]%Z]> (∅ : gmap string (list Z)) !! n)
          ↔ n ∈ requested (NamesStr "Cycle") names).
Proof.
  apply (get_unit_values_keys (ArgArray bias_cycle_inds) (ArgArray bias_cycle_vals)
           (NamesStr "Cycle") (Some ["Bias"; "Cycle"]) None).
  vm_compute. reflexivity.
Defined.

(** X4: when the indices are an HDF5 dataset and it, or the values dataset,
    carries the attribute 'incomplete_dimensions', [get_unit_values] raises
    and returns no unit values, whatever the other arguments are. *)
Theorem get_unit_values_refuses_incomplete {V} (h5_inds : dataset Z) (ds_vals : array_arg V)
    dim_names all_dim_names is_spec :
  is_Some (dset_attrs h5_inds !! "incomplete_dimensions") ∨
  (∃ h5_vals, ds_vals = ArgDataset h5_vals ∧
              is_Some (dset_attrs h5_vals !! "incomplete_dimensions")) →
  raises (get_unit_values (ArgDataset h5_inds) ds_vals dim_names all_dim_names is_spec).
Proof.
  intros H. unfold get_unit_values, unit_values_setup.
  cbn [check]. rewrite bind_Ok_l.
  destruct ds_vals as [h5_vals|a|]; [|destruct all_dim_names|]; cbn [check];
    try exact I; rewrite bind_Ok_l; cbn [refuse_incomplete arg_attrs].
  rewrite bind_Ok_l.
  destruct (dset_attrs h5_inds !! "incomplete_dimensions") as [a|] eqn:Hi,
             (dset_attrs h5_vals !! "incomplete_dimensions") as [b|] eqn:Hv.
  - destruct (bool_decide (a = b)); cbn [check]; [|exact I].
    rewrite bind_Ok_l.
    by destruct (get_attr (H5Dataset h5_inds) "labels").
  - by destruct (get_attr (H5Dataset h5_inds) "labels").
  - by destruct (get_attr (H5Dataset h5_inds) "labels").
  - destruct H as [[? [=]]|(? & [= <-] & [? Hx])]. congruence.
Qed.

Lemma get_unit_values_refuses_incomplete_witness :
  raises (get_unit_values (ArgDataset h5_incomplete_inds) (ArgDataset h5_bias_cycle_vals)
            NamesNone None None).
Proof.
  apply (get_unit_values_refuses_incomplete h5_incomplete_inds
           (ArgDataset h5_bias_cycle_vals) NamesNone None None).
  left. vm_compute. by eexists.
Defined.

(** ** Further properties of [write_reduced_anc_dsets] *)

Lemma mapM_Ok_length {A B} (f : A → result B) (l : list A) (l' : list B) :
  mapM f l = Ok l' → length l' = length l.
Proof.
  revert l'. induction l as [|x l IH]; intros l' H; simpl in H.
  - by injection H as <-.
  - apply bind_Ok in H as (y & _ & H). apply bind_Ok in H as (k & Hk & H).
    injection H as <-. simpl. f_equal. by apply IH.
Qed.

Lemma mapM_Ok_Forall2 {A B} (f : A → result B) (l : list A) (l' : list B) :
  mapM f l = Ok l' → Forall2 (λ x y, f x = Ok y) l l'.
Proof.
  revert l'. induction l as [|x l IH]; intros l' H; simpl in H.
  - injection H as <-. constructor.
  - apply bind_Ok in H as (y & Hy & H). apply bind_Ok in H as (k & Hk & H).
    injection H as <-. constructor; [done|]. by apply IH.
Qed.

Lemma length_mask_selected {A} (l : list A) (mask : list bool) :
  length l = length mask →
  length (omap (λ p : A * bool, if p.2 then Some p.1 else None) (zip l mask))
  = length (filter (λ b, b = true) mask).
Proof.
  revert mask. induction l as [|x l IH]; intros [|b mask] Hlen; try done.
  simpl in Hlen. injection Hlen as Hlen. cbn [zip zip_with omap].
  destruct b; simpl.
  - f_equal. by apply IH.
  - rewrite filter_cons_False by done. by apply IH.
Qed.

Lemma mask_select_Ok {A} (l : list A) (mask : list bool) (l' : list A) :
  mask_select l mask = Ok l' →
  length mask = length l ∧
  l' = omap (λ p : A * bool, if p.2 then Some p.1 else None) (zip l mask).
Proof.
  unfold mask_select. intros H. apply bind_Ok in H as (? & Hc%check_Ok & H).
  apply Nat.eqb_eq in Hc. by injection H as <-.
Qed.

Lemma mask_select_length {A} (l : list A) (mask : list bool) (l' : list A) :
  mask_select l mask = Ok l' → length l' = length (filter (λ b, b = true) mask).
Proof.
  intros [Hlen ->]%mask_select_Ok. by apply length_mask_selected.
Qed.

(** What a successful call has done, branch by branch. *)
Lemma write_reduced_anc_dsets_Ok {V} (zero : V) (g : group) (h5_inds : dataset Z)
    (h5_vals : dataset V) dim_name basename is_spec grp h5_inds_new h5_vals_new :
  write_reduced_anc_dsets zero (GroupArg g) (ArgDataset h5_inds) (ArgDataset h5_vals)
    dim_name basename is_spec = Ok (grp, h5_inds_new, h5_vals_new) →
  ∃ all_dim_names dropped spec,
    get_attr (H5Dataset h5_inds) "labels" ≫= list_of_attr = Ok all_dim_names ∧
    names_of dim_name = Ok dropped ∧
    (∀ n, n ∈ dropped → n ∈ all_dim_names) ∧
    resolve_is_spec (dset_shape h5_inds) is_spec = Ok spec ∧
    ((anc_basename basename spec +:+ "_Indices") ∉ grp_keys g) ∧
    ((anc_basename basename spec +:+ "_Values") ∉ grp_keys g) ∧
    grp = Group (grp_name g) ({[dset_name h5_inds_new; dset_name h5_vals_new]} ∪ grp_keys g) ∧
    (if bool_decide (list_to_set dropped =@{gset string} list_to_set all_dim_names)
     then (h5_inds_new, h5_vals_new) = single_step_dsets zero (anc_basename basename spec)
     else reduce_anc_dsets h5_inds h5_vals all_dim_names dropped
            (anc_basename basename spec) spec = Ok (h5_inds_new, h5_vals_new)).
Proof.
  unfold write_reduced_anc_dsets. intros H.
  apply bind_Ok in H as (all_dim_names & Hall & H).
  apply bind_Ok in H as (dropped & Hdr & H).
  apply bind_Ok in H as (? & Hin%check_Ok & H).
  apply bind_Ok in H as (spec & Hspec & H).
  apply bind_Ok in H as (? & Hfree%check_Ok & H).
  apply bind_Ok in H as ([i' v'] & Hbranch & H).
  injection H as <- <- <-.
  exists all_dim_names, dropped, spec.
  cbn [forallb] in Hfree.
  apply andb_prop in Hfree as [Hf1 Hf2]. apply andb_prop in Hf2 as [Hf2 _].
  apply negb_true_iff, bool_decide_eq_false in Hf1, Hf2.
  repeat split; try done.
  - intros n Hn. rewrite forallb_forall in Hin.
    apply list_elem_of_In, Hin in Hn. by apply bool_decide_eq_true in Hn.
  - destruct (bool_decide (list_to_set dropped =@{gset string} list_to_set all_dim_names));
      cbn [negb] in Hbranch; [by injection Hbranch as <- <-|done].
Qed.

Lemma reduce_anc_dsets_Ok {V} (h5_inds : dataset Z) (h5_vals : dataset V)
    all_dim_names dropped basename spec h5_inds_new h5_vals_new :
  reduce_anc_dsets h5_inds h5_vals all_dim_names dropped basename spec
  = Ok (h5_inds_new, h5_vals_new) →
  ∃ picked ind_rows val_rows nsteps all_labels labels all_units units attrs,
    let keep_dim :=
      map (λ i, negb (bool_decide (i ∈ picked))) (seq 0 (length all_dim_names)) in
    Forall2 (λ name i, first_index all_dim_names name = Ok i) dropped picked ∧
    length ind_rows = length (filter (λ b, b = true) keep_dim) ∧
    length val_rows = length (filter (λ b, b = true) keep_dim) ∧
    string_array_attr (dset_attrs h5_inds) "labels" = Ok all_labels ∧
    mask_select all_labels keep_dim = Ok labels ∧
    string_array_attr (dset_attrs h5_inds) "units" = Ok all_units ∧
    mask_select all_units keep_dim = Ok units ∧
    attrs !! "labels" = Some (AttrStrs labels) ∧
    attrs !! "units" = Some (AttrStrs units) ∧
    h5_inds_new = Dataset (basename +:+ "_Indices")
      (nd_of_matrix (if spec then Matrix nsteps ind_rows else transpose (Matrix nsteps ind_rows)))
      attrs ∧
    h5_vals_new = Dataset (basename +:+ "_Values")
      (nd_of_matrix (if spec then Matrix nsteps val_rows else transpose (Matrix nsteps val_rows)))
      attrs.
Proof.
  unfold reduce_anc_dsets. intros H.
  apply bind_Ok in H as (ind_mat & _ & H).
  apply bind_Ok in H as (val_mat & _ & H).
  apply bind_Ok in H as (dr & Hdr & H).
  apply bind_Ok in H as (step_starts & _ & H).
  apply bind_Ok in H as (ir & Hir & H).
  apply bind_Ok in H as (ind_rows & Hir2 & H).
  apply bind_Ok in H as (vr & Hvr & H).
  apply bind_Ok in H as (val_rows & Hvr2 & H).
  apply bind_Ok in H as (all_labels & Hal & H).
  apply bind_Ok in H as (labels & Hl & H).
  apply bind_Ok in H as (all_units & Hau & H).
  apply bind_Ok in H as (units & Hu & H).
  injection H as <- <-.
  eexists dr.*1, ind_rows, val_rows, _, all_labels, labels, all_units, units, _.
  cbn zeta. repeat split; try done.
  - apply mapM_Ok_Forall2 in Hdr. apply Forall2_fmap_r.
    eapply Forall2_impl; [exact Hdr|]. intros name [i mask] Hf. simpl in *.
    apply bind_Ok in Hf as (j & Hj & Hf). apply bind_Ok in Hf as (? & _ & Hf).
    apply bind_Ok in Hf as (? & _ & Hf). by injection Hf as <- _.
  - apply mapM_Ok_length in Hir2. rewrite Hir2. by apply mask_select_length in Hir.
  - apply mapM_Ok_length in Hvr2. rewrite Hvr2. by apply mask_select_length in Hvr.
  - unfold write_labels_units. by rewrite lookup_insert_ne, lookup_insert.
  - unfold write_labels_units. by rewrite lookup_insert.
Qed.



Lemma transpose_dims {A} (m : matrix A) :
  mat_nrows (transpose m) = mat_ncols m ∧ mat_ncols (transpose m) = mat_nrows m.
Proof. unfold mat_nrows at 1. simpl. by rewrite length_map, length_seq. Qed.

(** X6: the datasets that [write_reduced_anc_dsets] writes agree with each
    other: both carry the same attributes, with as many 'labels' as 'units',
    both have the same shape, and the number of dimensions of that shape
    (rows in the spectroscopic orientation, columns in the position
    orientation) is the number of labels. *)
Theorem write_reduced_anc_dsets_lockstep {V} (zero : V) (g : group)
    (h5_inds : dataset Z) (h5_vals : dataset V) dim_name basename is_spec
    grp h5_inds_new h5_vals_new :
  write_reduced_anc_dsets zero (GroupArg g) (ArgDataset h5_inds) (ArgDataset h5_vals)
    dim_name basename is_spec = Ok (grp, h5_inds_new, h5_vals_new) →
  ∃ spec labels units nsteps,
    resolve_is_spec (dset_shape h5_inds) is_spec = Ok spec ∧
    dset_attrs h5_vals_new = dset_attrs h5_inds_new ∧
    dset_attrs h5_inds_new !! "labels" = Some (AttrStrs labels) ∧
    dset_attrs h5_inds_new !! "units" = Some (AttrStrs units) ∧
    length units = length labels ∧
    dset_shape h5_inds_new
    = (if spec then [length labels; nsteps] else [nsteps; length labels]) ∧
    dset_shape h5_vals_new = dset_shape h5_inds_new.
Proof.
  intros H.
  apply write_reduced_anc_dsets_Ok in H
    as (all_dim_names & dropped & spec & _ & _ & _ & Hspec & _ & _ & _ & Hbranch).
  exists spec. destruct (bool_decide _).
  - injection Hbranch as -> ->. exists ["Single_Step"], ["a. u."], 1.
    by destruct spec.
  - apply reduce_anc_dsets_Ok in Hbranch
      as (picked & ind_rows & val_rows & nsteps & all_labels & labels & all_units & units
          & attrs & _ & Hir & Hvr & _ & Hl & _ & Hu & Hal & Hau & -> & ->).
    apply mask_select_length in Hl, Hu.
    exists labels, units, nsteps. split; [done|]. split; [done|].
    split; [done|]. split; [done|]. split; [congruence|].
    unfold dset_shape, nd_of_matrix. cbn [dset_data nd_shape].
    destruct spec.
    + unfold mat_nrows. cbn [mat_rows mat_ncols]. split; congruence.
    + destruct (transpose_dims (Matrix nsteps ind_rows)) as [-> ->].
      destruct (transpose_dims (Matrix nsteps val_rows)) as [-> ->].
      unfold mat_nrows. cbn [mat_rows mat_ncols]. split; congruence.
Qed.

Lemma write_reduced_anc_dsets_lockstep_witness :
  ∃ spec labels units nsteps,
    resolve_is_spec (dset_shape h5_bias_cycle_inds) None = Ok spec ∧
    dset_attrs h5_cycle_vals = dset_attrs h5_cycle_inds ∧
    dset_attrs h5_cycle_inds !! "labels" = Some (AttrStrs labels) ∧
    dset_attrs h5_cycle_inds !! "units" = Some (AttrStrs units) ∧
    length units = length labels ∧
    dset_shape h5_cycle_inds
    = (if spec then [length labels; nsteps] else [nsteps; length labels]) ∧
    dset_shape h5_cycle_vals = dset_shape h5_cycle_inds.
Proof.
  apply (write_reduced_anc_dsets_lockstep 0%Z results_group h5_bias_cycle_inds
           h5_bias_cycle_vals (NamesStr "Bias") None None results_group_filled).
  vm_compute. reflexivity.
Defined.

(** The row found for a name carries that name. *)
Lemma first_index_lookup (names : list string) (name : string) (i : nat) :
  first_index names name = Ok i → names !! i = Some name.
Proof.
  unfold first_index, Np.where_.
  assert (∀ start rest, Np.where_from start (map (λ n, bool_decide (n = name)) names)
                        = i :: rest → ∃ j, i = start + j ∧ names !! j = Some name) as Hgen.
  { induction names as [|n names IH]; intros start rest; [done|].
    cbn [map Np.where_from]. destruct (bool_decide_reflect (n = name)) as [->|Hne].
    - intros [= <- _]. exists 0. split; [lia|done].
    - intros (j & -> & Hj)%IH. exists (S j). split; [lia|done]. }
  destruct (Np.where_from 0 _) as [|k rest] eqn:Hw; [done|].
  intros [= ->]. by destruct (Hgen 0 rest Hw) as (j & -> & Hj).
Qed.

Lemma mask_selected_filter {A B} (P : A → Prop) `{∀ x, Decision (P x)}
    (f : nat → bool) (l : list A) (k : list B) (start : nat) :
  length k = length l →
  (∀ i x, l !! i = Some x → (f (start + i) = true ↔ P x)) →
  omap (λ p : B * bool, if p.2 then Some p.1 else None) (zip k (map f (seq start (length l))))
  = (filter (λ p, P p.1) (zip l k)).*2.
Proof.
  revert k start. induction l as [|x l IH]; intros [|y k] start Hlen Hf; try done.
  injection Hlen as Hlen.
  cbn [length seq map zip zip_with].
  assert (omap (λ p : B * bool, if p.2 then Some p.1 else None)
            (zip k (map f (seq (S start) (length l))))
          = (filter (λ p, P p.1) (zip l k)).*2) as IH'.
  { apply IH; [done|]. intros i z Hi. rewrite <- (Hf (S i) z Hi). by rewrite Nat.add_succ_r. }
  specialize (Hf 0 x eq_refl). rewrite Nat.add_0_r in Hf.
  change (omap ?g ((y, f start) :: ?t))
    with (match g (y, f start) with Some z => z :: omap g t | None => omap g t end).
  cbn [fst snd]. destruct (f start).
  - rewrite filter_cons_True by (by apply Hf). by rewrite fmap_cons, <- IH'.
  - rewrite filter_cons_False; [done|]. simpl. intros HP. by apply Hf in HP.
Qed.

Lemma zip_self_filter {A} (P : A → Prop) `{∀ x, Decision (P x)} (l : list A) :
  (filter (λ p, P p.1) (zip l l)).*2 = filter P l.
Proof.
  induction l as [|x l IH]; [done|]. cbn [zip zip_with].
  destruct (decide (P x)).
  - rewrite !filter_cons_True by done. by rewrite fmap_cons, IH.
  - by rewrite !filter_cons_False by done.
Qed.

(** X7: when the labels of the indices dataset are distinct and at least one
    dimension is not dropped, the labels written by [write_reduced_anc_dsets]
    are the labels that were not dropped, in their original order, and the
    units written are the units at the same positions. *)
Theorem write_reduced_anc_dsets_keeps_the_rest {V} (zero : V) (g : group)
    (h5_inds : dataset Z) (h5_vals : dataset V) dim_name basename is_spec
    grp h5_inds_new h5_vals_new all_labels dropped :
  write_reduced_anc_dsets zero (GroupArg g) (ArgDataset h5_inds) (ArgDataset h5_vals)
    dim_name basename is_spec = Ok (grp, h5_inds_new, h5_vals_new) →
  dset_attrs h5_inds !! "labels" = Some (AttrStrs all_labels) →
  NoDup all_labels →
  names_of dim_name = Ok dropped →
  (∃ name, name ∈ all_labels ∧ name ∉ dropped) →
  ∃ all_units,
    dset_attrs h5_inds !! "units" = Some (AttrStrs all_units) ∧
    length all_units = length all_labels ∧
    dset_attrs h5_inds_new !! "labels"
    = Some (AttrStrs (filter (λ name, name ∉ dropped) all_labels)) ∧
    dset_attrs h5_inds_new !! "units"
    = Some (AttrStrs (filter (λ p, p.1 ∉ dropped) (zip all_labels all_units)).*2).
Proof.
  intros H Hlabels Hnd Hdr (kept & Hkept & Hnot).
  apply write_reduced_anc_dsets_Ok in H
    as (all_dim_names & dropped' & spec & Hall & Hdr' & Hsub & _ & _ & _ & _ & Hbranch).
  unfold get_attr in Hall. rewrite Hlabels, bind_Ok_l in Hall. injection Hall as <-.
  rewrite Hdr in Hdr'. injection Hdr' as <-.
  rewrite bool_decide_eq_false_2 in Hbranch.
  2:{ intros Heq. apply Hnot. apply (elem_of_list_to_set (C:=gset string)).
      rewrite Heq. by apply elem_of_list_to_set. }
  apply reduce_anc_dsets_Ok in Hbranch
    as (picked & ind_rows & val_rows & nsteps & all_labels' & labels & all_units & units
        & attrs & Hpicked & _ & _ & Hal & Hl & Hau & Hu & Hlab & Hun & -> & _).
  unfold string_array_attr in Hal, Hau. rewrite Hlabels in Hal. injection Hal as <-.
  destruct (dset_attrs h5_inds !! "units") as [[| |all_units'| |]|]; try done.
  injection Hau as ->.
  assert (∀ i name, all_labels !! i = Some name →
            negb (bool_decide (0 + i ∈ picked)) = true ↔ name ∉ dropped) as Hmask.
  { intros i name Hi. rewrite Nat.add_0_l, negb_true_iff, bool_decide_eq_false.
    split; intros Hn Hin; apply Hn.
    - apply list_elem_of_lookup in Hin as [k Hk].
      destruct (Forall2_lookup_l _ _ _ _ _ Hpicked Hk) as (j & Hj & Hfi).
      rewrite (first_index_NoDup _ _ _ Hnd Hi) in Hfi. injection Hfi as <-.
      by eapply list_elem_of_lookup_2.
    - apply list_elem_of_lookup in Hin as [k Hk].
      destruct (Forall2_lookup_r _ _ _ _ _ Hpicked Hk) as (n & Hn' & Hfi).
      apply first_index_lookup in Hfi. rewrite Hi in Hfi. injection Hfi as <-.
      by eapply list_elem_of_lookup_2. }
  exists all_units.
  apply mask_select_Ok in Hl as [Hlen1 ->]. apply mask_select_Ok in Hu as [Hlen2 ->].
  rewrite length_map, length_seq in Hlen1, Hlen2.
  split; [done|]. split; [congruence|]. cbn [dset_attrs]. split.
  - rewrite Hlab. do 2 f_equal.
    etrans; [exact (mask_selected_filter (λ name, name ∉ dropped) _ all_labels all_labels
                      0 eq_refl Hmask)|].
    exact (zip_self_filter (λ name, name ∉ dropped) all_labels).
  - rewrite Hun. do 2 f_equal.
    assert (length all_units = length all_labels) as Hlen by congruence.
    exact (mask_selected_filter (λ name, name ∉ dropped) _ all_labels all_units 0 Hlen Hmask).
Qed.

Lemma write_reduced_anc_dsets_keeps_the_rest_witness :
  ∃ all_units,
    dset_attrs h5_bias_cycle_inds !! "units" = Some (AttrStrs all_units) ∧
    length all_units = length ["Bias"; "Cycle"] ∧
    dset_attrs h5_cycle_inds !! "labels"
    = Some (AttrStrs (filter (λ name, name ∉ ["Bias"]) ["Bias"; "Cycle"])) ∧
    dset_attrs h5_cycle_inds !! "units"
    = Some (AttrStrs (filter (λ p, p.1 ∉ ["Bias"]) (zip ["Bias"; "Cycle"] all_units)).*2).
Proof.
  apply (write_reduced_anc_dsets_keeps_the_rest 0%Z results_group h5_bias_cycle_inds
           h5_bias_cycle_vals (NamesStr "Bias") None None results_group_filled
           h5_cycle_inds h5_cycle_vals ["Bias"; "Cycle"] ["Bias"]).
  - vm_compute. reflexivity.
  - reflexivity.
  - apply (bool_decide_unpack _). vm_compute. exact I.
  - reflexivity.
  - exists "Cycle". split; apply (bool_decide_unpack _); vm_compute; exact I.
Defined.

(** X8: asked to drop no dimension at all (an empty list of names),
    [write_reduced_anc_dsets] writes nothing and raises, for every parent
    group, pair of datasets, base name and orientation, unless the 'labels'
    of the indices dataset list to nothing, as an empty array or an empty
    string do: with nothing to drop there is no mask to stack ([np.vstack]
    of an empty list).  With no label at all there is nothing to keep either,
    and the call writes the 'Single_Step' pair. *)
Theorem write_reduced_anc_dsets_drop_nothing_raises {V} (zero : V) (h5_parent_group : group_arg)
    (h5_inds : array_arg Z) (h5_vals : array_arg V) basename is_spec :
  (∀ d, h5_inds = ArgDataset d →
        dset_attrs d !! "labels" ≠ Some (AttrStrs []) ∧
        dset_attrs d !! "labels" ≠ Some (AttrStr EmptyString)) →
  raises (write_reduced_anc_dsets zero h5_parent_group h5_inds h5_vals (NamesList [])
            basename is_spec).
Proof.
  intros Hlabels.
  destruct (write_reduced_anc_dsets zero h5_parent_group h5_inds h5_vals (NamesList [])
              basename is_spec) as [[[grp i'] v']|e] eqn:H; [|exact I].
  exfalso.
  destruct h5_parent_group as [g|]; [|discriminate H].
  destruct h5_inds as [inds| |]; [|destruct h5_vals; discriminate H..].
  destruct h5_vals as [vals| |]; [|discriminate H..].
  apply write_reduced_anc_dsets_Ok in H
    as (all_dim_names & dropped & spec & Hall & [= <-] & _ & _ & _ & _ & _ & Hbranch).
  destruct (Hlabels inds eq_refl) as [Harray Hstring].
  assert (all_dim_names ≠ []) as Hnonempty.
  { unfold get_attr in Hall.
    destruct (dset_attrs inds !! "labels") as [[|s|labels| |]|]; try done.
    - rewrite bind_Ok_l in Hall. injection Hall as <-. by destruct s.
    - rewrite bind_Ok_l in Hall. injection Hall as <-. by destruct labels. }
  rewrite bool_decide_eq_false_2 in Hbranch.
  2:{ intros Heq. destruct all_dim_names as [|n ns]; [done|].
      assert (n ∈ (list_to_set [] : gset string)) as Hn
        by (rewrite Heq; apply elem_of_list_to_set; left).
      by apply elem_of_empty in Hn. }
  unfold reduce_anc_dsets in Hbranch.
  apply bind_Ok in Hbranch as (? & _ & Hbranch).
  apply bind_Ok in Hbranch as (? & _ & Hbranch).
  apply bind_Ok in Hbranch as (dr & [= <-] & Hbranch).
  apply bind_Ok in Hbranch as (? & Hc & _). discriminate Hc.
Qed.

Lemma write_reduced_anc_dsets_drop_nothing_raises_witness :
  raises (write_reduced_anc_dsets 0%Z (GroupArg results_group) (ArgDataset h5_bias_cycle_inds)
            (ArgDataset h5_bias_cycle_vals) (NamesList []) None None).
Proof.
  apply (write_reduced_anc_dsets_drop_nothing_raises 0%Z (GroupArg results_group)
           (ArgDataset h5_bias_cycle_inds) (ArgDataset h5_bias_cycle_vals) None None).
  intros d [= <-]. vm_compute. split; discriminate.
Defined.

Lemma check_links_missing {A} (f : h5file) (d : dataset A) success names name :
  name ∈ names → dset_attrs d !! name = None →
  check_links f d success names = None.
Proof.
  intros Hin Hnone. revert success.
  induction names as [|n names IH]; intros success; [by apply elem_of_nil in Hin|].
  cbn [check_links]. apply elem_of_cons in Hin as [<-|Hin].
  - unfold linked, attrs_getitem. by rewrite Hnone.
  - destruct (linked f d n); [by apply IH|done].
Qed.

(** X9: a dataset that lacks one of the four ancillary links or one of the
    attributes 'quantity' and 'units' is never a main dataset:
    [check_if_main] returns [False] for it, without raising, whatever its
    shape, its other attributes and the file hold. *)
Theorem check_if_main_false_without_attr {A} (f : h5file) (d : dataset A) (name : string) :
  name ∈ dset_names ++ ["quantity"; "units"] →
  dset_attrs d !! name = None →
  check_if_main (MainDataset f d) = Ok false.
Proof.
  intros Hin Hnone. unfold check_if_main. cbn [andb].
  destruct (bool_decide (length (dset_shape d) = 2)); cbn [negb]; [|done].
  apply elem_of_app in Hin as [Hin|Hin].
  - by rewrite (check_links_missing f d true dset_names name Hin Hnone).
  - destruct (check_links f d true dset_names) as [success|]; [|done].
    assert (forallb (attrs_contains (dset_attrs d)) ["quantity"; "units"] = false) as ->; [|done].
    assert (attrs_contains (dset_attrs d) name = false) as Hc.
    { unfold attrs_contains. rewrite Hnone. apply bool_decide_eq_false_2. by intros [? [=]]. }
    cbn [forallb].
    apply elem_of_cons in Hin as [->|Hin]; [by rewrite Hc|].
    apply list_elem_of_singleton in Hin as ->. rewrite Hc. apply andb_false_r.
Qed.

Lemma check_if_main_false_without_attr_witness :
  check_if_main (MainDataset (H5File ∅ ∅)
                   (Dataset "Raw_Data" (zeros [2; 3]) (delete "units" main_attrs)))
  = Ok false.
Proof.
  apply (check_if_main_false_without_attr (H5File ∅ ∅)
           (Dataset "Raw_Data" (zeros [2; 3]) (delete "units" main_attrs)) "units").
  - apply (bool_decide_unpack _). vm_compute. exact I.
  - vm_compute. reflexivity.
Defined.

(** ** Properties of the link functions *)

Lemma obj_attrs_with_attrs o attrs : obj_attrs (obj_with_attrs o attrs) = attrs.
Proof. by destruct o. Qed.

Lemma obj_with_attrs_twice o a b : obj_with_attrs (obj_with_attrs o a) b = obj_with_attrs o b.
Proof. by destruct o. Qed.

Lemma obj_shape_with_attrs o attrs : obj_shape (obj_with_attrs o attrs) = obj_shape o.
Proof. by destruct o. Qed.

Lemma is_h5_dataset_with_attrs o attrs :
  is_h5_dataset (obj_with_attrs o attrs) = is_h5_dataset o.
Proof. by destruct o. Qed.

Lemma link_h5_obj_as_alias_Ok f m a o oa alias_name :
  objects f !! m = Some o → objects f !! a = Some oa →
  py_strip alias_name ≠ EmptyString →
  link_h5_obj_as_alias f (H5Obj m) (H5Obj a) alias_name
  = Ok (with_attrs f m o (<[py_strip alias_name := AttrRef a]> (obj_attrs o))).
Proof.
  intros Hm Ha Hne. unfold link_h5_obj_as_alias, as_obj, attrs_setitem.
  rewrite Hm, Ha. cbn [fmap option_fmap option_map].
  by rewrite Hm, bool_decide_eq_false_2.
Qed.

Lemma with_attrs_lookup f m o attrs r :
  objects (with_attrs f m o attrs) !! r
  = if decide (r = m) then Some (obj_with_attrs o attrs) else objects f !! r.
Proof.
  unfold with_attrs. cbn [objects]. destruct (decide (r = m)) as [->|Hne].
  - by rewrite lookup_insert_eq.
  - by rewrite lookup_insert_ne.
Qed.

Lemma with_attrs_twice f m o a b :
  with_attrs (with_attrs f m o a) m (obj_with_attrs o a) b = with_attrs f m o b.
Proof.
  unfold with_attrs. cbn [objects paths].
  by rewrite insert_insert_eq, obj_with_attrs_twice.
Qed.

Lemma link_as_main_Ok f m pi pv si sv main dpi dpv dsi dsv :
  objects f !! m = Some (H5Dataset main) →
  objects f !! pi = Some (H5Dataset dpi) →
  objects f !! pv = Some (H5Dataset dpv) →
  objects f !! si = Some (H5Dataset dsi) →
  objects f !! sv = Some (H5Dataset dsv) →
  dset_shape dpv = dset_shape dpi →
  dset_shape dsv = dset_shape dsi →
  link_as_main f (H5Obj m) (H5Obj pi) (H5Obj pv) (H5Obj si) (H5Obj sv) AncDsetsNone
  = Ok (with_attrs f m (H5Dataset main) (linked_attrs (dset_attrs main) pi pv si sv)).
Proof.
  intros Hm Hpi Hpv Hsi Hsv Hps Hss.
  unfold link_as_main, as_dataset, as_obj.
  rewrite Hm, Hpi, Hpv, Hsi, Hsv. cbn [fmap option_fmap option_map].
  rewrite !bind_Ok_l.
  rewrite (bool_decide_eq_true_2 _ Hps), (bool_decide_eq_true_2 _ Hss).
  cbn [check]. rewrite !bind_Ok_l.
  assert (∀ attrs r o name,
    objects f !! r = Some o → py_strip name ≠ EmptyString →
    link_h5_obj_as_alias (with_attrs f m (H5Dataset main) attrs) (H5Obj m) (H5Obj r) name
    = Ok (with_attrs f m (H5Dataset main) (<[py_strip name := AttrRef r]> attrs))) as Hstep.
  { intros attrs r o name Hr Hne.
    destruct (decide (r = m)) as [->|Hrm].
    - erewrite link_h5_obj_as_alias_Ok; [|by rewrite with_attrs_lookup, decide_True..|done].
      by rewrite with_attrs_twice, obj_attrs_with_attrs.
    - erewrite link_h5_obj_as_alias_Ok;
        [|by rewrite with_attrs_lookup, decide_True
         |by rewrite with_attrs_lookup, decide_False|done].
      by rewrite with_attrs_twice, obj_attrs_with_attrs. }
  rewrite (link_h5_obj_as_alias_Ok f m pi _ _ _ Hm Hpi) by done.
  rewrite bind_Ok_l.
  rewrite (Hstep _ pv _ "Position_Values" Hpv) by done. rewrite bind_Ok_l.
  rewrite (Hstep _ si _ "Spectroscopic_Indices" Hsi) by done. rewrite bind_Ok_l.
  rewrite (Hstep _ sv _ "Spectroscopic_Values" Hsv) by done. rewrite bind_Ok_l.
  reflexivity.
Qed.

Lemma check_if_main_linked f m pi pv si sv main dpi dpv dsi dsv nrows ncols :
  objects f !! m = Some (H5Dataset main) →
  objects f !! pi = Some (H5Dataset dpi) →
  objects f !! pv = Some (H5Dataset dpv) →
  objects f !! si = Some (H5Dataset dsi) →
  objects f !! sv = Some (H5Dataset dsv) →
  dset_shape main = [nrows; ncols] →
  is_Some (dset_attrs main !! "quantity") →
  is_Some (dset_attrs main !! "units") →
  dset_shape dpv = dset_shape dpi →
  dset_shape dsv = dset_shape dsi →
  shape_at (dset_shape dpi) 0 = Ok nrows →
  shape_at (dset_shape dsi) 1 = Ok ncols →
  check_if_main
    (main_of (with_attrs f m (H5Dataset main) (linked_attrs (dset_attrs main) pi pv si sv))
             (H5Obj m))
  = Ok true.
Proof.
  intros Hm Hpi Hpv Hsi Hsv Hshape Hq Hu Hps Hss Hrows Hcols.
  set (attrs := linked_attrs (dset_attrs main) pi pv si sv).
  set (f' := with_attrs f m (H5Dataset main) attrs).
  set (main' := Dataset (dset_name main) (dset_data main) attrs).
  assert (main_of f' (H5Obj m) = MainDataset f' main') as ->.
  { unfold main_of, as_obj. subst f'. by rewrite with_attrs_lookup, decide_True. }
  assert (∀ name r d, attrs !! name = Some (AttrRef r) →
            objects f !! r = Some (H5Dataset d) →
            ∃ d', linked f' main' name = Ok (H5Dataset d') ∧ dset_shape d' = dset_shape d)
    as Hlinked.
  { intros name r d Hname Hr. unfold linked, attrs_getitem. cbn [dset_attrs main'].
    rewrite Hname, bind_Ok_l. unfold file_getitem. subst f'.
    rewrite with_attrs_lookup. destruct (decide (r = m)) as [->|Hne].
    - rewrite Hm in Hr. injection Hr as <-. by eexists.
    - rewrite Hr. by eexists. }
  destruct (Hlinked "Position_Indices" pi dpi) as (dpi' & Hl1 & Hs1); [|done|].
  { subst attrs. unfold linked_attrs.
    repeat (rewrite lookup_insert_ne by done). by rewrite lookup_insert_eq. }
  destruct (Hlinked "Position_Values" pv dpv) as (dpv' & Hl2 & Hs2); [|done|].
  { subst attrs. unfold linked_attrs.
    repeat (rewrite lookup_insert_ne by done). by rewrite lookup_insert_eq. }
  destruct (Hlinked "Spectroscopic_Indices" si dsi) as (dsi' & Hl3 & Hs3); [|done|].
  { subst attrs. unfold linked_attrs.
    repeat (rewrite lookup_insert_ne by done). by rewrite lookup_insert_eq. }
  destruct (Hlinked "Spectroscopic_Values" sv dsv) as (dsv' & Hl4 & Hs4); [|done|].
  { subst attrs. unfold linked_attrs. by rewrite lookup_insert_eq. }
  assert (dset_shape main' = [nrows; ncols]) as Hshape' by done.
  unfold check_if_main. rewrite Hshape'.
  rewrite bool_decide_eq_true_2 by done. cbn [andb negb].
  unfold dset_names. cbn [check_links]. rewrite Hl1, Hl2, Hl3, Hl4.
  cbn [is_h5_dataset andb].
  assert (forallb (attrs_contains (dset_attrs main')) ["quantity"; "units"] = true) as ->.
  { cbn [forallb]. unfold attrs_contains. cbn [dset_attrs main'].
    rewrite !bool_decide_eq_true_2; [done|..]; subst attrs; unfold linked_attrs;
      by rewrite !lookup_insert_ne. }
  cbn [negb]. rewrite !bind_Ok_l. cbn [obj_shape]. rewrite !bind_Ok_l.
  rewrite Hs1, Hs2, Hs3, Hs4, Hps, Hss, Hrows, Hcols.
  cbn [shape_at lookup list_lookup]. rewrite !bind_Ok_l.
  rewrite !bool_decide_eq_true_2 by done. rewrite !Nat.eqb_refl.
  reflexivity.
Qed.

(** X10: [link_as_main] makes a main dataset.  When the five arguments are
    datasets of the file, the dataset to be linked is two-dimensional and
    carries 'quantity' and 'units', the two position datasets have the same
    shape with as many rows as it, and the two spectroscopic datasets have
    the same shape with as many columns as it, then [link_as_main] returns
    and [check_if_main] holds of the linked dataset. *)
Theorem link_as_main_then_check_if_main f m pi pv si sv main dpi dpv dsi dsv nrows ncols :
  objects f !! m = Some (H5Dataset main) →
  objects f !! pi = Some (H5Dataset dpi) →
  objects f !! pv = Some (H5Dataset dpv) →
  objects f !! si = Some (H5Dataset dsi) →
  objects f !! sv = Some (H5Dataset dsv) →
  dset_shape main = [nrows; ncols] →
  is_Some (dset_attrs main !! "quantity") →
  is_Some (dset_attrs main !! "units") →
  dset_shape dpv = dset_shape dpi →
  dset_shape dsv = dset_shape dsi →
  shape_at (dset_shape dpi) 0 = Ok nrows →
  shape_at (dset_shape dsi) 1 = Ok ncols →
  ∃ f', link_as_main f (H5Obj m) (H5Obj pi) (H5Obj pv) (H5Obj si) (H5Obj sv) AncDsetsNone
        = Ok f' ∧
        check_if_main (main_of f' (H5Obj m)) = Ok true.
Proof.
  intros Hm Hpi Hpv Hsi Hsv Hshape Hq Hu Hps Hss Hrows Hcols.
  eexists. split; [by eapply link_as_main_Ok|]. by eapply check_if_main_linked.
Qed.

Lemma link_as_main_then_check_if_main_witness :
  ∃ f', link_as_main unlinked_file (H5Obj 0) (H5Obj 1) (H5Obj 2) (H5Obj 3) (H5Obj 4)
          AncDsetsNone = Ok f' ∧
        check_if_main (main_of f' (H5Obj 0)) = Ok true.
Proof.
  eapply (link_as_main_then_check_if_main unlinked_file 0 1 2 3 4 _ _ _ _ _ 2 3);
    try reflexivity; vm_compute; by eexists.
Defined.

(** ** Properties of [get_auxiliary_datasets] *)

Lemma aux_datasets_sound f o names found r :
  aux_datasets f o names = Ok found → r ∈ found →
  ∃ name d, name ∈ names ∧ obj_attrs o !! name = Some (AttrRef r) ∧
            objects f !! r = Some (H5Dataset d).
Proof.
  revert found. induction names as [|n names IH]; intros found H Hr.
  - injection H as <-. by apply elem_of_nil in Hr.
  - cbn [aux_datasets] in H.
    destruct (obj_attrs o !! n) as [v|] eqn:Hv; [|done].
    apply bind_Ok in H as (here & Hhere & H). apply bind_Ok in H as (rest & Hrest & H).
    injection H as <-. apply elem_of_app in Hr as [Hr|Hr].
    + destruct v as [r'| | | |]; try (injection Hhere as <-; by apply elem_of_nil in Hr).
      apply bind_Ok in Hhere as (target & Ht & Hhere). injection Hhere as <-.
      unfold file_getitem in Ht.
      destruct (objects f !! r') as [[d|]|] eqn:Ho; try done; injection Ht as <-;
        cbn [is_h5_dataset] in Hr; [|by apply elem_of_nil in Hr].
      apply list_elem_of_singleton in Hr as ->.
      exists n, d. split; [left|done].
    + destruct (IH rest Hrest Hr) as (name & d & Hin & Hname & Hd).
      exists name, d. split; [by right|done].
Qed.

Lemma aux_datasets_missing f o names name :
  name ∈ names → obj_attrs o !! name = None → raises (aux_datasets f o names).
Proof.
  intros Hin Hnone. induction names as [|n names IH]; [by apply elem_of_nil in Hin|].
  cbn [aux_datasets]. apply elem_of_cons in Hin as [<-|Hin].
  - by rewrite Hnone.
  - destruct (obj_attrs o !! n) as [v|]; [|done].
    destruct (match v with AttrRef r => _ | _ => _ end); [|done].
    rewrite bind_Ok_l. specialize (IH Hin).
    by destruct (aux_datasets f o names).
Qed.

(** X11: whatever [get_auxiliary_datasets] returns is a dataset of the file
    that one of the looked-up attributes of the object refers to: groups,
    region references and plain values are left out.  When one of the names
    asked for is not an attribute of the object, it raises. *)
Theorem get_auxiliary_datasets_sound f (h5_object : h5_arg) aux_dset_name ref o :
  as_obj f h5_object = Some (ref, o) →
  (∀ found r, get_auxiliary_datasets f h5_object aux_dset_name = Ok found → r ∈ found →
     ∃ name d, name ∈ names_looked_up o aux_dset_name ∧
               obj_attrs o !! name = Some (AttrRef r) ∧
               objects f !! r = Some (H5Dataset d)) ∧
  (∀ name, name ∈ names_looked_up o aux_dset_name → obj_attrs o !! name = None →
     raises (get_auxiliary_datasets f h5_object aux_dset_name)).
Proof.
  intros Ho. unfold get_auxiliary_datasets. rewrite Ho. split.
  - intros found r. apply aux_datasets_sound.
  - intros name. apply aux_datasets_missing.
Qed.

Lemma get_auxiliary_datasets_sound_witness :
  (∀ found r,
     get_auxiliary_datasets unlinked_file (H5Obj 0) (NamesList ["quantity"; "Position_Indices"])
     = Ok found → r ∈ found →
     ∃ name d, name ∈ names_looked_up (H5Dataset unlinked_main)
                        (NamesList ["quantity"; "Position_Indices"]) ∧
               obj_attrs (H5Dataset unlinked_main) !! name = Some (AttrRef r) ∧
               objects unlinked_file !! r = Some (H5Dataset d)) ∧
  (∀ name, name ∈ names_looked_up (H5Dataset unlinked_main)
                    (NamesList ["quantity"; "Position_Indices"]) →
     obj_attrs (H5Dataset unlinked_main) !! name = None →
     raises (get_auxiliary_datasets unlinked_file (H5Obj 0)
               (NamesList ["quantity"; "Position_Indices"]))).
Proof.
  apply (get_auxiliary_datasets_sound unlinked_file (H5Obj 0)
           (NamesList ["quantity"; "Position_Indices"]) 0 (H5Dataset unlinked_main)).
  reflexivity.
Defined.



(** ** Properties of [check_and_link_ancillary] *)




(** ** Properties of [get_attributes] *)

Lemma get_attr_lookup o name : get_attr o name =
  match obj_attrs o !! name with
  | Some v => Ok v
  | None => Raise (KeyError "is not an attribute")
  end.
Proof. by destruct o. Qed.

Lemma get_attributes_loop_Ok o names acc :
  Forall (λ name, is_Some (obj_attrs o !! name)) names →
  ∃ att_dict, get_attributes_loop o names acc = Ok att_dict ∧
    ∀ name, att_dict !! name
            = if bool_decide (name ∈ names) then obj_attrs o !! name else acc !! name.
Proof.
  intros Hnames. revert acc.
  induction Hnames as [|n names [v Hv] _ IH]; intros acc.
  - exists acc. split; [done|]. intros name. by rewrite bool_decide_eq_false_2 by apply not_elem_of_nil.
  - cbn [get_attributes_loop]. rewrite get_attr_lookup, Hv.
    destruct (IH (<[n := v]> acc)) as (att_dict & -> & Hd).
    exists att_dict. split; [done|]. intros name. rewrite Hd.
    destruct (decide (name = n)) as [->|Hn].
    + rewrite (bool_decide_eq_true_2 (n ∈ n :: names)) by left.
      rewrite lookup_insert_eq. by destruct (bool_decide (n ∈ names)).
    + rewrite lookup_insert_ne by done.
      destruct (bool_decide_reflect (name ∈ names)) as [Hin|Hin].
      * rewrite bool_decide_eq_true_2; [done|by right].
      * rewrite bool_decide_eq_false_2; [done|].
        intros [?|?]%elem_of_cons; done.
Qed.

Lemma get_attributes_loop_missing o names acc name :
  name ∈ names → obj_attrs o !! name = None →
  ∃ msg, get_attributes_loop o names acc = Raise (KeyError msg).
Proof.
  intros Hin Hnone. revert acc.
  induction names as [|n names IH]; intros acc; [by apply elem_of_nil in Hin|].
  cbn [get_attributes_loop]. rewrite get_attr_lookup.
  destruct (obj_attrs o !! n) as [v|] eqn:Hv; [|by eexists].
  apply elem_of_cons in Hin as [->|Hin]; [congruence|]. by apply IH.
Qed.

(** X14: [get_attributes] returns the attributes asked for, as they are
    stored.  Without names it returns every attribute of the object.  With a
    list of names that are all attributes of the object, it returns exactly
    these, each with its value.  With a name that is not an attribute it
    raises [KeyError]. *)
Theorem get_attributes_exact f (h5_object : h5_arg) ref o :
  as_obj f h5_object = Some (ref, o) →
  get_attributes f h5_object NamesNone = Ok (obj_attrs o) ∧
  (∀ names, Forall (λ name, is_Some (obj_attrs o !! name)) names →
     ∃ att_dict, get_attributes f h5_object (NamesList names) = Ok att_dict ∧
       ∀ name, att_dict !! name
               = if bool_decide (name ∈ names) then obj_attrs o !! name else None) ∧
  (∀ names name, name ∈ names → obj_attrs o !! name = None →
     ∃ msg, get_attributes f h5_object (NamesList names) = Raise (KeyError msg)).
Proof.
  intros Ho. unfold get_attributes. rewrite Ho. split; [|split].
  - destruct (get_attributes_loop_Ok o (attrs_keys (obj_attrs o)) ∅) as (att_dict & -> & Hd).
    { apply Forall_forall. intros name ([k v] & -> & Hkv)%list_elem_of_fmap.
      apply elem_of_map_to_list in Hkv. by eexists. }
    f_equal. apply map_eq. intros name. rewrite Hd.
    destruct (bool_decide_reflect (name ∈ attrs_keys (obj_attrs o))) as [Hin|Hin]; [done|].
    rewrite lookup_empty. symmetry. apply eq_None_not_Some. intros [v Hv]. apply Hin.
    apply list_elem_of_fmap. exists (name, v). split; [done|]. by apply elem_of_map_to_list.
  - intros names Hnames.
    destruct (get_attributes_loop_Ok o names ∅ Hnames) as (att_dict & -> & Hd).
    exists att_dict. split; [done|]. intros name. rewrite Hd. by rewrite lookup_empty.
  - intros names name. apply get_attributes_loop_missing.
Qed.

Lemma get_attributes_exact_witness :
  get_attributes unlinked_file (H5Obj 0) NamesNone = Ok (obj_attrs (H5Dataset unlinked_main)) ∧
  (∀ names, Forall (λ name, is_Some (obj_attrs (H5Dataset unlinked_main) !! name)) names →
     ∃ att_dict, get_attributes unlinked_file (H5Obj 0) (NamesList names) = Ok att_dict ∧
       ∀ name, att_dict !! name
               = if bool_decide (name ∈ names)
                 then obj_attrs (H5Dataset unlinked_main) !! name else None) ∧
  (∀ names name, name ∈ names → obj_attrs (H5Dataset unlinked_main) !! name = None →
     ∃ msg, get_attributes unlinked_file (H5Obj 0) (NamesList names) = Raise (KeyError msg)).
Proof.
  apply (get_attributes_exact unlinked_file (H5Obj 0) 0 (H5Dataset unlinked_main)).
  reflexivity.
Defined.

(** ** Further properties of the reshape functions *)

Lemma transpose_arange_column (n : nat) : transpose (arange_column n) = arange_row n.
Proof.
  unfold transpose, arange_column, arange_row, mat_nrows, mat_col.
  cbn [mat_rows mat_ncols seq map]. rewrite length_map, length_arange. do 2 f_equal.
  induction (arange n) as [|x l IH]; [done|]. cbn [map]. csimpl. by rewrite IH.
Qed.

(** A matrix with a single row has a single dimension. *)
Lemma get_sort_order_one_row (n : nat) (row : list Z) :
  0 < n → get_sort_order (Matrix n [row]) = [0].
Proof.
  intros Hn. unfold get_sort_order, change_count, as_spectroscopic, mat_nrows.
  cbn [mat_rows mat_ncols length].
  replace (n <? 1) with false by (symmetry; apply Nat.ltb_ge; lia).
  reflexivity.
Qed.

Lemma unique_ascending (a n : nat) :
  Np.unique (Z.of_nat <$> seq a n) = Z.of_nat <$> seq a n.
Proof.
  revert a. induction n as [|n IH]; intros a; [done|].
  cbn [seq fmap list_fmap]. unfold Np.unique. cbn [foldr].
  fold (Np.unique (Z.of_nat <$> seq (S a) n)). rewrite IH.
  destruct n as [|n]; [done|]. cbn [seq fmap list_fmap Np.insert_unique].
  replace (Z.of_nat a <? Z.of_nat (S a))%Z with true; [done|].
  symmetry. apply Z.ltb_lt. lia.
Qed.

Lemma get_dimensionality_one_row (n : nat) :
  0 < n → get_dimensionality (arange_row n) (Some [0%Z]) = Ok [n].
Proof.
  intros Hn. unfold get_dimensionality, arange_row, as_spectroscopic, mat_nrows.
  cbn [mat_rows mat_ncols length].
  replace (n <? 1) with false by (symmetry; apply Nat.ltb_ge; lia).
  cbn [mat_rows length contains_integers forallb]. 
  change (0 <=? 0)%Z with true. cbn [andb check]. rewrite bind_Ok_l.
  change (1 <? length (Np.unique [0%Z])) with false. cbn [negb check]. rewrite bind_Ok_l.
  rewrite bool_decide_eq_true_2.
  2:{ unfold arange_set. reflexivity. }
  cbn [check]. rewrite !bind_Ok_l.
  change (Z.to_nat <$> [0%Z]) with [0]. cbn [take_rows lookup list_lookup].
  rewrite !bind_Ok_l. cbn [map]. unfold arange.
  by rewrite unique_ascending, length_fmap, length_seq.
Qed.

Lemma identity_offset (r c k : nat) :
  k < r * c →
  sum_list (zip_with (λ i ax, i * nth ax (strides [r; c]) 0) (unravel [r; c] k) [0; 1]) = k.
Proof.
  intros Hk. unfold unravel. cbn [strides Np.prod foldr zip_with nth sum_list].
  rewrite !Nat.mul_1_r, Nat.div_1_r, Nat.add_0_r.
  assert (c ≠ 0) by (intros ->; lia).
  rewrite (Nat.mod_small (k / c) r) by (apply Nat.Div0.div_lt_upper_bound; lia).
  rewrite (Nat.mul_comm (k / c) c). symmetry. apply Nat.div_mod_eq.
Qed.

Lemma omap_ext_in {A B} (f g : A → option B) (l : list A) :
  (∀ x, x ∈ l → f x = g x) → omap f l = omap g l.
Proof.
  intros H. rewrite <- (map_id l) at 1. by apply omap_map_ext.
Qed.

(** Transposing a two-dimensional array by the axes [(0, 1)] leaves it as it
    is. *)
Lemma nd_transpose_identity {A} (a : ndarray A) (r c : nat) :
  nd_shape a = [r; c] → nd_wf a → nd_transpose a [0; 1] = Ok a.
Proof.
  intros Hshape Hwf. unfold nd_transpose, nd_ndim. rewrite Hshape.
  rewrite bool_decide_eq_true_2 by done. cbn [map nth]. f_equal.
  destruct a as [shape flat]. cbn [nd_shape nd_flat] in *. subst shape. f_equal.
  unfold nd_wf, nd_size in Hwf. cbn [nd_shape nd_flat] in Hwf.
  assert (Np.prod [r; c] = r * c) as Hprod by (cbn; lia).
  rewrite Hprod. rewrite Hprod in Hwf.
  transitivity (omap (λ k, flat !! k) (seq 0 (r * c))).
  - apply omap_ext_in. intros k Hk%elem_of_seq.
    by rewrite identity_offset by lia.
  - rewrite <- Hwf. apply (omap_lookup_seq [] flat).
Qed.

Lemma check_reshape_args_arrays {A} (main : ndarray A) (r c : nat) :
  nd_shape main = [r; c] →
  check_reshape_args (MainArray main) (AncArray (arange_column r)) (AncArray (arange_row c))
  = Ok tt.
Proof.
  intros Hshape. unfold check_reshape_args.
  cbn [check anc_shape main_shape]. rewrite Hshape.
  unfold arange_column, arange_row, mat_nrows. cbn [mat_rows mat_ncols].
  rewrite length_map, length_arange.
  cbn [length shape_at lookup list_lookup mbind result_bind].
  rewrite !Nat.eqb_refl. reflexivity.
Qed.

Lemma position_indices_array {A} (main : ndarray A) (r : nat) :
  position_indices (MainArray main) (AncArray (arange_column r))
  = Ok (arange_column r, AttrStrs ["Position Dimension 0"]).
Proof. reflexivity. Qed.

Lemma spectroscopic_indices_array {A} (main : ndarray A) (c : nat) :
  spectroscopic_indices (MainArray main) (AncArray (arange_row c))
  = Ok (arange_row c, AttrStrs ["Spectral Dimension 0"]).
Proof. reflexivity. Qed.

(** X15: the round trip holds in the plain two-dimensional case.  For an
    array of at least two rows and two columns, with one position dimension
    that numbers the rows and one spectroscopic dimension that numbers the
    columns, [reshape_to_n_dims] returns the array as it is with status
    [True] (and the two default labels when asked), and
    [reshape_from_n_dims] returns it again. *)
Theorem reshape_round_trip_two_dimensions {A} (main : ndarray A) (r c : nat)
    (get_labels sort_dims : bool) :
  nd_shape main = [r; c] → nd_wf main → 2 ≤ r → 2 ≤ c →
  reshape_to_n_dims (MainArray main) (AncArray (arange_column r)) (AncArray (arange_row c))
    get_labels sort_dims
  = Ok (main, StatusTrue,
        if get_labels then Some ["Position Dimension 0"; "Spectral Dimension 0"] else None) ∧
  reshape_from_n_dims (DataArray main) (AncArray (arange_column r)) (AncArray (arange_row c))
  = Ok (main, true).
Proof.
  intros Hshape Hwf Hr Hc.
  assert (nd_size main = r * c) as Hsize.
  { unfold nd_size. rewrite Hshape. cbn. lia. }
  assert (length (arange r) = r) as Hlr by apply length_arange.
  assert (length (arange c) = c) as Hlc by apply length_arange.
  split.
  - unfold reshape_to_n_dims.
    rewrite (check_reshape_args_arrays main r c Hshape), bind_Ok_l.
    rewrite position_indices_array, bind_Ok_l. cbv beta iota.
    rewrite spectroscopic_indices_array, bind_Ok_l. cbv beta iota.
    rewrite transpose_arange_column.
    assert (∀ n, 0 < n → get_sort_order (arange_row n) = [0]) as Hsort
      by (intros n Hn; by apply get_sort_order_one_row).
    rewrite !Hsort by lia.
    change (Z.of_nat <$> [0]) with [0%Z].
    rewrite !get_dimensionality_one_row by lia. rewrite !bind_Ok_l.
    cbn [main_data]. rewrite !bind_Ok_l.
    unfold nd_reshape.
    change (reverse [r] ++ reverse [c]) with [r; c].
    replace (Np.prod [r; c] =? nd_size main) with true
      by (symmetry; apply Nat.eqb_eq; rewrite Hsize; cbn; lia).
    assert ({| nd_shape := [r; c]; nd_flat := nd_flat main |} = main) as ->.
    { destruct main as [shape flat]. cbn [nd_shape nd_flat] in *. by subst shape. }
    change (labels_take (AttrStrs ["Position Dimension 0"]) [0])
      with (Ok ["Position Dimension 0"]).
    rewrite bind_Ok_l.
    change (labels_take (AttrStrs ["Spectral Dimension 0"]) [0])
      with (Ok ["Spectral Dimension 0"]).
    rewrite bind_Ok_l.
    assert ((if sort_dims
             then Ok (["Position Dimension 0"] ++ ["Spectral Dimension 0"])
             else labels_iter (AttrStrs ["Position Dimension 0"])
                  ≫= λ p, labels_iter (AttrStrs ["Spectral Dimension 0"])
                  ≫= λ s, Ok (p ++ s))
            = Ok ["Position Dimension 0"; "Spectral Dimension 0"]) as ->
      by by destruct sort_dims.
    rewrite bind_Ok_l.
    change (reverse ["Position Dimension 0"] ++ reverse ["Spectral Dimension 0"])
      with ["Position Dimension 0"; "Spectral Dimension 0"].
    assert (mapM (axis_of ["Position Dimension 0"; "Spectral Dimension 0"])
              ["Position Dimension 0"; "Spectral Dimension 0"] = Ok [0; 1]) as ->
      by (vm_compute; reflexivity).
    rewrite bind_Ok_l, (nd_transpose_identity main r c Hshape Hwf), bind_Ok_l.
    by destruct get_labels.
  - unfold reshape_from_n_dims. cbn [anc_indices].
    replace (nd_ndim main <? 2) with false
      by (unfold nd_ndim; by rewrite Hshape).
    rewrite !bind_Ok_l.
    assert (mat_nrows (arange_column r) = r) as Hnr
      by (unfold arange_column, mat_nrows; cbn [mat_rows]; by rewrite length_map).
    assert (mat_ncols (arange_column r) = 1) as Hnc by done.
    assert (mat_nrows (arange_row c) = 1) as Hsr by done.
    assert (mat_ncols (arange_row c) = c) as Hsc by done.
    assert ((mat_size (arange_column r) =? 1) = false) as Hps.
    { apply Nat.eqb_neq. unfold mat_size. rewrite Hnr, Hnc. lia. }
    assert ((mat_size (arange_row c) =? 1) = false) as Hss.
    { apply Nat.eqb_neq. unfold mat_size. rewrite Hsr, Hsc. lia. }
    rewrite Hnr, Hnc, Hsr, Hsc, Hsize, Nat.eqb_refl. cbn [check]. rewrite bind_Ok_l.
    replace (1 + 1 =? nd_ndim main) with true by (unfold nd_ndim; by rewrite Hshape).
    cbn [negb]. rewrite !bind_Ok_l. cbv beta iota.
    rewrite Hps, Hss, transpose_arange_column.
    assert (∀ n, 0 < n → get_sort_order (arange_row n) = [0]) as Hsort
      by (intros n Hn; by apply get_sort_order_one_row).
    rewrite !Hsort by lia.
    cbn [seq_reversed seq_items length seq_plus_int map]. rewrite bind_Ok_l.
    change (uint16_append (NpArray (reverse [0])) (map (λ x, x + 1) (reverse [0])))
      with [0; 1].
    rewrite (nd_transpose_identity main r c Hshape Hwf), bind_Ok_l.
    rewrite Hnr, Hsc. unfold nd_reshape.
    replace (Np.prod [r; c] =? nd_size main) with true
      by (symmetry; apply Nat.eqb_eq; rewrite Hsize; cbn; lia).
    destruct main as [shape flat]. cbn [nd_shape nd_flat] in *. by subst shape.
Qed.

Lemma reshape_round_trip_two_dimensions_witness :
  reshape_to_n_dims (MainArray main_2_3) (AncArray (arange_column 2)) (AncArray (arange_row 3))
    true false
  = Ok (main_2_3, StatusTrue,
        if true then Some ["Position Dimension 0"; "Spectral Dimension 0"] else None) ∧
  reshape_from_n_dims (DataArray main_2_3) (AncArray (arange_column 2)) (AncArray (arange_row 3))
  = Ok (main_2_3, true).
Proof.
  apply (reshape_round_trip_two_dimensions main_2_3 2 3 true false).
  - reflexivity.
  - reflexivity.
  - lia.
  - lia.
Defined.

(** ** Properties of the order analysis on tiled index matrices *)

Lemma lookup_tile_mod {A} (l : list A) (reps i : nat) :
  i < reps * length l → tile l reps !! i = l !! (i mod length l).
Proof.
  revert i. induction reps as [|reps IH]; intros i Hi; [lia|].
  rewrite tile_S. destruct (decide (i < length l)) as [Hlt|Hge].
  - rewrite lookup_app_l by done. by rewrite Nat.mod_small.
  - rewrite lookup_app_r by lia. rewrite IH by lia.
    f_equal. assert (length l ≠ 0) by lia.
    replace i with ((i - length l) + 1 * length l) at 2 by lia.
    by rewrite Nat.Div0.mod_add.
Qed.

Lemma lookup_repeat_each_div {A} (l : list A) (s i : nat) :
  0 < s → repeat_each l s !! i = l !! (i / s).
Proof.
  intros Hs. revert i. induction l as [|x l IH]; intros i.
  - by rewrite !lookup_nil.
  - unfold repeat_each. rewrite bind_cons. fold (repeat_each l s).
    destruct (decide (i < s)) as [Hlt|Hge].
    + rewrite lookup_app_l by (by rewrite length_replicate).
      rewrite Nat.div_small by done. by rewrite lookup_replicate_2.
    + rewrite lookup_app_r by (rewrite length_replicate; lia).
      rewrite length_replicate, IH.
      replace i with ((i - s) + 1 * s) at 2 by lia.
      rewrite Nat.div_add by lia. by rewrite Nat.add_1_r.
Qed.

Lemma lookup_arange (n j : nat) : j < n → arange n !! j = Some (Z.of_nat j).
Proof.
  intros Hj. unfold arange. rewrite list_lookup_fmap, lookup_seq_lt by done. done.
Qed.

(** The entry at step [i] of the row of a dimension of size [L] that is held
    for [P] steps and tiled [T] times. *)
Lemma lookup_tiled_row (P L T i : nat) :
  0 < P → i < P * L * T →
  tile (repeat_each (arange L) P) T !! i = Some (Z.of_nat ((i mod (P * L)) / P)).
Proof.
  intros HP Hi.
  assert (length (repeat_each (arange L) P) = P * L) as Hlen.
  { rewrite length_repeat_each. unfold arange. rewrite length_fmap, length_seq. lia. }
  assert (P * L ≠ 0) as HM by (intros H0; rewrite H0 in Hi; lia).
  rewrite lookup_tile_mod by (rewrite Hlen; lia).
  rewrite Hlen, lookup_repeat_each_div by done.
  apply lookup_arange. apply Nat.Div0.div_lt_upper_bound.
  apply Nat.mod_upper_bound. done.
Qed.

Lemma tiled_value_changes (P L T i : nat) :
  0 < P → 2 ≤ L → 0 < T → i < P * L * T →
  (i mod (P * L)) / P ≠ ((if i =? 0 then P * L * T - 1 else i - 1) mod (P * L)) / P
  ↔ i mod P = 0.
Proof.
  intros HP HL HT Hi.
  set (M := P * L) in *. assert (0 < M) as HM by (subst M; nia).
  pose proof (Nat.div_mod_eq i M) as Hi1.
  pose proof (Nat.mod_upper_bound i M ltac:(lia)) as Hq.
  set (a := i / M) in *. set (q := i mod M) in *.
  pose proof (Nat.div_mod_eq q P) as Hq1.
  pose proof (Nat.mod_upper_bound q P ltac:(lia)) as Hc.
  set (b := q / P) in *. set (c := q mod P) in *.
  assert (i mod P = c) as ->.
  { symmetry. apply (Nat.mod_unique i P (L * a + b) c); [done|].
    rewrite Hi1 at 1. rewrite Hq1 at 1. subst M. lia. }
  clearbody a q b c.
  assert (M = P * L) as HMeq by done. clearbody M.
  assert (b < L) as Hb by nia.
  assert ((M - 1) / P = L - 1) as Hlast.
  { symmetry. apply (Nat.div_unique (M - 1) P (L - 1) (P - 1)); [lia|]. nia. }
  destruct (Nat.eqb_spec i 0) as [Hi0|Hi0].
  - assert (q = 0 ∧ b = 0 ∧ c = 0) as (Hq0 & Hb0 & Hc0) by nia.
    assert ((M * T - 1) mod M = M - 1) as ->.
    { symmetry. apply (Nat.mod_unique (M * T - 1) M (T - 1) (M - 1)); [lia|]. nia. }
    rewrite Hlast. lia.
  - destruct (decide (c = 0)) as [Hc0|Hc0].
    + split; [done|]. intros _.
      destruct (decide (b = 0)) as [Hb0|Hb0].
      * assert (q = 0) as Hq0 by nia.
        assert ((i - 1) mod M = M - 1) as ->.
        { destruct a as [|a']; [lia|].
          symmetry. apply (Nat.mod_unique (i - 1) M a' (M - 1)); [lia|].
          rewrite Nat.mul_succ_r in Hi1. lia. }
        rewrite Hlast. lia.
      * assert ((i - 1) mod M = q - 1) as ->.
        { symmetry. apply (Nat.mod_unique (i - 1) M a (q - 1)); [lia|]. nia. }
        assert ((q - 1) / P = b - 1) as ->.
        { symmetry. apply (Nat.div_unique (q - 1) P (b - 1) (P - 1)); [lia|]. nia. }
        lia.
    + split; [|done]. intros Hne. exfalso. apply Hne.
      assert ((i - 1) mod M = q - 1) as ->.
      { symmetry. apply (Nat.mod_unique (i - 1) M a (q - 1)); [lia|]. nia. }
      apply (Nat.div_unique (q - 1) P b (c - 1)); [lia|]. nia.
Qed.

(** The test [row[i] != row[i - 1]] for a row given by its entries. *)
Lemma changed_by_entries (row : list Z) (v : nat → Z) (i : nat) :
  (∀ j, j < length row → row !! j = Some (v j)) →
  i < length row →
  changed row i = bool_decide (v i ≠ v (if i =? 0 then length row - 1 else i - 1)).
Proof.
  intros Hrow Hi. unfold changed, Np.py_index.
  replace (Z.of_nat i <? 0)%Z with false by (symmetry; apply Z.ltb_ge; lia).
  rewrite Nat2Z.id, (Hrow i Hi).
  destruct (Nat.eqb_spec i 0) as [->|Hi0].
  - change (Z.of_nat 0 - 1 <? 0)%Z with true.
    replace (Z.of_nat 0 - 1 + Z.of_nat (length row) <? 0)%Z with false
      by (symmetry; apply Z.ltb_ge; lia).
    replace (Z.to_nat (Z.of_nat 0 - 1 + Z.of_nat (length row))) with (length row - 1) by lia.
    rewrite (Hrow (length row - 1)) by lia.
    apply bool_decide_ext. split; intros H; congruence.
  - replace (Z.of_nat i - 1 <? 0)%Z with false by (symmetry; apply Z.ltb_ge; lia).
    replace (Z.to_nat (Z.of_nat i - 1)) with (i - 1) by lia.
    rewrite (Hrow (i - 1)) by lia.
    apply bool_decide_ext. split; intros H; congruence.
Qed.

Lemma filter_none {A} (P : A → Prop) `{∀ x, Decision (P x)} (l : list A) :
  Forall (λ x, ¬ P x) l → filter P l = [].
Proof.
  induction 1 as [|x l Hx _ IH]; [done|]. by rewrite filter_cons_False.
Qed.

(** Among [P * M] consecutive numbers from 0, [M] are multiples of [P]. *)
Lemma count_multiples (P M : nat) :
  0 < P → length (filter (λ i, i mod P = 0) (seq 0 (P * M))) = M.
Proof.
  intros HP. induction M as [|M IH]; [by rewrite Nat.mul_0_r|].
  replace (P * S M) with (P * M + P) by lia.
  rewrite seq_app, filter_app, length_app, IH. cbn [Nat.add].
  assert (length (filter (λ i, i mod P = 0) (seq (P * M) P)) = 1) as ->; [|lia].
  destruct P as [|P]; [lia|]. cbn [seq].
  rewrite filter_cons_True.
  2:{ rewrite Nat.mul_comm. apply Nat.Div0.mod_mul. }
  cbn [length]. f_equal. rewrite filter_none; [done|].
  apply Forall_forall. intros i Hi%elem_of_seq.
  replace i with ((i - S P * M) + M * S P) by lia.
  rewrite Nat.Div0.mod_add, Nat.mod_small by lia. lia.
Qed.

(** A dimension of size [L] (at least 2) that is held for [P] steps and tiled
    [T] times changes [L * T] times, the step from the last entry to the
    first one counted. *)
Lemma change_count_tiled_row (P L T : nat) :
  0 < P → 2 ≤ L → 0 < T →
  change_count_row (tile (repeat_each (arange L) P) T) = L * T.
Proof.
  intros HP HL HT. unfold change_count_row, Np.where_.
  set (row := tile (repeat_each (arange L) P) T).
  assert (length row = P * L * T) as Hlen.
  { subst row. rewrite length_tile, length_repeat_each. unfold arange.
    rewrite length_fmap, length_seq. lia. }
  rewrite (map_ext_in _ (λ i, bool_decide (i mod P = 0))).
  2:{ intros i Hi%list_elem_of_In%elem_of_seq.
      rewrite (changed_by_entries row (λ j, Z.of_nat ((j mod (P * L)) / P))).
      - apply bool_decide_ext. rewrite Hlen.
        rewrite <- (tiled_value_changes P L T i) by lia. split; intros H; [congruence|].
        intros Heq. apply H. by apply Nat2Z.inj.
      - intros j Hj. apply lookup_tiled_row; [done|lia].
      - lia. }
  rewrite length_where_from, Hlen.
  rewrite (list_filter_iff _ (λ i, i mod P = 0)).
  2:{ intros i. by rewrite bool_decide_eq_true. }
  replace (P * L * T) with (P * (L * T)) by lia. by apply count_multiples.
Qed.

(** Sorting keys that fall from one index to the next puts the indices in
    descending order. *)
Lemma argsort_upto_decreasing (key : nat → nat) (n : nat) :
  (∀ i, S i < n → key (S i) < key i) →
  Np.argsort_upto key n = reverse (seq 0 n).
Proof.
  induction n as [|n IH]; intros Hkey; [done|].
  cbn [Np.argsort_upto]. rewrite IH by (intros i Hi; apply Hkey; lia).
  rewrite seq_S, reverse_app. cbn [Nat.add reverse rev_append app].
  change (reverse [n]) with [n]. cbn [app].
  destruct n as [|n]; [done|].
  rewrite seq_S, reverse_app. change (reverse [0 + n]) with [n]. cbn [app Np.insert_index].
  replace (key (S n) <? key n) with true; [done|].
  symmetry. apply Nat.ltb_lt, Hkey. lia.
Qed.

(** The distinct values of a tiled row are the indices of its dimension. *)
Lemma unique_tiled_row (P L T : nat) :
  0 < P → 0 < T →
  length (Np.unique (tile (repeat_each (arange L) P) T)) = L.
Proof.
  intros HP HT.
  set (row := tile (repeat_each (arange L) P) T).
  assert (length row = P * L * T) as Hlen.
  { subst row. rewrite length_tile, length_repeat_each. unfold arange.
    rewrite length_fmap, length_seq. lia. }
  transitivity (length (arange L)); [|apply length_arange].
  apply Permutation_length, NoDup_Permutation.
  - apply unique_NoDup.
  - unfold arange. apply (NoDup_fmap_2 Z.of_nat), NoDup_seq.
  - intros x. rewrite elem_of_unique. unfold arange. rewrite list_elem_of_fmap.
    split.
    + intros [i Hi]%list_elem_of_lookup.
      assert (i < P * L * T) as Hlt by (rewrite <- Hlen; by eapply lookup_lt_Some).
      subst row. rewrite lookup_tiled_row in Hi by done. injection Hi as <-.
      eexists. split; [done|]. apply elem_of_seq.
      assert (P * L ≠ 0) by (intros H0; rewrite H0 in Hlt; lia).
      split; [lia|]. cbn. apply Nat.Div0.div_lt_upper_bound.
      by apply Nat.mod_upper_bound.
    + intros (j & -> & Hj%elem_of_seq). apply list_elem_of_lookup. exists (j * P).
      assert (j * P < P * L) as H1 by nia.
      assert (P * L * 1 ≤ P * L * T) as H2 by (apply Nat.mul_le_mono_l; lia).
      subst row. rewrite lookup_tiled_row by lia.
      rewrite Nat.mod_small by lia. by rewrite Nat.div_mul by lia.
Qed.

Lemma tiled_indices_wf (num_steps : list nat) : mat_wf (tiled_indices num_steps).
Proof.
  unfold mat_wf, tiled_indices. cbn [mat_rows mat_ncols].
  apply Forall_forall. intros row [i Hi]%list_elem_of_lookup.
  rewrite list_lookup_imap in Hi.
  destruct (num_steps !! i) as [n|] eqn:Hn; [|done]. injection Hi as <-.
  apply length_tile_row. by rewrite length_arange.
Qed.

Lemma prod_sublists (l : list nat) (i : nat) :
  Forall (λ n, 2 ≤ n) l → 0 < Np.prod (take i l) ∧ 0 < Np.prod (drop i l).
Proof.
  intros Hl. split; apply prod_pos.
  - eapply Forall_impl; [by apply Forall_take|]. cbn. lia.
  - eapply Forall_impl; [by apply Forall_drop|]. cbn. lia.
Qed.

Lemma make_indices_matrix_tiled (num_steps : list nat) (is_position : bool) :
  num_steps ≠ [] → Forall (λ n, 2 ≤ n) num_steps →
  make_indices_matrix num_steps is_position
  = Ok (if is_position then transpose (tiled_indices num_steps) else tiled_indices num_steps).
Proof.
  intros Hne Hl. unfold make_indices_matrix.
  rewrite (bool_decide_eq_false_2 _ Hne). cbn [negb check]. rewrite bind_Ok_l.
  assert (forallb (λ n, 2 <=? n) num_steps = true) as ->.
  { apply forallb_forall. intros n Hn%list_elem_of_In.
    rewrite Forall_forall in Hl. apply Nat.leb_le. by apply Hl. }
  rewrite orb_true_r. cbn [check]. by rewrite bind_Ok_l.
Qed.

Lemma as_spectroscopic_tiled (num_steps : list nat) (is_position : bool) :
  Forall (λ n, 2 ≤ n) num_steps →
  as_spectroscopic (if is_position then transpose (tiled_indices num_steps)
                    else tiled_indices num_steps)
  = tiled_indices num_steps.
Proof.
  intros Hl. pose proof (prod_above_length num_steps Hl) as Hlt.
  assert (mat_nrows (tiled_indices num_steps) = length num_steps) as Hr.
  { unfold tiled_indices, mat_nrows. cbn [mat_rows]. by rewrite length_imap. }
  assert (mat_ncols (tiled_indices num_steps) = Np.prod num_steps) as Hc by done.
  unfold as_spectroscopic. destruct is_position.
  - destruct (transpose_shape (tiled_indices num_steps)) as [-> ->].
    rewrite Hr, Hc. apply Nat.ltb_lt in Hlt. rewrite Hlt.
    apply transpose_involutive, tiled_indices_wf.
  - rewrite Hr, Hc. replace (Np.prod num_steps <? length num_steps) with false; [done|].
    symmetry. apply Nat.ltb_ge. lia.
Qed.

Lemma change_count_tiled (num_steps : list nat) (i : nat) :
  Forall (λ n, 2 ≤ n) num_steps → i < length num_steps →
  nth i (map change_count_row (mat_rows (tiled_indices num_steps))) 0
  = Np.prod (drop i num_steps).
Proof.
  intros Hl Hi. destruct (lookup_lt_is_Some_2 num_steps i Hi) as [n Hn].
  apply nth_lookup_Some with (d := 0) in Hn as Hnth.
  change (map ?f ?l) with (f <$> l).
  erewrite nth_lookup_Some; [done|].
  unfold tiled_indices. cbn [mat_rows].
  rewrite list_lookup_fmap, list_lookup_imap, Hn. cbn [fmap option_fmap option_map].
  f_equal. unfold tile_row.
  destruct (prod_sublists num_steps i Hl) as [HP _].
  destruct (prod_sublists num_steps (S i) Hl) as [_ HT].
  rewrite change_count_tiled_row; [|done| |done].
  2:{ rewrite Forall_forall in Hl. apply Hl. by eapply list_elem_of_lookup_2. }
  by rewrite (drop_S _ _ _ Hn).
Qed.

(** X16: the order analysis reads a tiled index matrix correctly.  For
    dimension sizes that are all at least 2, listed from the fastest to the
    slowest, the index matrix of [make_indices_matrix], in either
    orientation, is found by [get_sort_order] to have its dimensions in the
    order [0, 1, ..., k-1], and by [get_dimensionality] to have the given
    sizes. *)
Theorem tiled_indices_analysed (num_steps : list nat) (is_position : bool) :
  num_steps ≠ [] → Forall (λ n, 2 ≤ n) num_steps →
  ∃ indices,
    make_indices_matrix num_steps is_position = Ok indices ∧
    get_sort_order indices = seq 0 (length num_steps) ∧
    get_dimensionality indices None = Ok num_steps.
Proof.
  intros Hne Hl. eexists. split; [by apply make_indices_matrix_tiled|].
  assert (mat_nrows (tiled_indices num_steps) = length num_steps) as Hr.
  { unfold tiled_indices, mat_nrows. cbn [mat_rows]. by rewrite length_imap. }
  split.
  - unfold get_sort_order, change_count. rewrite (as_spectroscopic_tiled _ _ Hl).
    unfold Np.argsort. rewrite length_map. fold (mat_nrows (tiled_indices num_steps)).
    rewrite Hr, argsort_upto_decreasing; [by rewrite reverse_involutive|].
    intros i Hi. rewrite !change_count_tiled by (done || lia).
    destruct (lookup_lt_is_Some_2 num_steps i) as [n Hn]; [lia|].
    rewrite (drop_S _ _ _ Hn). cbn [Np.prod foldr].
    fold (Np.prod (drop (S i) num_steps)).
    destruct (prod_sublists num_steps (S i) Hl) as [_ HT].
    assert (2 ≤ n) by (rewrite Forall_forall in Hl; apply Hl; by eapply list_elem_of_lookup_2).
    nia.
  - unfold get_dimensionality. rewrite (as_spectroscopic_tiled _ _ Hl), bind_Ok_l.
    unfold mat_nrows.
    pose proof (take_rows_suffix [] (mat_rows (tiled_indices num_steps))) as Hrows.
    cbn [app length] in Hrows. rewrite Hrows, bind_Ok_l. f_equal.
    apply list_eq. intros i. change (map ?f ?l) with (f <$> l).
    unfold tiled_indices. cbn [mat_rows]. rewrite list_lookup_fmap, list_lookup_imap.
    destruct (num_steps !! i) as [n|] eqn:Hn; [|done].
    cbn [fmap option_fmap option_map]. f_equal. unfold tile_row.
    destruct (prod_sublists num_steps i Hl) as [HP _].
    destruct (prod_sublists num_steps (S i) Hl) as [_ HT].
    by apply unique_tiled_row.
Qed.

Lemma tiled_indices_analysed_witness :
  ∃ indices,
    make_indices_matrix [5; 3] true = Ok indices ∧
    get_sort_order indices = seq 0 (length [5; 3]) ∧
    get_dimensionality indices None = Ok [5; 3].
Proof.
  apply (tiled_indices_analysed [5; 3] true).
  - discriminate.
  - repeat constructor; lia.
Defined.

(** ** Properties of the Python strings *)

Lemma append_cons (c : ascii) (s1 s2 : string) :
  String c s1 +:+ s2 = String c (s1 +:+ s2).
Proof. reflexivity. Qed.

Lemma string_forall_app p s1 s2 :
  string_forall p (s1 +:+ s2) = string_forall p s1 && string_forall p s2.
Proof.
  induction s1 as [|c s1 IH]; [done|].
  rewrite append_cons. cbn [string_forall]. by rewrite IH, andb_assoc.
Qed.

Lemma string_forall_impl (p q : ascii → bool) s :
  (∀ c, p c = true → q c = true) → string_forall p s = true → string_forall q s = true.
Proof.
  intros Hpq. induction s as [|c s IH]; [done|]. cbn.
  intros [Hc Hs]%andb_prop. by rewrite (Hpq c Hc), IH.
Qed.

Lemma startswith_app (prefix s : string) : startswith (prefix +:+ s) prefix = true.
Proof.
  induction prefix as [|c prefix IH]; [by destruct s|].
  rewrite append_cons. cbn [startswith]. by rewrite bool_decide_eq_true_2, IH.
Qed.

Lemma startswith_without_underscore (s old : string) :
  endswith_char old "_" = true → string_forall not_underscore s = true →
  startswith s old = false.
Proof.
  revert s. induction old as [|c old IH]; intros s Hend Hs; [done|].
  destruct s as [|d s]; [done|]. cbn in Hs. apply andb_prop in Hs as [Hd Hs].
  cbn [startswith]. destruct old as [|c' old].
  - cbn in Hend. apply bool_decide_eq_true in Hend as ->.
    unfold not_underscore in Hd. apply negb_true_iff, bool_decide_eq_false in Hd.
    rewrite bool_decide_eq_false_2; [done|congruence].
  - rewrite (IH s); [apply andb_false_r|done|done].
Qed.

Lemma remove_from_without_underscore (s old : string) :
  endswith_char old "_" = true → string_forall not_underscore s = true →
  remove_from 0 s old = s.
Proof.
  intros Hend. induction s as [|c s IH]; intros Hs; [done|].
  cbn [remove_from]. rewrite startswith_without_underscore by done.
  cbn in Hs. apply andb_prop in Hs as [_ Hs]. by rewrite IH.
Qed.

Lemma remove_from_skip (p rest old : string) :
  remove_from (String.length p) (p +:+ rest) old = remove_from 0 rest old.
Proof.
  induction p as [|c p IH]; [done|].
  rewrite append_cons. cbn [String.length remove_from]. apply IH.
Qed.

(** Removing a prefix that ends in an underscore from a name whose rest has
    no underscore leaves the rest. *)
Lemma str_remove_prefix (old rest : string) :
  endswith_char old "_" = true → string_forall not_underscore rest = true →
  str_remove (old +:+ rest) old = rest.
Proof.
  intros Hend Hrest. unfold str_remove.
  destruct old as [|c old]; [done|].
  rewrite bool_decide_eq_false_2 by done.
  rewrite append_cons. cbn [remove_from]. rewrite <- append_cons, startswith_app.
  replace (String.length (String c old) - 1) with (String.length old)
    by (cbn [String.length]; lia).
  rewrite remove_from_skip. by apply remove_from_without_underscore.
Qed.

Lemma digit_of_pretty_N_char (d : N) :
  (d < 10)%N → digit_of (pretty_N_char d) = Some (Z.of_N d).
Proof.
  intros Hd.
  assert (d = 0 ∨ d = 1 ∨ d = 2 ∨ d = 3 ∨ d = 4 ∨ d = 5 ∨ d = 6 ∨ d = 7 ∨ d = 8 ∨ d = 9)%N
    as Hcases by lia.
  repeat (destruct Hcases as [->|Hcases]; [reflexivity|]). by subst d.
Qed.

Lemma is_digit_pretty_N_char (d : N) : is_digit (pretty_N_char d) = true.
Proof. unfold pretty_N_char. by repeat case_match. Qed.

Lemma parse_digits_pretty_N_go (x : N) (s : string) (b : bool) :
  (0 < x)%N →
  parse_digits 0 b (pretty_N_go x s) = parse_digits (Z.of_N x) true s.
Proof.
  revert s b. induction (N.lt_wf_0 x) as [x _ IH]; intros s b Hx.
  rewrite pretty_N_go_step by done.
  assert (x `mod` 10 < 10)%N as Hd by (apply N.mod_lt; lia).
  destruct (decide (x `div` 10 = 0)%N) as [H0|H0].
  - rewrite H0, pretty_N_go_0. cbn [parse_digits].
    rewrite digit_of_pretty_N_char by done.
    f_equal. rewrite N.Div0.mod_eq, H0. lia.
  - rewrite IH; [|by apply N.div_lt|by apply N.neq_0_lt_0]. cbn [parse_digits].
    rewrite digit_of_pretty_N_char by done.
    f_equal. pose proof (N.div_mod x 10). lia.
Qed.

Lemma string_forall_pretty_N_go (p : ascii → bool) (x : N) (s : string) :
  (∀ d, p (pretty_N_char d) = true) → string_forall p s = true →
  string_forall p (pretty_N_go x s) = true.
Proof.
  intros Hp. revert s. induction (N.lt_wf_0 x) as [x _ IH]; intros s Hs.
  destruct (decide (0 < x)%N) as [Hx|Hx].
  - rewrite pretty_N_go_step by done. apply IH; [apply N.div_lt; lia|].
    cbn. by rewrite Hp, Hs.
  - replace x with 0%N by lia. by rewrite pretty_N_go_0.
Qed.

Lemma parse_digits_pretty (n : N) (b : bool) :
  parse_digits 0 b (pretty n) = Some (Z.of_N n).
Proof.
  unfold pretty, pretty_N. destruct (decide (n = 0%N)) as [->|Hn]; [done|].
  rewrite parse_digits_pretty_N_go by lia. done.
Qed.

Lemma is_digit_pretty (n : N) : string_forall is_digit (pretty n) = true.
Proof.
  unfold pretty, pretty_N. destruct (decide (n = 0%N)) as [->|Hn]; [done|].
  apply string_forall_pretty_N_go; [apply is_digit_pretty_N_char|done].
Qed.

Lemma parse_digits_zfill (width : nat) (digits : string) (z : Z) (b : bool) :
  (∀ b, parse_digits 0 b digits = Some z) →
  parse_digits 0 b (zfill width digits) = Some z.
Proof.
  intros Hd. unfold zfill. revert b.
  induction (width - String.length digits) as [|k IH]; intros b; [apply Hd|].
  cbn [zeros_string]. rewrite append_cons. cbn [parse_digits].
  change (digit_of "0") with (Some 0%Z). apply IH.
Qed.

Lemma is_digit_zfill (width : nat) (digits : string) :
  string_forall is_digit digits = true → string_forall is_digit (zfill width digits) = true.
Proof.
  intros Hd. unfold zfill. rewrite string_forall_app, Hd, andb_true_r.
  induction (width - String.length digits) as [|k IH]; [done|]. apply IH.
Qed.

Lemma int_rstrip_without_space (s : string) :
  string_forall (λ c, negb (int_space c)) s = true → int_rstrip s = s.
Proof.
  induction s as [|c s IH]; [done|]. cbn. intros [Hc Hs]%andb_prop.
  rewrite IH by done. apply negb_true_iff in Hc. rewrite Hc. by destruct s.
Qed.

Lemma int_strip_without_space (s : string) :
  string_forall (λ c, negb (int_space c)) s = true → int_rstrip (int_lstrip s) = s.
Proof.
  intros Hs.
  assert (int_lstrip s = s) as ->; [|by apply int_rstrip_without_space].
  destruct s as [|c s]; [done|]. cbn in *.
  apply andb_prop in Hs as [Hc _]. apply negb_true_iff in Hc. by rewrite Hc.
Qed.

Lemma is_digit_not_space (c : ascii) : is_digit c = true → negb (int_space c) = true.
Proof.
  unfold is_digit, int_space. cbn zeta.
  intros [H1 H2]%andb_prop. apply Nat.leb_le in H1, H2.
  apply negb_true_iff, orb_false_iff. split.
  - apply andb_false_iff. right. apply Nat.leb_gt. lia.
  - apply Nat.eqb_neq. lia.
Qed.

Lemma is_digit_not_underscore (c : ascii) : is_digit c = true → not_underscore c = true.
Proof.
  unfold is_digit, not_underscore. cbn zeta.
  intros [H1 H2]%andb_prop. apply Nat.leb_le in H1, H2.
  apply negb_true_iff, bool_decide_eq_false. intros ->.
  change (nat_of_ascii "_") with 95 in H2. lia.
Qed.

Lemma int_literal_digits (s : string) (z : Z) :
  string_forall is_digit s = true → parse_digits 0 false s = Some z → int_literal s = Some z.
Proof.
  intros Hs Hp. unfold int_literal.
  rewrite int_strip_without_space
    by (eapply string_forall_impl; [apply is_digit_not_space|done]).
  destruct s as [|c s]; [done|]. cbn in Hs. apply andb_prop in Hs as [Hc _].
  rewrite !bool_decide_eq_false_2, Hp; [done|..]; intros ->; done.
Qed.

Lemma int_literal_minus_digits (s : string) (z : Z) :
  string_forall is_digit s = true → parse_digits 0 false s = Some z →
  int_literal ("-" +:+ s) = Some (- z)%Z.
Proof.
  intros Hs Hp. unfold int_literal.
  rewrite int_strip_without_space.
  2:{ rewrite append_cons. cbn [string_forall].
      change (negb (int_space "-")) with true. cbn [andb].
      eapply string_forall_impl; [apply is_digit_not_space|done]. }
  rewrite append_cons. rewrite bool_decide_eq_true_2 by done.
  change (EmptyString +:+ s) with s. by rewrite Hp.
Qed.

Lemma int_literal_format_03d (index : Z) : int_literal (format_03d index) = Some index.
Proof.
  unfold format_03d. destruct (Z.ltb_spec index 0) as [Hneg|Hpos].
  - replace index with (- Z.of_N (Z.to_N (- index)))%Z at 2 by lia.
    apply int_literal_minus_digits.
    + apply is_digit_zfill, is_digit_pretty.
    + apply parse_digits_zfill. intros b. apply parse_digits_pretty.
  - replace index with (Z.of_N (Z.to_N index)) at 2 by lia.
    apply int_literal_digits.
    + apply is_digit_zfill, is_digit_pretty.
    + apply parse_digits_zfill. intros b. apply parse_digits_pretty.
Qed.

Lemma count_digits_length (s : string) : count_digits s ≤ String.length s.
Proof.
  induction s as [|c s IH]; [done|]. cbn [count_digits String.length].
  destruct (digit_of c); lia.
Qed.

Lemma length_append (s1 s2 : string) :
  String.length (s1 +:+ s2) = String.length s1 + String.length s2.
Proof. induction s1 as [|c s1 IH]; [done|]. rewrite append_cons. cbn. by rewrite IH. Qed.

Lemma length_zeros_string (n : nat) : String.length (zeros_string n) = n.
Proof. induction n as [|n IH]; [done|]. cbn. by rewrite IH. Qed.

Lemma length_pretty_N_go (k : nat) (x : N) (s : string) :
  (x < 10 ^ N.of_nat k)%N → String.length (pretty_N_go x s) ≤ String.length s + k.
Proof.
  revert x s. induction k as [|k IH]; intros x s Hx.
  - replace x with 0%N by (cbn in Hx; lia). rewrite pretty_N_go_0. lia.
  - destruct (decide (x = 0)%N) as [->|Hx0]; [rewrite pretty_N_go_0; lia|].
    rewrite pretty_N_go_step by lia.
    etrans; [apply IH|cbn [String.length]; lia].
    rewrite Nat2N.inj_succ, N.pow_succ_r' in Hx.
    apply N.Div0.div_lt_upper_bound. lia.
Qed.

Lemma length_pretty (n : N) : (n < 10 ^ 20)%N → String.length (pretty n) ≤ 20.
Proof.
  intros Hn. unfold pretty, pretty_N. destruct (decide (n = 0%N)) as [->|Hn0]; [cbn; lia|].
  etrans; [apply (length_pretty_N_go 20); exact Hn|]. cbn [String.length]. lia.
Qed.

Lemma length_format_03d (index : Z) :
  (- 2 ^ 63 ≤ index < 2 ^ 63)%Z → String.length (format_03d index) ≤ 21.
Proof.
  intros Hrange. unfold format_03d, zfill. destruct (Z.ltb_spec index 0) as [Hneg|Hpos].
  - rewrite append_cons. cbn [String.length].
    change (EmptyString +:+ ?s) with s.
    rewrite length_append, length_zeros_string.
    pose proof (length_pretty (Z.to_N (- index))) as Hlen.
    assert (Z.to_N (- index) < 10 ^ 20)%N as Hn by lia. specialize (Hlen Hn). lia.
  - rewrite length_append, length_zeros_string.
    pose proof (length_pretty (Z.to_N index)) as Hlen.
    assert (Z.to_N index < 10 ^ 20)%N as Hn by lia. specialize (Hlen Hn). lia.
Qed.

(** Reading back what ['{:03d}'.format(index)] has written gives the
    index. *)
Lemma py_int_format_03d (index : Z) :
  (- 2 ^ 63 ≤ index < 2 ^ 63)%Z → py_int (format_03d index) = Ok index.
Proof.
  intros Hrange. unfold py_int. rewrite int_literal_format_03d.
  pose proof (count_digits_length (format_03d index)).
  pose proof (length_format_03d index Hrange).
  destruct (Z.ltb_spec 4300 (Z.of_nat (count_digits (format_03d index)))); [lia|done].
Qed.

Lemma py_int_raises_ValueError (s : string) (e : exn) :
  py_int s = Raise e → ∃ msg, e = ValueError msg.
Proof.
  unfold py_int. destruct (int_literal s); [|intros [= <-]; by eexists].
  destruct (4300 <? _)%Z; [intros [= <-]; by eexists|done].
Qed.

Lemma format_03d_without_underscore (index : Z) :
  string_forall not_underscore (format_03d index) = true.
Proof.
  unfold format_03d. destruct (index <? 0)%Z.
  - rewrite append_cons. cbn [string_forall].
    change (not_underscore "-") with true. cbn [andb].
    eapply string_forall_impl; [apply is_digit_not_underscore|].
    apply is_digit_zfill, is_digit_pretty.
  - eapply string_forall_impl; [apply is_digit_not_underscore|].
    apply is_digit_zfill, is_digit_pretty.
Qed.

(** ** Properties of [assign_group_index] *)

Lemma endswith_char_app_underscore (s : string) : endswith_char (s +:+ "_") "_" = true.
Proof.
  induction s as [|c s IH]; [done|].
  rewrite append_cons. cbn [endswith_char]. rewrite IH.
  destruct (s +:+ "_") eqn:Hs; [|done]. by destruct s.
Qed.

Lemma endswith_char_with_underscore (base_name : string) :
  endswith_char (with_underscore base_name) "_" = true.
Proof.
  unfold with_underscore. destruct (endswith_char base_name "_") eqn:He; [done|].
  apply endswith_char_app_underscore.
Qed.

Lemma foldr_max_bounds (x : Z) (rest : list Z) :
  Forall (λ z, (z ≤ foldr Z.max x rest)%Z) (x :: rest) ∧ foldr Z.max x rest ∈ x :: rest.
Proof.
  induction rest as [|y rest [IH1 IH2]].
  - split; [by repeat constructor|left].
  - cbn [foldr]. split.
    + apply Forall_cons in IH1 as [Hx Hrest]. constructor; [lia|]. constructor; [lia|].
      eapply Forall_impl; [exact Hrest|]. cbn. lia.
    + destruct (Z.max_spec y (foldr Z.max x rest)) as [[_ ->]|[_ ->]].
      * apply elem_of_cons in IH2 as [->|IH2]; [left|right; by right].
      * right. left.
Qed.

Lemma next_index_range (indices : list Z) :
  Forall (λ z, (- 2 ^ 63 ≤ z < 2 ^ 63 - 1)%Z) indices →
  (- 2 ^ 63 ≤ next_index indices < 2 ^ 63)%Z.
Proof.
  intros Hrange. destruct indices as [|x rest]; [cbn; lia|]. cbn [next_index].
  destruct (foldr_max_bounds x rest) as [_ Hin].
  rewrite Forall_forall in Hrange. apply Hrange in Hin. lia.
Qed.

Lemma int64_succ_in_range (z : Z) :
  (- 2 ^ 63 ≤ z < 2 ^ 63 - 1)%Z → int64_succ z = (z + 1)%Z.
Proof. intros Hz. unfold int64_succ. rewrite Z.mod_small; lia. Qed.

Lemma assign_group_index_Ok (g : h5group) (base_name : string) (indices : list Z) :
  base_name ≠ EmptyString →
  previous_indices g (with_underscore base_name) = Ok indices →
  Forall (λ z, (- 2 ^ 63 ≤ z < 2 ^ 63 - 1)%Z) indices →
  assign_group_index (IsH5Group g) base_name
  = Ok (with_underscore base_name +:+ format_03d (next_index indices)).
Proof.
  intros Hne Hprev Hrange.
  unfold assign_group_index. rewrite (bool_decide_eq_false_2 _ Hne).
  cbn [negb check]. rewrite bind_Ok_l, Hprev, bind_Ok_l.
  destruct indices as [|x rest]; [done|]. cbn [next_index].
  rewrite int64_succ_in_range; [done|].
  destruct (foldr_max_bounds x rest) as [_ Hin].
  rewrite Forall_forall in Hrange. by apply Hrange.
Qed.

(** X17: the name that [assign_group_index] returns is new among the groups.
    When the names of the groups of the parent that start with the base name
    (with its closing underscore) all yield an index, and these indices are
    in the range of [int64] and below its largest value, then the function
    returns the base name followed by the next index, written with at least
    three digits: 0 when there is no such group, one more than the largest
    index otherwise; this index is above all the indices found, and no group
    of the parent has the name returned. *)
Theorem assign_group_index_fresh (g : h5group) (base_name : string) (indices : list Z) :
  base_name ≠ EmptyString →
  previous_indices g (with_underscore base_name) = Ok indices →
  Forall (λ z, (- 2 ^ 63 ≤ z < 2 ^ 63 - 1)%Z) indices →
  assign_group_index (IsH5Group g) base_name
  = Ok (with_underscore base_name +:+ format_03d (next_index indices)) ∧
  Forall (λ z, (z < next_index indices)%Z) indices ∧
  h5g_members g !! (with_underscore base_name +:+ format_03d (next_index indices))
  ≠ Some SubGroup.
Proof.
  intros Hne Hprev Hrange.
  assert (Forall (λ z, (z < next_index indices)%Z) indices) as Habove.
  { destruct indices as [|x rest]; [constructor|]. cbn [next_index].
    destruct (foldr_max_bounds x rest) as [Hle _].
    eapply Forall_impl; [exact Hle|]. cbn. lia. }
  split; [by apply assign_group_index_Ok|]. split; [done|].
  intros Hgroup.
  set (name := with_underscore base_name +:+ format_03d (next_index indices)) in *.
  unfold previous_indices in Hprev. apply mapM_Ok_Forall2 in Hprev.
  assert (name ∈ filter (λ item_name, h5g_members g !! item_name = Some SubGroup ∧
                           startswith item_name (with_underscore base_name) = true)
                   (map_to_list (h5g_members g)).*1) as Hin.
  { apply list_elem_of_filter. split; [split; [done|apply startswith_app]|].
    apply list_elem_of_fmap. exists (name, SubGroup). split; [done|].
    by apply elem_of_map_to_list. }
  apply list_elem_of_lookup in Hin as [k Hk].
  destruct (Forall2_lookup_l _ _ _ _ _ Hprev Hk) as (z & Hz & Hparse).
  subst name. rewrite str_remove_prefix in Hparse
    by (apply endswith_char_with_underscore || apply format_03d_without_underscore).
  rewrite py_int_format_03d in Hparse by (by apply next_index_range).
  injection Hparse as <-.
  rewrite Forall_forall in Habove.
  apply list_elem_of_lookup_2, Habove in Hz. lia.
Qed.

Lemma assign_group_index_fresh_witness :
  assign_group_index (IsH5Group measurement_group) "Channel"
  = Ok (with_underscore "Channel" +:+ format_03d (next_index [1; 0]%Z)) ∧
  Forall (λ z, (z < next_index [1; 0]%Z)%Z) [1; 0]%Z ∧
  h5g_members measurement_group !! (with_underscore "Channel" +:+ format_03d (next_index [1; 0]%Z))
  ≠ Some SubGroup.
Proof.
  apply (assign_group_index_fresh measurement_group "Channel" [1; 0]%Z).
  - discriminate.
  - vm_compute. reflexivity.
  - repeat constructor; lia.
Defined.







Lemma mapM_Raise {A B} (f : A → result B) (l : list A) (x : A) :
  x ∈ l → raises (f x) → ∃ y, y ∈ l ∧ raises (f y) ∧
                              ∃ e, f y = Raise e ∧ mapM f l = Raise e.
Proof.
  induction l as [|a l IH]; intros Hin Hx; [by apply elem_of_nil in Hin|].
  destruct (f a) as [b|e] eqn:Ha.
  - apply elem_of_cons in Hin as [->|Hin]; [by rewrite Ha in Hx|].
    destruct (IH Hin Hx) as (y & Hy & Hry & e & Hfy & He).
    exists y. split; [by right|]. split; [done|]. exists e. split; [done|].
    cbn [mapM]. by rewrite Ha, bind_Ok_l, He.
  - exists a. split; [left|]. rewrite Ha. split; [done|]. exists e. split; [done|].
    cbn [mapM]. by rewrite Ha.
Qed.

(** X19: a group whose name starts with the base name but does not go on
    with an integer stops [assign_group_index]: when the parent has a group
    with an ASCII name that starts with the base name (with its closing
    underscore), and what is left of this name once every occurrence of the
    base name is removed is not an integer literal, the call raises a
    [ValueError], the one of [int]. *)
Theorem assign_group_index_other_suffix_raises (g : h5group) (base_name item_name : string) :
  base_name ≠ EmptyString →
  h5g_members g !! item_name = Some SubGroup →
  startswith item_name (with_underscore base_name) = true →
  string_forall is_ascii item_name = true →
  int_literal (str_remove item_name (with_underscore base_name)) = None →
  ∃ msg, assign_group_index (IsH5Group g) base_name = Raise (ValueError msg).
Proof.
  intros Hne Hgroup Hstart _ Hliteral.
  unfold assign_group_index. rewrite (bool_decide_eq_false_2 _ Hne).
  cbn [negb check]. rewrite bind_Ok_l. unfold previous_indices.
  edestruct (mapM_Raise (λ item_name, py_int (str_remove item_name (with_underscore base_name))))
    as (y & _ & _ & e & Hy & ->); [|by (unfold py_int; rewrite Hliteral)|].
  - apply list_elem_of_filter. split; [by split|].
    apply list_elem_of_fmap. exists (item_name, SubGroup). split; [done|].
    by apply elem_of_map_to_list.
  - cbn beta in Hy. apply py_int_raises_ValueError in Hy as [msg ->]. by exists msg.
Qed.

Lemma assign_group_index_other_suffix_raises_witness :
  ∃ msg, assign_group_index (IsH5Group results_parent) "Fit" = Raise (ValueError msg).
Proof.
  apply (assign_group_index_other_suffix_raises results_parent "Fit" "Fit_old").
  - discriminate.
  - vm_compute. reflexivity.
  - vm_compute. reflexivity.
  - vm_compute. reflexivity.
  - vm_compute. reflexivity.
Defined.

(** ** Properties of the functions that copy attributes *)

Lemma with_attrs_id f r o : objects f !! r = Some o → with_attrs f r o (obj_attrs o) = f.
Proof.
  intros Hr. unfold with_attrs. destruct f as [objs ps]. cbn [objects paths] in *.
  f_equal. rewrite insert_id; [done|]. rewrite Hr. by destruct o as [[]|].
Qed.

Lemma attrs_setitem_with_attrs f r o attrs name v :
  name ≠ EmptyString →
  attrs_setitem (with_attrs f r o attrs) r name v = Ok (with_attrs f r o (<[name := v]> attrs)).
Proof.
  intros Hne. unfold attrs_setitem. rewrite with_attrs_lookup, decide_True by done.
  rewrite bool_decide_eq_false_2 by done.
  rewrite obj_attrs_with_attrs, obj_with_attrs_twice. f_equal.
  unfold with_attrs. cbn [objects paths]. by rewrite insert_insert_eq.
Qed.

Lemma copy_attributes_loop_Ok clean_string_att cleaned f s d os od skip_refs names attrs :
  s ≠ d →
  objects f !! s = Some os →
  Forall (λ name, name ≠ EmptyString ∧ is_Some (obj_attrs os !! name)) names →
  (∀ name v, obj_attrs os !! name = Some v → is_reference v = false →
             clean_string_att v = Ok (cleaned v)) →
  ∃ attrs',
    copy_attributes_loop clean_string_att (with_attrs f d od attrs) s d skip_refs names
    = Ok (with_attrs f d od attrs') ∧
    ∀ name, attrs' !! name
            = if bool_decide (name ∈ names)
              then match obj_attrs os !! name
                         ≫= copy_of cleaned (skip_refs || is_h5_dataset od) with
                   | Some v => Some v
                   | None => attrs !! name
                   end
              else attrs !! name.
Proof.
  intros Hsd Hs Hnames Hclean. revert attrs.
  induction Hnames as [|n names [Hne [v Hv]] _ IH]; intros attrs.
  - exists attrs. split; [done|]. intros name.
    by rewrite bool_decide_eq_false_2 by apply not_elem_of_nil.
  - cbn [copy_attributes_loop]. unfold deref.
    rewrite (with_attrs_lookup f d od attrs s), decide_False, Hs, bind_Ok_l by done.
    rewrite (with_attrs_lookup f d od attrs d), decide_True, bind_Ok_l by done.
    rewrite get_attr_lookup, Hv, bind_Ok_l, is_h5_dataset_with_attrs.
    assert (∀ attrs1 : gmap string attr,
      (attrs1 !! n = match copy_of cleaned (skip_refs || is_h5_dataset od) v with
                     | Some c => Some c
                     | None => attrs !! n
                     end) →
      (∀ name, name ≠ n → attrs1 !! name = attrs !! name) →
      ∃ attrs',
        copy_attributes_loop clean_string_att (with_attrs f d od attrs1) s d skip_refs names
        = Ok (with_attrs f d od attrs') ∧
        ∀ name, attrs' !! name
                = if bool_decide (name ∈ n :: names)
                  then match obj_attrs os !! name
                             ≫= copy_of cleaned (skip_refs || is_h5_dataset od) with
                       | Some v => Some v
                       | None => attrs !! name
                       end
                  else attrs !! name) as Hstep.
    { intros attrs1 Hn Hother. destruct (IH attrs1) as (attrs' & -> & Hattrs').
      exists attrs'. split; [done|]. intros name. rewrite Hattrs'.
      destruct (decide (name = n)) as [->|Hnn].
      - rewrite (bool_decide_eq_true_2 (n ∈ n :: names)) by left.
        rewrite Hv. cbn [mbind option_bind]. rewrite Hn.
        destruct (bool_decide (n ∈ names)); [|done].
        by destruct (copy_of cleaned (skip_refs || is_h5_dataset od) v).
      - rewrite Hother by done.
        destruct (bool_decide_reflect (name ∈ names)) as [Hin|Hin].
        + rewrite bool_decide_eq_true_2; [done|by right].
        + rewrite bool_decide_eq_false_2; [done|]. by intros [?|?]%elem_of_cons. }
    destruct (is_reference v) eqn:Href.
    + destruct (negb skip_refs && negb (is_h5_dataset od)) eqn:Hskip.
      { apply Hstep; [|done]. unfold copy_of. rewrite Href.
        by destruct skip_refs, (is_h5_dataset od). }
      assert (skip_refs || is_h5_dataset od = true) as Hcopies
        by (by destruct skip_refs, (is_h5_dataset od)).
      destruct (is_region_reference v) eqn:Hregion.
      { apply Hstep; [|done]. unfold copy_of. by rewrite Href, Hregion, Hcopies. }
      rewrite attrs_setitem_with_attrs, bind_Ok_l by done. apply Hstep.
      * unfold copy_of. by rewrite Href, Hregion, Hcopies, lookup_insert_eq.
      * intros name Hnn. by rewrite lookup_insert_ne.
    + rewrite (Hclean n v Hv Href), bind_Ok_l.
      rewrite attrs_setitem_with_attrs, bind_Ok_l by done. apply Hstep.
      * unfold copy_of. by rewrite Href, lookup_insert_eq.
      * intros name Hnn. by rewrite lookup_insert_ne.
Qed.

Lemma attrs_keys_elem_of (attrs : gmap string attr) (name : string) :
  name ∈ attrs_keys attrs ↔ is_Some (attrs !! name).
Proof.
  unfold attrs_keys. rewrite list_elem_of_fmap. split.
  - intros ([k v] & -> & Hin). apply elem_of_map_to_list in Hin. by exists v.
  - intros [v Hv]. exists (name, v). split; [done|]. by apply elem_of_map_to_list.
Qed.

Lemma copy_attributes_loop_all clean_string_att cleaned f s d os od skip_refs :
  s ≠ d →
  objects f !! s = Some os →
  objects f !! d = Some od →
  obj_attrs os !! EmptyString = None →
  (∀ name v, obj_attrs os !! name = Some v → is_reference v = false →
             clean_string_att v = Ok (cleaned v)) →
  copy_attributes_loop clean_string_att f s d skip_refs (attrs_keys (obj_attrs os))
  = Ok (with_attrs f d od
          (omap (copy_of cleaned (skip_refs || is_h5_dataset od)) (obj_attrs os)
           ∪ obj_attrs od)).
Proof.
  intros Hsd Hs Hd Hempty Hclean.
  destruct (copy_attributes_loop_Ok clean_string_att cleaned f s d os od skip_refs
              (attrs_keys (obj_attrs os)) (obj_attrs od) Hsd Hs)
    as (attrs' & Hloop & Hattrs'); [|done|].
  { apply Forall_forall. intros name Hin. apply attrs_keys_elem_of in Hin.
    split; [|done]. intros ->. rewrite Hempty in Hin. by destruct Hin. }
  rewrite (with_attrs_id f d od Hd) in Hloop. rewrite Hloop. f_equal. f_equal.
  apply map_eq. intros name. rewrite Hattrs', lookup_union, lookup_omap.
  destruct (bool_decide_reflect (name ∈ attrs_keys (obj_attrs os))) as [Hin|Hin].
  - destruct (obj_attrs os !! name ≫= _) as [c|]; by destruct (obj_attrs od !! name).
  - rewrite attrs_keys_elem_of in Hin. apply eq_None_not_Some in Hin. rewrite Hin.
    cbn [mbind option_bind]. by destruct (obj_attrs od !! name).
Qed.

(** X20: [copy_attributes] with [skip_refs=True], its default, still copies
    the object references.  For two distinct objects of the file, when
    [clean_string_att] returns on every attribute of the source that is not
    a reference, the call returns, and the attributes of the destination are
    then the attributes of the source other than the region references - the
    object references as they are, the other values as cleaned - together
    with the attributes the destination had under other names; nothing else
    of the file changes. *)
Theorem copy_attributes_keeps_object_references
    (clean_string_att : attr → result attr) (cleaned : attr → attr)
    (copy_refs : h5file → nat → nat → bool → h5file * option exn)
    (f : h5file) (s d : nat) (os od : h5obj) :
  s ≠ d →
  objects f !! s = Some os →
  objects f !! d = Some od →
  obj_attrs os !! EmptyString = None →
  (∀ name v, obj_attrs os !! name = Some v → is_reference v = false →
             clean_string_att v = Ok (cleaned v)) →
  copy_attributes clean_string_att copy_refs f (H5Obj s) (H5Obj d) true
  = Ok (with_attrs f d od
          (omap (λ att_val, match att_val with
                            | AttrRegion _ _ => None
                            | AttrRef _ => Some att_val
                            | _ => Some (cleaned att_val)
                            end) (obj_attrs os)
           ∪ obj_attrs od)).
Proof.
  intros Hsd Hs Hd Hempty Hclean. unfold copy_attributes, as_obj.
  rewrite Hs, Hd. cbn [fmap option_fmap option_map].
  rewrite (copy_attributes_loop_all _ cleaned f s d os od true Hsd Hs Hd Hempty Hclean).
  rewrite bind_Ok_l. cbn [negb orb]. do 3 f_equal.
  apply omap_ext. intros name v _. by destruct v.
Qed.

Lemma copy_attributes_keeps_object_references_witness :
  copy_attributes Ok (λ f _ _ _, (f, None)) copy_file (H5Obj 0) (H5Obj 2) true
  = Ok (with_attrs copy_file 2 (H5Dataset filtered)
          (omap (λ att_val, match att_val with
                            | AttrRegion _ _ => None
                            | AttrRef _ => Some att_val
                            | _ => Some (id att_val)
                            end) (obj_attrs (H5Dataset raw_with_links))
           ∪ obj_attrs (H5Dataset filtered))).
Proof.
  apply (copy_attributes_keeps_object_references Ok id (λ f _ _ _, (f, None)) copy_file 0 2
           (H5Dataset raw_with_links) (H5Dataset filtered)).
  - lia.
  - reflexivity.
  - reflexivity.
  - reflexivity.
  - reflexivity.
Defined.

(** X21: [copy_attributes] with [skip_refs=False] and a group as destination
    copies no reference at all.  For two distinct objects of the file, the
    destination a group, when [clean_string_att] returns on every attribute
    of the source that is not a reference: the attributes of the destination
    become the attributes of the source that are not references, as cleaned,
    together with the attributes it had under other names; [copy_region_refs]
    then changes nothing, and the call returns unless [check_if_main] of the
    source raises something else than a [TypeError]. *)
Theorem copy_attributes_to_group_copies_no_reference
    (clean_string_att : attr → result attr) (cleaned : attr → attr)
    (copy_refs : h5file → nat → nat → bool → h5file * option exn)
    (f : h5file) (s d : nat) (os od : h5obj) :
  s ≠ d →
  objects f !! s = Some os →
  objects f !! d = Some od →
  is_h5_dataset od = false →
  obj_attrs os !! EmptyString = None →
  (∀ name v, obj_attrs os !! name = Some v → is_reference v = false →
             clean_string_att v = Ok (cleaned v)) →
  copy_attributes clean_string_att copy_refs f (H5Obj s) (H5Obj d) false
  = let f' := with_attrs f d od
                (omap (λ att_val, if is_reference att_val then None
                                  else Some (cleaned att_val)) (obj_attrs os)
                 ∪ obj_attrs od) in
    match check_if_main (main_of f' (H5Obj s)) with
    | Ok _ | Raise (TypeError _) => Ok f'
    | Raise e => Raise e
    end.
Proof.
  intros Hsd Hs Hd Hgroup Hempty Hclean. unfold copy_attributes, as_obj.
  rewrite Hs, Hd. cbn [fmap option_fmap option_map].
  rewrite (copy_attributes_loop_all _ cleaned f s d os od false Hsd Hs Hd Hempty Hclean).
  rewrite bind_Ok_l, Hgroup. cbn [negb orb].
  assert (omap (copy_of cleaned false) (obj_attrs os)
          = omap (λ att_val, if is_reference att_val then None else Some (cleaned att_val))
                 (obj_attrs os)) as ->.
  { apply omap_ext. intros name v _. unfold copy_of. by destruct (is_reference v). }
  cbv zeta. set (f' := with_attrs f d od _).
  unfold copy_region_refs.
  destruct (check_if_main (main_of f' (H5Obj s))) as [source_is_main|e]; [|by destruct e].
  destruct od as [dd|name attrs]; [done|].
  assert (objects f' !! d = Some (H5Group name (obj_attrs (obj_with_attrs (H5Group name attrs)
            (omap (λ att_val, if is_reference att_val then None else Some (cleaned att_val))
                  (obj_attrs os) ∪ attrs))))) as Hd'.
  { subst f'. by rewrite with_attrs_lookup, decide_True. }
  unfold main_of at 1, as_dataset, as_obj. rewrite Hd'.
  cbn [fmap option_fmap option_map check_if_main].
  by destruct (objects f' !! s) as [[]|].
Qed.

Lemma copy_attributes_to_group_copies_no_reference_witness :
  copy_attributes Ok (λ f _ _ _, (f, None)) copy_file (H5Obj 0) (H5Obj 3) false
  = let f' := with_attrs copy_file 3 (H5Group "/Measurement_000/Results" ∅)
                (omap (λ att_val, if is_reference att_val then None
                                  else Some (id att_val))
                      (obj_attrs (H5Dataset raw_with_links))
                 ∪ obj_attrs (H5Group "/Measurement_000/Results" ∅)) in
    match check_if_main (main_of f' (H5Obj 0)) with
    | Ok _ | Raise (TypeError _) => Ok f'
    | Raise e => Raise e
    end.
Proof.
  apply (copy_attributes_to_group_copies_no_reference Ok id (λ f _ _ _, (f, None))
           copy_file 0 3 (H5Dataset raw_with_links) (H5Group "/Measurement_000/Results" ∅)).
  - lia.
  - reflexivity.
  - reflexivity.
  - reflexivity.
  - reflexivity.
  - reflexivity.
Defined.

Lemma with_attrs_lookup_dataset f n dn attrs r d :
  objects f !! n = Some (H5Dataset dn) →
  objects f !! r = Some (H5Dataset d) →
  ∃ d', objects (with_attrs f n (H5Dataset dn) attrs) !! r = Some (H5Dataset d') ∧
        dset_shape d' = dset_shape d.
Proof.
  intros Hn Hr. rewrite with_attrs_lookup. destruct (decide (r = n)) as [->|Hne].
  - rewrite Hn in Hr. injection Hr as <-. by eexists.
  - by eexists.
Qed.

Lemma deref_Ok f r o : objects f !! r = Some o → deref f r = Ok o.
Proof. intros Hr. unfold deref. by rewrite Hr. Qed.

Lemma copy_main_attributes_Ok clean_string_att f m n main new q u cq cu :
  objects f !! m = Some (H5Dataset main) →
  objects f !! n = Some (H5Dataset new) →
  dset_attrs main !! "quantity" = Some q → clean_string_att q = Ok cq →
  dset_attrs main !! "units" = Some u → clean_string_att u = Ok cu →
  copy_main_attributes clean_string_att f (H5Obj m) (H5Obj n)
  = Ok (with_attrs f n (H5Dataset new)
          (<["units" := cu]> (<["quantity" := cq]> (dset_attrs new)))).
Proof.
  intros Hm Hn Hq Hcq Hu Hcu. unfold copy_main_attributes, as_dataset, as_obj.
  rewrite Hm, Hn. cbn [fmap option_fmap option_map copy_main_attributes_loop].
  rewrite (deref_Ok f m _ Hm), bind_Ok_l. unfold attrs_contains. cbn [obj_attrs].
  rewrite bool_decide_eq_true_2 by (by eexists). cbn [check].
  rewrite bind_Ok_l, get_attr_lookup. cbn [obj_attrs]. rewrite Hq, bind_Ok_l, Hcq, bind_Ok_l.
  rewrite <-(with_attrs_id f n (H5Dataset new) Hn) at 1.
  rewrite attrs_setitem_with_attrs, bind_Ok_l by done. cbn [obj_attrs].
  assert (∃ main', objects (with_attrs f n (H5Dataset new)
                              (<["quantity" := cq]> (dset_attrs new))) !! m
                   = Some (H5Dataset main') ∧
                   dset_attrs main' !! "units" = Some u) as (main' & Hm' & Hu').
  { rewrite with_attrs_lookup. destruct (decide (m = n)) as [->|Hne].
    - rewrite Hm in Hn. injection Hn as <-. eexists. split; [done|].
      cbn [dset_attrs]. by rewrite lookup_insert_ne.
    - by exists main. }
  rewrite (deref_Ok _ m _ Hm'), bind_Ok_l. cbn [obj_attrs].
  rewrite bool_decide_eq_true_2 by (by eexists). cbn [check].
  rewrite bind_Ok_l, get_attr_lookup. cbn [obj_attrs]. rewrite Hu', bind_Ok_l, Hcu, bind_Ok_l.
  by rewrite attrs_setitem_with_attrs, bind_Ok_l by done.
Qed.

(** X22: a dataset that takes 'quantity' and 'units' from a main dataset and
    is then linked becomes a main dataset.  When [h5_main] carries the two
    attributes and [clean_string_att] returns on them, [h5_new] is a
    two-dimensional dataset, the two position datasets have the same shape
    with as many rows as [h5_new] and the two spectroscopic datasets have
    the same shape with as many columns as it, then
    [copy_main_attributes(h5_main, h5_new)] and the [link_as_main] that
    follows both return, and [check_if_main(h5_new)] holds afterwards. *)
Theorem copy_main_attributes_then_link_as_main
    (clean_string_att : attr → result attr) (f : h5file) (m n pi pv si sv : nat)
    (main new dpi dpv dsi dsv : dataset Z) (q u cq cu : attr) (nrows ncols : nat) :
  objects f !! m = Some (H5Dataset main) →
  objects f !! n = Some (H5Dataset new) →
  objects f !! pi = Some (H5Dataset dpi) →
  objects f !! pv = Some (H5Dataset dpv) →
  objects f !! si = Some (H5Dataset dsi) →
  objects f !! sv = Some (H5Dataset dsv) →
  dset_attrs main !! "quantity" = Some q → clean_string_att q = Ok cq →
  dset_attrs main !! "units" = Some u → clean_string_att u = Ok cu →
  dset_shape new = [nrows; ncols] →
  dset_shape dpv = dset_shape dpi →
  dset_shape dsv = dset_shape dsi →
  shape_at (dset_shape dpi) 0 = Ok nrows →
  shape_at (dset_shape dsi) 1 = Ok ncols →
  ∃ f1 f2,
    copy_main_attributes clean_string_att f (H5Obj m) (H5Obj n) = Ok f1 ∧
    link_as_main f1 (H5Obj n) (H5Obj pi) (H5Obj pv) (H5Obj si) (H5Obj sv) AncDsetsNone
    = Ok f2 ∧
    check_if_main (main_of f2 (H5Obj n)) = Ok true.
Proof.
  intros Hm Hn Hpi Hpv Hsi Hsv Hq Hcq Hu Hcu Hshape Hps Hss Hrows Hcols.
  set (attrs := <["units" := cu]> (<["quantity" := cq]> (dset_attrs new))).
  set (new' := Dataset (dset_name new) (dset_data new) attrs).
  set (f1 := with_attrs f n (H5Dataset new) attrs).
  assert (objects f1 !! n = Some (H5Dataset new')) as Hn'.
  { subst f1. by rewrite with_attrs_lookup, decide_True. }
  destruct (with_attrs_lookup_dataset f n new attrs pi dpi Hn Hpi) as (dpi' & Hpi' & Hspi).
  destruct (with_attrs_lookup_dataset f n new attrs pv dpv Hn Hpv) as (dpv' & Hpv' & Hspv).
  destruct (with_attrs_lookup_dataset f n new attrs si dsi Hn Hsi) as (dsi' & Hsi' & Hssi).
  destruct (with_attrs_lookup_dataset f n new attrs sv dsv Hn Hsv) as (dsv' & Hsv' & Hssv).
  exists f1. eexists. split; [by eapply copy_main_attributes_Ok|].
  split.
  - eapply (link_as_main_Ok f1 n pi pv si sv new' dpi' dpv' dsi' dsv'); try done; congruence.
  - eapply (check_if_main_linked f1 n pi pv si sv new' dpi' dpv' dsi' dsv' nrows ncols);
      try done; try congruence.
    + exists cq. subst new' attrs. cbn [dset_attrs].
      by rewrite lookup_insert_ne, lookup_insert_eq.
    + exists cu. subst new' attrs. cbn [dset_attrs]. by rewrite lookup_insert_eq.
Qed.

Lemma copy_main_attributes_then_link_as_main_witness :
  ∃ f1 f2,
    copy_main_attributes Ok derived_file (H5Obj 0) (H5Obj 5) = Ok f1 ∧
    link_as_main f1 (H5Obj 5) (H5Obj 1) (H5Obj 2) (H5Obj 3) (H5Obj 4) AncDsetsNone = Ok f2 ∧
    check_if_main (main_of f2 (H5Obj 5)) = Ok true.
Proof.
  eapply (copy_main_attributes_then_link_as_main Ok derived_file 0 5 1 2 3 4
            unlinked_main _ _ _ _ _ (AttrStr "Current") (AttrStr "nA") _ _ 2 3);
    reflexivity.
Defined.

Lemma write_simple_attrs_loop_Ok clean_string_att cleaned f r o items attrs :
  Forall (λ item, ∀ v, item.2 = Some v →
                       item.1 ≠ EmptyString ∧ clean_string_att v = Ok (cleaned v)) items →
  NoDup items.*1 →
  ∃ attrs',
    write_simple_attrs_loop clean_string_att (with_attrs f r o attrs) r items
    = Ok (with_attrs f r o attrs') ∧
    ∀ key, attrs' !! key
           = match (list_to_map items : gmap string (option attr)) !! key with
             | Some (Some v) => Some (cleaned v)
             | _ => attrs !! key
             end.
Proof.
  intros Hitems. revert attrs.
  induction Hitems as [|[k val] items Hitem _ IH]; intros attrs Hnodup.
  - exists attrs. split; [done|]. intros key. by rewrite list_to_map_nil, lookup_empty.
  - rewrite fmap_cons in Hnodup. apply NoDup_cons in Hnodup as [Hk Hnodup]. cbn [fst] in Hk.
    assert ((list_to_map items : gmap string (option attr)) !! k = None) as Hfresh
      by (by apply not_elem_of_list_to_map).
    cbn [write_simple_attrs_loop]. destruct val as [v|].
    + destruct (Hitem v eq_refl) as [Hne Hclean]. cbn [fst] in Hne.
      rewrite Hclean, bind_Ok_l, attrs_setitem_with_attrs, bind_Ok_l by done.
      destruct (IH (<[k := cleaned v]> attrs) Hnodup) as (attrs' & -> & Hattrs').
      exists attrs'. split; [done|]. intros key. rewrite Hattrs', list_to_map_cons.
      destruct (decide (key = k)) as [->|Hkey].
      * by rewrite Hfresh, !lookup_insert_eq.
      * by rewrite !lookup_insert_ne.
    + destruct (IH attrs Hnodup) as (attrs' & -> & Hattrs').
      exists attrs'. split; [done|]. intros key. rewrite Hattrs', list_to_map_cons.
      destruct (decide (key = k)) as [->|Hkey].
      * by rewrite Hfresh, lookup_insert_eq.
      * by rewrite lookup_insert_ne.
Qed.

(** X23: [write_simple_attrs] writes the entries of the dictionary that are
    not [None] and nothing else.  For an object of the file and a dictionary
    (its keys are distinct) in which every value other than [None] has a
    non-empty key and is accepted by [clean_string_att], the call returns;
    the object then holds, under each key with such a value, the cleaned
    value, and under every other name - also a key whose value is [None] -
    what it held before; the other objects are unchanged. *)
Theorem write_simple_attrs_writes_all_but_none
    (clean_string_att : attr → result attr) (cleaned : attr → attr)
    (f : h5file) (r : nat) (o : h5obj) (items : list (string * option attr)) :
  objects f !! r = Some o →
  NoDup items.*1 →
  Forall (λ item, ∀ v, item.2 = Some v →
                       item.1 ≠ EmptyString ∧ clean_string_att v = Ok (cleaned v)) items →
  ∃ attrs',
    write_simple_attrs clean_string_att f (H5Obj r) (AttrsDict items)
    = Ok (with_attrs f r o attrs') ∧
    ∀ key, attrs' !! key
           = match (list_to_map items : gmap string (option attr)) !! key with
             | Some (Some v) => Some (cleaned v)
             | _ => obj_attrs o !! key
             end.
Proof.
  intros Hr Hnodup Hitems. unfold write_simple_attrs, as_obj. rewrite Hr.
  cbn [fmap option_fmap option_map].
  destruct (write_simple_attrs_loop_Ok clean_string_att cleaned f r o items (obj_attrs o)
              Hitems Hnodup) as (attrs' & Hloop & Hattrs').
  rewrite (with_attrs_id f r o Hr) in Hloop. by exists attrs'.
Qed.

Lemma write_simple_attrs_writes_all_but_none_witness :
  ∃ attrs',
    write_simple_attrs Ok copy_file (H5Obj 2)
      (AttrsDict [("quantity", Some (AttrStr "Voltage")); ("units", None)])
    = Ok (with_attrs copy_file 2 (H5Dataset filtered) attrs') ∧
    ∀ key, attrs' !! key
           = match (list_to_map [("quantity", Some (AttrStr "Voltage")); ("units", None)]
                    : gmap string (option attr)) !! key with
             | Some (Some v) => Some (id v)
             | _ => obj_attrs (H5Dataset filtered) !! key
             end.
Proof.
  apply (write_simple_attrs_writes_all_but_none Ok id copy_file 2 (H5Dataset filtered)
           [("quantity", Some (AttrStr "Voltage")); ("units", None)]).
  - reflexivity.
  - refine (bool_decide_unpack (NoDup ["quantity"; "units"]) _). vm_compute. exact I.
  - repeat constructor; cbn in *; congruence.
Defined.

(** ** Properties of [write_reduced_spec_dsets] *)

(** X24: [write_reduced_spec_dsets] never reduces a square indices dataset.
    Although its datasets are spectroscopic by its name, the orientation is
    left to be read off the shape, so that for an indices dataset with as
    many rows as columns the call raises, whatever the group, the values
    dataset, the dimensions to drop and the base name are. *)
Theorem write_reduced_spec_dsets_square_raises {V} (zero : V) (h5_parent_group : group_arg)
    (h5_spec_inds : dataset Z) (h5_spec_vals : array_arg V) (dim_name : names_arg)
    (basename : option string) (n : nat) :
  dset_shape h5_spec_inds = [n; n] →
  raises (write_reduced_spec_dsets zero h5_parent_group (ArgDataset h5_spec_inds)
            h5_spec_vals dim_name basename).
Proof.
  intros Hshape. unfold write_reduced_spec_dsets, write_reduced_anc_dsets.
  destruct h5_parent_group as [g|]; [|done].
  destruct h5_spec_vals as [vals| |]; try done.
  destruct (get_attr _ _ ≫= list_of_attr) as [all_dim_names|]; [|done]. rewrite bind_Ok_l.
  destruct (names_of dim_name) as [names|]; [|done]. rewrite bind_Ok_l.
  destruct (forallb _ names); [|done]. cbn [check]. rewrite bind_Ok_l.
  unfold resolve_is_spec. rewrite Hshape. cbn [shape_at lookup list_lookup].
  rewrite !bind_Ok_l, Nat.eqb_refl. done.
Qed.

Lemma write_reduced_spec_dsets_square_raises_witness :
  raises (write_reduced_spec_dsets 0%Z (GroupArg results_group)
            (ArgDataset (Dataset "Spectroscopic_Indices"
                                 (NdArray [2; 2] [0; 1; 0; 0]%Z) anc_attrs))
            (ArgDataset (Dataset "Spectroscopic_Values"
                                 (NdArray [2; 2] [0; 1; 0; 0]%Z) anc_attrs))
            (NamesStr "Cycle") (Some "Spectroscopic")).
Proof.
  apply (write_reduced_spec_dsets_square_raises 0%Z (GroupArg results_group)
           (Dataset "Spectroscopic_Indices" (NdArray [2; 2] [0; 1; 0; 0]%Z) anc_attrs)
           _ _ _ 2).
  reflexivity.
Defined.

(** ** Properties of [find_results_groups] *)


Lemma contains_startswith (s sub : string) : startswith s sub = true → contains s sub = true.
Proof. intros Hs. destruct s; cbn [contains]; by rewrite Hs. Qed.

Lemma contains_prefix (s rest : string) : contains (s +:+ rest) s = true.
Proof. apply contains_startswith, startswith_app. Qed.

Lemma contains_app_r (before s sub : string) :
  contains s sub = true → contains (before +:+ s) sub = true.
Proof.
  intros Hs. induction before as [|c before IH]; [done|].
  rewrite append_cons. cbn [contains]. rewrite IH. apply orb_true_r.
Qed.

Lemma startswith_app_l (s rest sub : string) :
  startswith s sub = true → startswith (s +:+ rest) sub = true.
Proof.
  revert sub. induction s as [|c s IH]; intros [|d sub] Hs; try done.
  { by destruct rest. }
  rewrite append_cons. cbn [startswith] in *.
  apply andb_true_iff in Hs as [-> Hs]. by rewrite IH.
Qed.

Lemma contains_app_l (s rest sub : string) :
  contains s sub = true → contains (s +:+ rest) sub = true.
Proof.
  induction s as [|c s IH]; intros Hs.
  - destruct sub; [|done]. by destruct rest.
  - rewrite append_cons. cbn [contains] in *.
    apply orb_true_iff in Hs as [Hs|Hs].
    + rewrite <-append_cons. by rewrite (startswith_app_l (String c s)).
    + rewrite IH by done. apply orb_true_r.
Qed.

Lemma find_results_groups_complete name parent tool_name key :
  h5g_members parent !! key = Some SubGroup →
  contains key (last_component name) = true →
  contains key tool_name = true →
  ∃ groups, find_results_groups (IsH5Dataset name parent) tool_name = Ok groups ∧
            key ∈ groups.
Proof.
  intros Hkey Hdset Htool. eexists. split; [done|].
  apply list_elem_of_filter. split; [done|].
  apply list_elem_of_fmap. exists (key, SubGroup). split; [done|].
  by apply elem_of_map_to_list.
Qed.



(** X26: [find_results_groups] does not tell apart datasets whose names lie
    inside one another.  A group of the parent named after another dataset
    of the same parent - that dataset's name, a hyphen, the tool name and
    anything after it - is returned for [h5_main] as well whenever the name
    of [h5_main] occurs in the name of the other dataset. *)
Theorem find_results_groups_of_longer_name (name : string) (parent : h5group)
    (tool_name other rest : string) :
  contains other (last_component name) = true →
  h5g_members parent !! (other +:+ "-" +:+ tool_name +:+ rest) = Some SubGroup →
  ∃ groups, find_results_groups (IsH5Dataset name parent) tool_name = Ok groups ∧
            other +:+ "-" +:+ tool_name +:+ rest ∈ groups.
Proof.
  intros Hother Hgroup. apply find_results_groups_complete; [done|..].
  - by apply contains_app_l.
  - apply contains_app_r, contains_app_r, contains_prefix.
Qed.

Lemma find_results_groups_of_longer_name_witness :
  ∃ groups,
    find_results_groups (IsH5Dataset "/Measurement_000/Channel_000/Raw" channel_group) "Fit"
    = Ok groups ∧
    "Raw_Data" +:+ "-" +:+ "Fit" +:+ "_000" ∈ groups.
Proof.
  apply (find_results_groups_of_longer_name "/Measurement_000/Channel_000/Raw" channel_group
           "Fit" "Raw_Data" "_000").
  - reflexivity.
  - reflexivity.
Defined.
